(** * export_from_Slicer.py: batch export of segmentations to surface meshes

    A shallow embedding of [src/export_from_Slicer.py] and the properties of
    its control flow.  The script runs inside 3D Slicer; the host application
    (scene, segmentation loader, VTK writers) and the file system are state
    that the script threads through its calls, so the three functions of the
    script ([export_segmentation], [create_directory], [main]) are written in
    a state-and-exception monad over a [World].

    Conventions of the model.
    - A [Path] is the list of its components from the root; [p </> c] appends
      one component (labels, case names and segment ids contain no
      separator).
    - Strings are 8-bit strings; [lower] is the ASCII part of [str.lower].
    - What the host application answers (does a volume load, does it have a
      closed surface, which segments) is not in the script: it is an oracle,
      a [Variable] of the section that contains the script.  The calls the
      script makes into the host are kept, in order, in the [calls] of the
      world.
    - The view node [vtkMRMLViewNode1] is there, [import pandas] succeeds,
      and a writer's [Write()] does not raise: VTK reports its failures on
      its own channel.
    - The writer object is configured ([SetInputData], [SetFileName],
      [SetFilePrefix], ...) and then asked to [Write()] within one turn of
      the loop over the segments; the model passes the files of that turn to
      [Write] directly. *)

From Stdlib Require Import ZArith String Ascii List Lia DecimalString.
From stdpp Require Import base option list gmap strings sorting.
Import ListNotations.

Local Open Scope string_scope.
Local Open Scope list_scope.
Local Open Scope Z_scope.

(** ** Strings *)

Module Str.

(** [str.lower] on one ASCII character: 'A'..'Z' move down by 32. *)
Definition lower_ascii (c : ascii) : ascii :=
  let n := nat_of_ascii c in
  if ((65 <=? n)%nat && (n <=? 90)%nat)%bool then ascii_of_nat (n + 32) else c.

Fixpoint lower (s : string) : string :=
  match s with
  | EmptyString => EmptyString
  | String c s' => String (lower_ascii c) (lower s')
  end.

(** Two characters are the same letter up to case: equal, or one is the
    upper-case form of the other.  This follows the words "matching
    case-insensitively" and does not mention [lower]. *)
Definition same_letter (a b : ascii) : bool :=
  let x := nat_of_ascii a in
  let y := nat_of_ascii b in
  ((x =? y)%nat
   || ((65 <=? x)%nat && (x <=? 90)%nat && (y =? x + 32)%nat)
   || ((65 <=? y)%nat && (y <=? 90)%nat && (x =? y + 32)%nat))%bool.

Fixpoint matches_ci (s t : string) : bool :=
  match s, t with
  | EmptyString, EmptyString => true
  | String a s', String b t' => (same_letter a b && matches_ci s' t')%bool
  | _, _ => false
  end.

(** A word without upper-case letters. *)
Fixpoint no_upper (t : string) : bool :=
  match t with
  | EmptyString => true
  | String b t' =>
      (negb ((65 <=? nat_of_ascii b)%nat && (nat_of_ascii b <=? 90)%nat) && no_upper t')%bool
  end.

(** [f"{n}"] for a Python int. *)
Definition of_Z (z : Z) : string := NilZero.string_of_int (Z.to_int z).

(** The order [sorted] uses on [str]: code points, here bytes. *)
Definition le (a b : string) : Prop := String.leb a b = true.

#[export] Instance le_dec : RelDecision le.
Proof. intros a b. unfold le. apply _. Defined.

#[export] Instance le_total : Total le.
Proof. intros a b. apply String.leb_total. Qed.

End Str.
Export (hints) Str.

(** ** Paths *)

Definition Path := list string.

(** [p / c] in pathlib *)
Definition join (p : Path) (c : string) : Path := p ++ [c].
Infix "</>" := join (at level 40, left associativity).

(** [p.name]: the last component, [""] for the root. *)
Definition name (p : Path) : string := List.last p "".

(** [p.parents[i]]: [IndexError] (here [None]) when [p] has no more than [i]
    components. *)
Definition parents (p : Path) (i : nat) : option Path :=
  if (i <? length p)%nat then Some (take (length p - S i) p) else None.

(** [str(p)] *)
Definition str (p : Path) : string :=
  match p with
  | [] => "/"
  | _ => String.concat "" (List.map (fun c => "/" +:+ c) p)
  end.

(** ** Exceptions and the monad of the script *)

Inductive Exn :=
| ValueError (msg : string)
| NameError (var : string)
| IndexError
| FileNotFoundError (p : Path)
| NotADirectoryError (p : Path)
| IsADirectoryError (p : Path)
| FileExistsError (p : Path)
| OSError (p : Path)
| RuntimeError (msg : string).

Inductive res (A : Type) :=
| Ret (a : A)
| Raise (e : Exn).
Arguments Ret {A} a.
Arguments Raise {A} e.

(** ** The file system *)

(** What a file holds.  The script never reads a file itself; it hands paths
    to the host application, and it is the writers that produce contents. *)
Inductive content :=
| Opaque (tag : string)                       (* an input file, e.g. a NIfTI volume *)
| Text (lines : list string)                  (* the line log *)
| Sheet (columns : list string) (rows : list (string * Z))   (* the .xlsx table *)
| Surface (node segment : string) (binary : bool)  (* poly data of one segment *)
| Rendering (node segment : string).          (* what a scene exporter wrote *)

#[warnings="-register-all"]
Inductive node :=
| File (c : content)
| Dir (entries : gmap string node).

Module FS.

(** The node at [p], if there is one. *)
Fixpoint lookup (n : node) (p : Path) : option node :=
  match p with
  | [] => Some n
  | c :: p' =>
      match n with
      | Dir es => match es !! c with Some ch => lookup ch p' | None => None end
      | File _ => None
      end
  end.

(** [p.exists()] *)
Definition exists_ (n : node) (p : Path) : bool :=
  match lookup n p with Some _ => true | None => false end.

Definition is_dir (n : node) : bool :=
  match n with Dir _ => true | File _ => false end.

(** Unlink the entry at [p] with everything below it. *)
Fixpoint remove (n : node) (p : Path) : node :=
  match p with
  | [] => n
  | c :: p' =>
      match n with
      | Dir es =>
          match p' with
          | [] => Dir (delete c es)
          | _ => match es !! c with
                 | Some ch => Dir (<[c := remove ch p']> es)
                 | None => n
                 end
          end
      | File _ => n
      end
  end.

(** [shutil.rmtree(p)]: [p] must be a directory; the root can be emptied
    but not removed. *)
Definition rmtree (n : node) (p : Path) : node * res unit :=
  match lookup n p with
  | None => (n, Raise (FileNotFoundError p))
  | Some (File _) => (n, Raise (NotADirectoryError p))
  | Some (Dir _) =>
      match p with
      | [] => (Dir ∅, Raise (OSError p))
      | _ => (remove n p, Ret tt)
      end
  end.

(** [p.mkdir(exist_ok=True, parents=True)] below [n]; [at_] is the path of
    [n], for the exception. *)
Fixpoint mkdir (at_ : Path) (n : node) (p : Path) : res node :=
  match n with
  | File _ =>
      match p with
      | [] => Raise (FileExistsError at_)
      | _ => Raise (NotADirectoryError at_)
      end
  | Dir es =>
      match p with
      | [] => Ret n
      | c :: p' =>
          match mkdir (at_ </> c) (default (Dir ∅) (es !! c)) p' with
          | Ret ch => Ret (Dir (<[c := ch]> es))
          | Raise e => Raise e
          end
      end
  end.

(** Put the node [x] at [p] when the parent of [p] is a directory. *)
Fixpoint put (n : node) (p : Path) (x : node) : option node :=
  match p with
  | [] => Some x
  | c :: p' =>
      match n with
      | Dir es =>
          match p' with
          | [] => Some (Dir (<[c := x]> es))
          | _ => match es !! c with
                 | Some ch =>
                     match put ch p' x with
                     | Some ch' => Some (Dir (<[c := ch']> es))
                     | None => None
                     end
                 | None => None
                 end
          end
      | File _ => None
      end
  end.

(** The names of the sub-directories of a directory, as [iterdir] with
    the [is_dir] filter lists them (in no particular order). *)
Definition subdirs (es : gmap string node) : list string :=
  (map_to_list (filter (fun kv => is_dir kv.2 = true) es)).*1.

(** The path [q] leaves the path [p] at some component: neither is above
    the other. *)
Definition diverges (p q : Path) : Prop :=
  exists r a b p' q', a <> b /\ p = r ++ a :: p' /\ q = r ++ b :: q'.

End FS.

(** ** The host application *)

(** The four writer objects [main] can construct. *)
Inductive Writer :=
| vtkOBJExporter
| vtkSTLWriter
| vtkPLYWriter
| vtkGLTFExporter.

(** What [loadSegmentation] hands back: whether
    [CreateClosedSurfaceRepresentation] succeeds, and the segments in the
    order of [GetNthSegmentID], each with the answer of
    [GetClosedSurfaceRepresentation] for it. *)
Record Segmentation := mkSegmentation {
  closed_surface : bool;
  segments : list (string * bool) }.

(** The calls into the host application, in the order they are made. *)
Inductive Call :=
| CallLoadSegmentation (file_path : Path) (node_name : string)
| CallCreateClosedSurfaceRepresentation
| CallGetNumberOfSegments
| CallGetClosedSurfaceRepresentation (segmentID : string)
| CallWrite (writer : Writer) (files : list Path)
| CallClear.

(** Everything the script reads and changes.  [skip_image_id], [df] and
    [f_log] are the objects [main] mutates in place: the list the caller
    passed, the data frame and the buffer of the open log file. *)
Record World := mkWorld {
  fs : node;
  scene : list string;
  axis_labels_visible : bool;
  box_visible : bool;
  stdout : list string;
  calls : list Call;
  skip_image_id : list string;
  df : list (string * Z);
  f_log : list string }.

Definition with_fs (x : node) (w : World) : World :=
  mkWorld x (scene w) (axis_labels_visible w) (box_visible w) (stdout w)
          (calls w) (skip_image_id w) (df w) (f_log w).
Definition with_scene (x : list string) (w : World) : World :=
  mkWorld (fs w) x (axis_labels_visible w) (box_visible w) (stdout w)
          (calls w) (skip_image_id w) (df w) (f_log w).
Definition with_view (axis box : bool) (w : World) : World :=
  mkWorld (fs w) (scene w) axis box (stdout w)
          (calls w) (skip_image_id w) (df w) (f_log w).
Definition with_stdout (x : list string) (w : World) : World :=
  mkWorld (fs w) (scene w) (axis_labels_visible w) (box_visible w) x
          (calls w) (skip_image_id w) (df w) (f_log w).
Definition with_calls (x : list Call) (w : World) : World :=
  mkWorld (fs w) (scene w) (axis_labels_visible w) (box_visible w) (stdout w)
          x (skip_image_id w) (df w) (f_log w).
Definition with_skip_image_id (x : list string) (w : World) : World :=
  mkWorld (fs w) (scene w) (axis_labels_visible w) (box_visible w) (stdout w)
          (calls w) x (df w) (f_log w).
Definition with_df (x : list (string * Z)) (w : World) : World :=
  mkWorld (fs w) (scene w) (axis_labels_visible w) (box_visible w) (stdout w)
          (calls w) (skip_image_id w) x (f_log w).
Definition with_f_log (x : list string) (w : World) : World :=
  mkWorld (fs w) (scene w) (axis_labels_visible w) (box_visible w) (stdout w)
          (calls w) (skip_image_id w) (df w) x.

(** State and exceptions. *)
Definition M (A : Type) : Type := World -> World * res A.

Definition ret {A} (a : A) : M A := fun w => (w, Ret a).
Definition raise {A} (e : Exn) : M A := fun w => (w, Raise e).
Definition bind {A B} (m : M A) (k : A -> M B) : M B :=
  fun w => match m w with
           | (w1, Ret a) => k a w1
           | (w1, Raise e) => (w1, Raise e)
           end.
Definition modify (f : World -> World) : M unit := fun w => (f w, Ret tt).
Definition gets {A} (f : World -> A) : M A := fun w => (w, Ret (f w)).

Declare Scope py_scope.
Delimit Scope py_scope with py.
Notation "'let*' x := m 'in' k" := (bind m (fun x => k))
  (at level 10, x name, m at level 100, k at level 200, only parsing) : py_scope.
Notation "m ;; k" := (bind m (fun _ => k))
  (at level 100, k at level 200, right associativity, only parsing) : py_scope.
Local Open Scope py_scope.

Definition print (line : string) : M unit :=
  modify (fun w => with_stdout (stdout w ++ [line]) w).
Definition call (c : Call) : M unit :=
  modify (fun w => with_calls (calls w ++ [c]) w).

(** The line feed of ["...\n"]. *)
Definition nl : string := String (ascii_of_nat 10) EmptyString.

(** A writer's [Write()] stores a file when the directory it goes to is
    there and the name is not taken by a directory; otherwise VTK reports
    the failure on its own channel and the script goes on. *)
Definition store (p : Path) (c : content) (n : node) : node :=
  match FS.lookup n p with
  | Some (Dir _) => n
  | _ => default n (FS.put n p (File c))
  end.

Definition Write (writer : Writer) (files : list (Path * content)) : M unit :=
  modify (fun w => with_fs (foldl (fun n pc => store pc.1 pc.2 n) (fs w) files) w);;
  call (CallWrite writer files.*1).

(** ** The script *)

Section Script.

(** [slicer.util.loadSegmentation] on the current file system: [None]
    when the call raises. *)
Variable load : node -> Path -> option Segmentation.

(** The module-level name [export_type]: bound when the file runs as a
    script (its last block assigns it), unbound when [main] is called from
    an importing module. *)
Variable global_export_type : option string.

Definition loadSegmentation (file_path : Path) (node_name : string) : M Segmentation :=
  call (CallLoadSegmentation file_path node_name);;
  let* found := gets (fun w => load (fs w) file_path) in
  match found with
  | Some seg =>
      modify (fun w => with_scene (scene w ++ [node_name]) w);;
      ret seg
  | None => raise (RuntimeError "Failed to load node from file")
  end.

(** [{save_path/segmentationNode.GetName()}_{segmentID}] followed by an
    extension. *)
Definition target (save_path : Path) (node_name segmentID ext : string) : Path :=
  save_path </> (node_name +:+ "_" +:+ segmentID +:+ ext).

(** The body of [for segmentIndex in range(n_segments)], lines 51-85. *)
Fixpoint export_segments (save_path : Path) (node_name : string) (writer : Writer)
         (segs : list (string * bool)) : M unit :=
  match segs with
  | [] => ret tt
  | (segmentID, is_ClosedSurface) :: rest =>
      call (CallGetClosedSurfaceRepresentation segmentID);;
      if negb is_ClosedSurface then
        export_segments save_path node_name writer rest
      else
        (match writer with
         | vtkSTLWriter =>
             Write writer
               [(target save_path node_name segmentID ".stl",
                 Surface node_name segmentID false)]
         | vtkOBJExporter =>
             Write writer
               [(target save_path node_name segmentID ".obj",
                 Rendering node_name segmentID);
                (target save_path node_name segmentID ".mtl",
                 Rendering node_name segmentID)]
         | vtkPLYWriter =>
             Write writer
               [(target save_path node_name segmentID ".ply",
                 Surface node_name segmentID true)]
         | vtkGLTFExporter =>
             (* the [else] of line 81: none of the three [isinstance] tests holds *)
             match global_export_type with
             | Some t => raise (ValueError ("Export type " +:+ t +:+ " is not supported"))
             | None => raise (NameError "export_type")
             end
         end);;
        export_segments save_path node_name writer rest
  end.

Definition is_scene_exporter (writer : Writer) : bool :=
  match writer with
  | vtkOBJExporter | vtkGLTFExporter => true
  | _ => false
  end.

(** Lines 22-87. *)
Definition export_segmentation (file_path save_path : Path) (writer : Writer) : M Z :=
  match parents file_path 1 with
  | None => raise IndexError
  | Some case_dir =>
      let* segmentationNode := loadSegmentation file_path (name case_dir) in
      call CallCreateClosedSurfaceRepresentation;;
      if negb (closed_surface segmentationNode) then ret (-1)
      else
        call CallGetNumberOfSegments;;
        let n_segments := Z.of_nat (length (segments segmentationNode)) in
        if n_segments =? 0 then ret 0
        else
          (if is_scene_exporter writer
           then modify (with_view false false)
           else ret tt);;
          export_segments save_path (name case_dir) writer (segments segmentationNode);;
          ret n_segments
  end.

(** Lines 90-93. *)
Definition create_directory (path : Path) : M unit :=
  fun w =>
    let '(n, r) :=
      if FS.exists_ (fs w) path then FS.rmtree (fs w) path else (fs w, Ret tt) in
    match r with
    | Raise e => (with_fs n w, Raise e)
    | Ret _ =>
        match FS.mkdir [] n path with
        | Ret n' => (with_fs n' w, Ret tt)
        | Raise e => (with_fs n w, Raise e)
        end
    end.

(** [x in xs] and [xs.remove(x)] on a Python list. *)
Definition contains (x : string) (xs : list string) : bool := bool_decide (x ∈ xs).

Fixpoint remove_first (x : string) (xs : list string) : list string :=
  match xs with
  | [] => []
  | y :: ys => if decide (x = y) then ys else y :: remove_first x ys
  end.

(** One entry of the summary: a row of the data frame when [use_pandas],
    a line of the log file otherwise. *)
Definition record (use_pandas : bool) (row : string * Z) (line : string) : M unit :=
  if use_pandas
  then modify (fun w => with_df (df w ++ [row]) w)
  else modify (fun w => with_f_log (f_log w ++ [line]) w).

Definition seg_path_of (data_path : Path) (patient_id selected_segment : string) : Path :=
  data_path </> patient_id </> "segmentations" </> (selected_segment +:+ ".nii.gz").

Section Loop.

Variables (data_path save_path : Path) (selected_segment : string)
          (writer : Writer) (use_pandas debug : bool).

(** One turn of the loop of lines 139-173, for [patient_id] with the
    counter at [count]: the new counter, and whether the turn ended in
    [break]. *)
Definition iteration (patient_id : string) (count : nat) : M (nat * bool) :=
  let* skip := gets skip_image_id in
  if contains patient_id skip then
    modify (with_skip_image_id (remove_first patient_id skip));;
    record use_pandas (patient_id, -2) (patient_id +:+ " is skipped" +:+ nl);;
    ret (count, false)
  else
    let seg_path := seg_path_of data_path patient_id selected_segment in
    let* present := gets (fun w => FS.exists_ (fs w) seg_path) in
    (if negb present then
       print (str seg_path +:+ " doesn't exist");;
       record use_pandas (patient_id, 0)
              (patient_id +:+ " doesn't have segmentation" +:+ nl)
     else ret tt);;
    let* _status := export_segmentation seg_path save_path writer in
    record use_pandas (patient_id, _status)
           (patient_id +:+ " exported " +:+ Str.of_Z _status +:+ " segments" +:+ nl);;
    call CallClear;;
    modify (with_scene []);;
    let count := S count in
    ret (count, debug && (10 <? count)%nat).

Fixpoint loop (patient_ids : list string) (count : nat) : M nat :=
  match patient_ids with
  | [] => ret count
  | patient_id :: rest =>
      let* out := iteration patient_id count in
      if out.2 then ret out.1 else loop rest out.1
  end.

End Loop.

(** Lines 103-113. *)
Definition pick_writer (export_type : string) : option Writer :=
  if String.eqb export_type "obj" then Some vtkOBJExporter
  else if String.eqb export_type "stl" then Some vtkSTLWriter
  else if String.eqb export_type "ply" then Some vtkPLYWriter
  else if String.eqb export_type "gltf" then Some vtkGLTFExporter
  else None.

(** [open(p, "w")]: the file is created empty, or emptied. *)
Definition open_w (p : Path) : M unit :=
  fun w =>
    match FS.lookup (fs w) p with
    | Some (Dir _) => (w, Raise (IsADirectoryError p))
    | _ =>
        match FS.put (fs w) p (File (Text [])) with
        | Some n => (with_f_log [] (with_fs n w), Ret tt)
        | None => (w, Raise (FileNotFoundError p))
        end
    end.

(** [f_log.close()]: what was written reaches the file. *)
Definition close (p : Path) : M unit :=
  modify (fun w => with_fs (store p (Text (f_log w)) (fs w)) w).

(** [df.to_excel(p, index=False)] *)
Definition to_excel (p : Path) : M unit :=
  fun w =>
    match FS.lookup (fs w) p with
    | Some (Dir _) => (w, Raise (IsADirectoryError p))
    | _ =>
        match FS.put (fs w) p (File (Sheet ["patient_id"; "n_segment"] (df w))) with
        | Some n => (with_fs n w, Ret tt)
        | None => (w, Raise (FileNotFoundError p))
        end
    end.

(** [sorted([folder.name for folder in data_path.iterdir() if folder.is_dir()])] *)
Definition list_patient_ids (data_path : Path) : M (list string) :=
  let* found := gets (fun w => FS.lookup (fs w) data_path) in
  match found with
  | None => raise (FileNotFoundError data_path)
  | Some (File _) => raise (NotADirectoryError data_path)
  | Some (Dir es) => ret (merge_sort Str.le (FS.subdirs es))
  end.

(** Lines 96-184.  [main] returns nothing in Python; the final counter is
    returned here so that it can be spoken about. *)
Definition main (data_path export_path : Path) (selected_segment export_type : string)
           (skip : option (list string)) (use_pandas debug : bool) : M nat :=
  modify (with_skip_image_id (default [] skip));;
  let export_type := Str.lower export_type in
  match pick_writer export_type with
  | None => raise (ValueError ("Export type " +:+ export_type +:+ " is not supported"))
  | Some writer =>
      let save_path :=
        export_path </> (name data_path +:+ "__" +:+ selected_segment +:+ "__" +:+ export_type) in
      create_directory save_path;;
      let save_log_path := export_path </> (name save_path +:+ "__log.log") in
      (if use_pandas then modify (with_df []) else open_w save_log_path);;
      let* patient_ids := list_patient_ids data_path in
      let* count := loop data_path save_path selected_segment writer use_pandas debug
                         patient_ids 0 in
      print ("Exported " +:+ Str.of_Z (Z.of_nat count) +:+ " patients");;
      (if use_pandas then
         let save_excel_path := export_path </> (name save_path +:+ "__log.xlsx") in
         to_excel save_excel_path;;
         print ("Saved excel file to " +:+ str save_excel_path)
       else
         close save_log_path;;
         print ("Saved log file to " +:+ str save_log_path));;
      ret count
  end.

End Script.

(** Lines 187-212: the file run as a script.  The module-level names are
    bound by then, [export_type] among them, before [main] is called. *)
Definition TotalSegmentor_path : Path :=
  ["Users"; "khoanguyen-tuan"; "Local"; "Data_set"; "Totalsegmentator_dataset_v201"].

Definition script_export_path : Path :=
  ["Users"; "khoanguyen-tuan"; "Local"; "Data_set"; "test_3DSlicer_export"].

Definition script (load : node -> Path -> option Segmentation) : M unit :=
  let selected_segment := "heart" in
  let export_type := "stl" in
  let skip_image_id := ["s1406"; "s1407"; "s1409"; "s1417"; "s1419"] in
  main load (Some export_type) TotalSegmentor_path script_export_path
       selected_segment export_type (Some skip_image_id) false false;;
  print "Done".

(** ** Observations on a run *)

Definition is_load (c : Call) : bool :=
  match c with CallLoadSegmentation _ _ => true | _ => false end.

(** The cases the exporter was invoked on, oldest first: every call of
    [export_segmentation] starts with one [loadSegmentation], named after
    the case directory. *)
Definition exported_cases (cs : list Call) : list string :=
  omap (fun c => match c with CallLoadSegmentation _ n => Some n | _ => None end) cs.

(** What the writers were asked to write: one bundle of files for each
    [Write()]. *)
Definition written (cs : list Call) : list (list Path) :=
  omap (fun c => match c with CallWrite _ files => Some files | _ => None end) cs.

(** The files one segment is exported to by the three writers that
    [export_segmentation] dispatches on. *)
Definition files_of (writer : Writer) (save_path : Path) (node_name segmentID : string)
  : list Path :=
  match writer with
  | vtkSTLWriter => [target save_path node_name segmentID ".stl"]
  | vtkPLYWriter => [target save_path node_name segmentID ".ply"]
  | vtkOBJExporter => [target save_path node_name segmentID ".obj";
                       target save_path node_name segmentID ".mtl"]
  | vtkGLTFExporter => []
  end.

(** The segments that have a closed surface. *)
Definition closed_segments (segs : list (string * bool)) : list string :=
  (filter (fun s => s.2 = true) segs).*1.

(** The number of entries in the summary in use. *)
Definition summary_length (use_pandas : bool) (w : World) : nat :=
  if use_pandas then length (df w) else length (f_log w).

(** The parts of the world that belong to [main] alone. *)
Definition same_locals (w w' : World) : Prop :=
  skip_image_id w' = skip_image_id w /\ df w' = df w /\ f_log w' = f_log w
  /\ stdout w' = stdout w.

(** A directory that holds files only, as the destination directory does
    while the batch runs. *)
Definition only_files (es : gmap string node) : Prop :=
  forall k m, es !! k = Some m -> FS.is_dir m = false.

(** There is a file at [p]. *)
Definition is_file (n : node) (p : Path) : Prop :=
  exists c, FS.lookup n p = Some (File c).

(** The paths [main] builds: the destination directory [save_path] and the
    two places of the summary beside it. *)
Definition save_path_of (data_path export_path : Path)
           (selected_segment export_type : string) : Path :=
  export_path </> (name data_path +:+ "__" +:+ selected_segment +:+ "__"
                     +:+ Str.lower export_type).

Definition save_log_path_of (data_path export_path : Path)
           (selected_segment export_type : string) : Path :=
  export_path
    </> (name (save_path_of data_path export_path selected_segment export_type)
           +:+ "__log.log").

Definition save_excel_path_of (data_path export_path : Path)
           (selected_segment export_type : string) : Path :=
  export_path
    </> (name (save_path_of data_path export_path selected_segment export_type)
           +:+ "__log.xlsx").

(** The worlds one turn of the loop goes through. *)
Section Outcomes.

Variables (data_path : Path) (selected_segment : string) (use_pandas : bool).

(** The world after the summary got one more entry. *)
Definition recorded (row : string * Z) (line : string) (w : World) : World :=
  if use_pandas then with_df (df w ++ [row]) w else with_f_log (f_log w ++ [line]) w.

(** The world in which the exporter is called for a case that is not
    skipped: as it was when the segmentation file is there, with the note
    printed and recorded when it is not. *)
Definition noted (patient_id : string) (w : World) : World :=
  if FS.exists_ (fs w) (seg_path_of data_path patient_id selected_segment) then w
  else recorded (patient_id, 0) (patient_id +:+ " doesn't have segmentation" +:+ nl)
         (with_stdout
            (stdout w ++ [str (seg_path_of data_path patient_id selected_segment)
                            +:+ " doesn't exist"]) w).

(** The world after the exporter returned [_status]. *)
Definition finished (patient_id : string) (_status : Z) (w : World) : World :=
  let w1 := recorded (patient_id, _status)
              (patient_id +:+ " exported " +:+ Str.of_Z _status +:+ " segments" +:+ nl) w in
  with_scene [] (with_calls (calls w1 ++ [CallClear]) w1).

End Outcomes.

(** ** The cases the loop goes through

    What lines 139-176 do with a list of cases, read as a function of the
    list and of the skip-list alone.  [gone_through cap skip patient_ids]
    is the part of the list that is visited when the turn of the case
    after [cap] further exported ones ends in [break]: a case named in
    [skip] is passed over (line 147) and takes nothing from [cap], a case
    that is not named takes one (line 171), and the case that finds [cap]
    used up is the last one visited (lines 173-174). *)
Fixpoint gone_through (cap : nat) (skip patient_ids : list string) : list string :=
  match patient_ids with
  | [] => []
  | patient_id :: rest =>
      if contains patient_id skip then patient_id :: gone_through cap skip rest
      else match cap with
           | O => [patient_id]
           | S cap' => patient_id :: gone_through cap' skip rest
           end
  end.

(** The counter starts at 0 and the turn that takes it past 10 ends the
    loop; without [debug] every case is visited. *)
Definition visited (debug : bool) (skip patient_ids : list string) : list string :=
  if debug then gone_through 10 skip patient_ids else patient_ids.

(** The skip-list after the cases [cases] were visited: each case found in
    the list takes its first occurrence out (lines 141-142). *)
Definition consumed (skip cases : list string) : list string :=
  foldl (fun s patient_id => if contains patient_id s then remove_first patient_id s else s)
        skip cases.

(** The summary in use has the entry of a skipped case: the row with the
    status -2 (line 144), or the line of line 146. *)
Definition skipped_entry (use_pandas : bool) (patient_id : string) (w : World) : Prop :=
  if use_pandas then (patient_id, -2) ∈ df w
  else (patient_id +:+ " is skipped" +:+ nl) ∈ f_log w.

(** A label, a case name or a segment id that is one component of a path:
    it holds no separator, so that [p </> c] is the path pathlib builds. *)
Definition no_separator (s : string) : bool :=
  forallb (fun a => negb (Ascii.eqb a "/")) (list_ascii_of_string s).

(** A name of a directory entry, and a path made of such names: an
    absolute path in normal form, as the paths of this file are read. *)
Definition is_name (s : string) : bool :=
  no_separator s && negb (String.eqb s "") && negb (String.eqb s ".")
  && negb (String.eqb s "..").

Definition normal (p : Path) : bool := forallb is_name p.

(** ** A small data set

    The end-to-end scenario of the specification, used to run the script on
    concrete inputs: a data set [/data/Foo] with the cases [s001] (a liver
    segmentation with two segments), [s002] (no segmentation file) and
    [s003], and an empty export root [/out]. *)
Module Demo.

Definition dir (entries : list (string * node)) : node := Dir (list_to_map entries).

Definition volume : node := File (Opaque "nii").

Definition case_with_liver : node :=
  dir [("segmentations", dir [("liver.nii.gz", volume)])].

Definition data_path : Path := ["data"; "Foo"].
Definition export_path : Path := ["out"].

Definition root : node :=
  dir [("data", dir [("Foo", dir [("s001", case_with_liver);
                                   ("s002", dir [("segmentations", dir [])]);
                                   ("s003", case_with_liver);
                                   ("README", File (Opaque "text"))])]);
       ("out", dir [])].

Definition world (n : node) : World := mkWorld n [] true true [] [] [] [] [].

(** A host that loads every volume file as a segmentation with the given
    segments and raises on any other path, as Slicer does. *)
Definition load_or_raise (segs : list (string * bool)) (n : node) (p : Path)
  : option Segmentation :=
  match FS.lookup n p with
  | Some (File (Opaque _)) => Some (mkSegmentation true segs)
  | _ => None
  end.

(** A host that answers a path it cannot read with a node that has no
    closed surface, instead of raising. *)
Definition load_or_empty (segs : list (string * bool)) (n : node) (p : Path)
  : option Segmentation :=
  match FS.lookup n p with
  | Some (File (Opaque _)) => Some (mkSegmentation true segs)
  | _ => Some (mkSegmentation false [])
  end.

Definition two_segments : list (string * bool) :=
  [("Segment_1", true); ("Segment_2", true)].

(** The second segment has no closed surface. *)
Definition one_open_segment : list (string * bool) :=
  [("Segment_1", true); ("Segment_2", false)].

(** Twelve cases, each with a liver segmentation. *)
Definition twelve : list string :=
  ["s001"; "s002"; "s003"; "s004"; "s005"; "s006";
   "s007"; "s008"; "s009"; "s010"; "s011"; "s012"].

Definition root12 : node :=
  dir [("data", dir [("Foo", dir (List.map (fun c => (c, case_with_liver)) twelve))]);
       ("out", dir [])].

(** Fourteen cases, and a skip-list that names one of the first twelve and
    the last one. *)
Definition fourteen : list string := twelve ++ ["s013"; "s014"].

Definition root14 : node :=
  dir [("data", dir [("Foo", dir (List.map (fun c => (c, case_with_liver)) fourteen))]);
       ("out", dir [])].

Definition skip14 : list string := ["s002"; "s014"].

(** The loop in debug mode over the fourteen cases, and the whole batch. *)
Definition debug_loop : World * res nat :=
  loop (load_or_raise two_segments) None data_path (export_path </> "Foo__liver__stl")
       "liver" vtkSTLWriter true true fourteen 0
       (with_skip_image_id skip14 (world root14)).

Definition debug_batch : World * res nat :=
  main (load_or_raise two_segments) None data_path export_path "liver" "stl"
       (Some skip14) true true (world root14).

(** What an earlier run left in the destination directory. *)
Definition root_after_run : node :=
  dir [("data", dir [("Foo", dir [("s001", case_with_liver)])]);
       ("out", dir [("Foo__liver__stl",
                     dir [("s001_Segment_1.stl", File (Surface "s001" "Segment_1" false));
                          ("s009_Segment_1.stl", File (Surface "s009" "Segment_1" false))])])].

(** The two directories the script is configured for, with two cases; one of
    them is in the skip-list of the script. *)
Definition script_root : node :=
  dir [("Users",
        dir [("khoanguyen-tuan",
              dir [("Local",
                    dir [("Data_set",
                          dir [("Totalsegmentator_dataset_v201",
                                dir [("s0001",
                                      dir [("segmentations",
                                            dir [("heart.nii.gz", volume)])]);
                                     ("s1406", dir [])]);
                               ("test_3DSlicer_export", dir [])])])])])].

End Demo.

(** * Properties *)

(** ** The file system operations *)

Module FSFacts.
Import FS.

Lemma lookup_cons (es : gmap string node) (c : string) (p : Path) :
  lookup (Dir es) (c :: p) = match es !! c with Some ch => lookup ch p | None => None end.
Proof. reflexivity. Qed.

Lemma lookup_app (n : node) (p q : Path) :
  lookup n (p ++ q) = match lookup n p with Some m => lookup m q | None => None end.
Proof.
  revert n. induction p as [|c p IH]; intros n; [reflexivity|].
  cbn [app lookup]. destruct n as [|es]; [reflexivity|].
  destruct (es !! c); [apply IH | reflexivity].
Qed.

Lemma remove_cons (es : gmap string node) (c c' : string) (p : Path) :
  remove (Dir es) (c :: c' :: p) =
  match es !! c with
  | Some ch => Dir (<[c := remove ch (c' :: p)]> es)
  | None => Dir es
  end.
Proof. reflexivity. Qed.

Lemma mkdir_cons (at_ : Path) (es : gmap string node) (c : string) (p : Path) :
  mkdir at_ (Dir es) (c :: p) =
  match mkdir (at_ </> c) (default (Dir ∅) (es !! c)) p with
  | Ret ch => Ret (Dir (<[c := ch]> es))
  | Raise e => Raise e
  end.
Proof. reflexivity. Qed.

(** After [remove], nothing is left at the path. *)
Lemma lookup_remove (n : node) (p : Path) :
  p <> [] -> lookup (remove n p) p = None.
Proof.
  revert n. induction p as [|c p IH]; intros n Hp; [congruence|].
  destruct n as [f|es]; [reflexivity|].
  destruct p as [|c' p].
  - cbn. by rewrite lookup_delete_eq.
  - rewrite remove_cons. destruct (es !! c) as [ch|] eqn:E.
    + rewrite lookup_cons, lookup_insert_eq. by apply IH.
    + by rewrite lookup_cons, E.
Qed.

(** Removing a directory and making it again leaves it empty. *)
Lemma mkdir_after_remove (at_ : Path) (n : node) (p : Path) (old : gmap string node) :
  p <> [] -> lookup n p = Some (Dir old) ->
  exists n', mkdir at_ (remove n p) p = Ret n' /\ lookup n' p = Some (Dir ∅).
Proof.
  revert at_ n. induction p as [|c p IH]; intros at_ n Hp Hl; [congruence|].
  destruct n as [f|es]; [discriminate|].
  rewrite lookup_cons in Hl. destruct (es !! c) as [ch|] eqn:E; [|discriminate].
  destruct p as [|c' p].
  - cbn. rewrite lookup_delete_eq. cbn.
    eexists; split; [reflexivity|]. cbn. by rewrite lookup_insert_eq.
  - rewrite remove_cons, E.
    destruct (IH (at_ </> c) ch ltac:(congruence) Hl) as (n' & Hm & Hn').
    rewrite mkdir_cons, lookup_insert_eq. cbn [default from_option id].
    rewrite Hm. eexists; split; [reflexivity|].
    by rewrite lookup_cons, lookup_insert_eq.
Qed.

(** [remove] and [mkdir] touch nothing beside the path. *)
Lemma lookup_remove_diverges (n : node) (p q : Path) :
  diverges p q -> lookup (remove n p) q = lookup n q.
Proof.
  intros (r & a & b & p' & q' & Hab & -> & ->). revert n.
  induction r as [|c r IH]; intros n; cbn [app].
  - destruct n as [f|es]; [by destruct p'|].
    destruct p' as [|c' p'].
    + cbn. by rewrite lookup_delete_ne.
    + rewrite remove_cons. destruct (es !! a) as [ch|]; [|reflexivity].
      by rewrite !lookup_cons, lookup_insert_ne.
  - destruct n as [f|es]; [by destruct (r ++ a :: p')|].
    destruct (r ++ a :: p') as [|x l] eqn:El; [by destruct r|].
    rewrite remove_cons. rewrite <- El in IH |- *.
    destruct (es !! c) as [ch|] eqn:E; [|reflexivity].
    by rewrite !lookup_cons, lookup_insert_eq, E, IH.
Qed.

Lemma lookup_mkdir_diverges (at_ : Path) (n n' : node) (p q : Path) :
  diverges p q -> mkdir at_ n p = Ret n' -> lookup n' q = lookup n q.
Proof.
  intros (r & a & b & p' & q' & Hab & -> & ->). revert at_ n n'.
  induction r as [|c r IH]; intros at_ n n'; cbn [app].
  - destruct n as [f|es]; [by destruct p'|]. rewrite mkdir_cons.
    destruct (mkdir _ _ p') as [ch|e]; [|discriminate].
    intros [= <-]. by rewrite !lookup_cons, lookup_insert_ne.
  - destruct n as [f|es]; [by destruct (r ++ a :: p')|]. rewrite mkdir_cons.
    destruct (mkdir _ _ (r ++ a :: p')) as [ch|e] eqn:Hm; [|discriminate].
    intros [= <-]. rewrite !lookup_cons, lookup_insert_eq.
    rewrite (IH _ _ _ Hm). destruct (es !! c) as [ch0|] eqn:E; [reflexivity|].
    cbn. destruct (r ++ b :: q') eqn:El; [by destruct r|].
    by rewrite lookup_cons, lookup_empty.
Qed.

End FSFacts.

(** ** [create_directory] *)


(** When nothing is at the path, the directory is made, with the missing
    directories above it. *)
Lemma mkdir_absent (at_ : Path) (n : node) (p : Path) :
  FS.lookup n p = None -> FS.is_dir n = true ->
  (forall q r f, p = q ++ r -> FS.lookup n q <> Some (File f)) ->
  exists n', FS.mkdir at_ n p = Ret n' /\ FS.lookup n' p = Some (Dir ∅).
Proof.
  revert at_ n. induction p as [|c p IH]; intros at_ n Hl Hd Hf; [discriminate|].
  destruct n as [f|es]; [discriminate|]. rewrite FSFacts.mkdir_cons.
  rewrite FSFacts.lookup_cons in Hl.
  destruct (es !! c) as [ch|] eqn:E; cbn [default from_option id].
  - destruct ch as [f|es'].
    { exfalso. apply (Hf [c] p f eq_refl). cbn. by rewrite E. }
    destruct (IH (at_ </> c) (Dir es') Hl eq_refl) as (n' & Hm & Hn').
    { intros q r f -> Hq. apply (Hf (c :: q) r f eq_refl).
      by rewrite FSFacts.lookup_cons, E. }
    rewrite Hm. eexists; split; [reflexivity|].
    by rewrite FSFacts.lookup_cons, lookup_insert_eq.
  - destruct p as [|c' p].
    + eexists; split; [reflexivity|].
      by rewrite FSFacts.lookup_cons, lookup_insert_eq.
    + destruct (IH (at_ </> c) (Dir ∅)) as (n' & Hm & Hn'); [| reflexivity | |].
      * by rewrite FSFacts.lookup_cons, lookup_empty.
      * intros [|x q] r f _; [discriminate|].
        by rewrite FSFacts.lookup_cons, lookup_empty.
      * rewrite Hm. eexists; split; [reflexivity|].
        by rewrite FSFacts.lookup_cons, lookup_insert_eq.
Qed.

(** A directory made where nothing was is empty. *)
Lemma mkdir_fresh (at_ : Path) (n n' : node) (p : Path) :
  FS.lookup n p = None \/ n = Dir ∅ ->
  FS.mkdir at_ n p = Ret n' -> FS.lookup n' p = Some (Dir ∅).
Proof.
  revert at_ n n'. induction p as [|c p IH]; intros at_ n n' Hn.
  - destruct Hn as [Hn| ->]; [discriminate|]. by intros [= <-].
  - destruct n as [f|es]; [discriminate|]. rewrite FSFacts.mkdir_cons.
    destruct (FS.mkdir _ _ p) as [ch|e] eqn:Hm; [|discriminate].
    intros [= <-]. rewrite FSFacts.lookup_cons, lookup_insert_eq.
    apply (IH _ _ _) in Hm; [exact Hm|].
    destruct Hn as [Hn|[= ->]].
    + rewrite FSFacts.lookup_cons in Hn.
      destruct (es !! c) as [ch0|]; cbn [default from_option id]; auto.
    + rewrite lookup_empty. cbn [default from_option]. auto.
Qed.

(** Whenever [create_directory] returns, the path is an empty directory. *)
Lemma create_directory_empty (path : Path) (w w' : World) :
  path <> [] ->
  create_directory path w = (w', Ret tt) -> FS.lookup (fs w') path = Some (Dir ∅).
Proof.
  intros Hp. unfold create_directory, FS.exists_, FS.rmtree.
  destruct (FS.lookup (fs w) path) as [[f|es]|] eqn:Hl.
  - discriminate.
  - destruct path as [|c p]; [congruence|].
    destruct (FS.mkdir [] (FS.remove (fs w) (c :: p)) (c :: p)) as [n'|e] eqn:Hm;
      [|discriminate].
    intros [= <-]. cbn [fs with_fs]. eapply mkdir_fresh; [|exact Hm].
    left. by apply FSFacts.lookup_remove.
  - destruct (FS.mkdir [] (fs w) path) as [n'|e] eqn:Hm; [|discriminate].
    intros [= <-]. cbn [fs with_fs]. eapply mkdir_fresh; [|exact Hm]. by left.
Qed.

(** ** Running the monad *)

Ltac run :=
  cbv beta delta [bind ret raise modify gets call print record loadSegmentation Write] iota;
  cbn [fst snd fs scene axis_labels_visible box_visible stdout calls skip_image_id df f_log
       with_fs with_scene with_view with_stdout with_calls with_skip_image_id with_df
       with_f_log].

(** The path [main] builds for a case has the case directory two levels up. *)
Lemma parents_seg_path (data_path : Path) (patient_id selected_segment : string) :
  parents (seg_path_of data_path patient_id selected_segment) 1
  = Some (data_path </> patient_id).
Proof.
  unfold parents, seg_path_of, join.
  rewrite !length_app. cbn [length].
  destruct (Nat.ltb_spec 1 (length data_path + 1 + 1 + 1)) as [_|H]; [|lia].
  f_equal. rewrite <- !app_assoc. cbn [app].
  replace (length data_path + 1 + 1 + 1 - 2)%nat with (length (data_path ++ [patient_id])).
  - replace (data_path ++ [patient_id; "segmentations"; selected_segment +:+ ".nii.gz"])
      with ((data_path ++ [patient_id]) ++ ["segmentations"; selected_segment +:+ ".nii.gz"]).
    + by rewrite take_app_length.
    + by rewrite <- app_assoc.
  - rewrite length_app. cbn. lia.
Qed.

Lemma name_join (p : Path) (c : string) : name (p </> c) = c.
Proof. unfold name, join. apply last_last. Qed.

(** ** [export_segmentation] *)

(** C7: when closed-surface generation fails for the loaded segmentation,
    the exporter returns -1 at once: the only calls made are the load and
    the generation request, so the segments are not counted, no writer runs
    and the file system is as it was. *)
Theorem closed_surface_failure_returns_minus_one
    (load : node -> Path -> option Segmentation) (g : option string)
    (file_path save_path case_dir : Path) (writer : Writer)
    (seg : Segmentation) (w : World) :
  parents file_path 1 = Some case_dir ->
  load (fs w) file_path = Some seg ->
  closed_surface seg = false ->
  exists w',
    export_segmentation load g file_path save_path writer w = (w', Ret (-1))
    /\ calls w' = calls w ++ [CallLoadSegmentation file_path (name case_dir);
                              CallCreateClosedSurfaceRepresentation]
    /\ fs w' = fs w
    /\ (axis_labels_visible w', box_visible w') = (axis_labels_visible w, box_visible w).
Proof.
  intros Hp Hl Hc. unfold export_segmentation. rewrite Hp. run.
  rewrite Hl. run. rewrite Hc. cbn [negb]. run.
  eexists; split; [reflexivity|]. cbn. by rewrite <- app_assoc.
Qed.

Lemma same_locals_refl (w : World) : same_locals w w.
Proof. by repeat split. Qed.

Lemma exported_cases_no_load (cs : list Call) :
  Forall (fun c => is_load c = false) cs -> exported_cases cs = [].
Proof.
  induction 1 as [|c cs Hc _ IH]; [reflexivity|].
  destruct c; try discriminate; exact IH.
Qed.

Section ExportFacts.

Variable load : node -> Path -> option Segmentation.
Variable g : option string.
Variables (save_path : Path) (node_name : string).

(** The loop over the segments never touches what belongs to [main], and
    never loads anything. *)
Lemma export_segments_frame (writer : Writer) (segs : list (string * bool))
      (w w' : World) (r : res unit) :
  export_segments g save_path node_name writer segs w = (w', r) ->
  same_locals w w'
  /\ exists cs, calls w' = calls w ++ cs /\ Forall (fun c => is_load c = false) cs.
Proof.
  revert w. induction segs as [|[segmentID has] segs IH]; intros w; cbn [export_segments].
  - run. intros [= <- <-]. split; [apply same_locals_refl|].
    exists []. by rewrite app_nil_r.
  - run. destruct has; cbn [negb].
    + destruct writer; run;
        try (intros H; apply IH in H; cbn in H; destruct H as [Hs (cs & -> & Hcs)];
             split; [exact Hs|]; rewrite <- !app_assoc;
             eexists; split; [reflexivity|];
             repeat (apply Forall_app; split); auto).
      destruct g; run; intros [= <- <-]; (split; [by repeat split|]);
        cbn; eexists; (split; [reflexivity|]); auto.
    + intros H; apply IH in H; cbn in H; destruct H as [Hs (cs & -> & Hcs)].
      split; [exact Hs|]. rewrite <- !app_assoc.
      eexists; split; [reflexivity|]. apply Forall_app; auto.
Qed.

(** With one of the three writers the dispatch knows, the loop runs to
    its end and asks for one bundle of files for each segment that has a
    closed surface, in the order of the segments. *)
Lemma export_segments_written (writer : Writer) (segs : list (string * bool)) (w : World) :
  writer <> vtkGLTFExporter ->
  exists w',
    export_segments g save_path node_name writer segs w = (w', Ret tt)
    /\ written (calls w')
       = written (calls w)
           ++ List.map (files_of writer save_path node_name) (closed_segments segs).
Proof.
  intros Hw. revert w.
  induction segs as [|[segmentID has] segs IH]; intros w; cbn [export_segments].
  - run. eexists; split; [reflexivity|]. cbn. by rewrite app_nil_r.
  - run. destruct has; cbn [negb].
    + destruct writer; [| | |congruence]; run;
        match goal with |- context [export_segments _ _ _ _ _ ?w1] =>
          destruct (IH w1) as (w' & Hr & Hwr) end;
        exists w'; (split; [exact Hr|]); rewrite Hwr; cbn;
        unfold written; rewrite !omap_app; cbn;
        rewrite app_nil_r, <- app_assoc; reflexivity.
    + match goal with |- context [export_segments _ _ _ _ _ ?w1] =>
          destruct (IH w1) as (w' & Hr & Hwr) end.
      exists w'; (split; [exact Hr|]); rewrite Hwr; cbn.
      unfold written; rewrite !omap_app; cbn. by rewrite app_nil_r.
Qed.

End ExportFacts.

Section DriverFacts.

Variable load : node -> Path -> option Segmentation.
Variable g : option string.

(** A call of the exporter starts with the load of the file it is given,
    loads nothing else, and leaves alone what belongs to [main]. *)
Lemma export_segmentation_calls (file_path save_path case_dir : Path) (writer : Writer)
      (w w' : World) (r : res Z) :
  parents file_path 1 = Some case_dir ->
  export_segmentation load g file_path save_path writer w = (w', r) ->
  same_locals w w'
  /\ exists cs, calls w' = calls w ++ CallLoadSegmentation file_path (name case_dir) :: cs
                /\ Forall (fun c => is_load c = false) cs.
Proof.
  intros Hp. unfold export_segmentation. rewrite Hp. run.
  destruct (load (fs w) file_path) as [seg|]; run.
  2:{ intros [= <- <-]. split; [by repeat split|]. exists [].
      split; [reflexivity | constructor]. }
  destruct (closed_surface seg); cbn [negb]; run.
  2:{ intros [= <- <-]. split; [by repeat split|]. cbn. rewrite <- app_assoc.
      eexists; split; [reflexivity|]. by repeat constructor. }
  destruct (Z.of_nat (length (segments seg)) =? 0).
  { run. intros [= <- <-]. split; [by repeat split|]. cbn. rewrite <- !app_assoc.
    eexists; split; [reflexivity|]. by repeat constructor. }
  destruct (is_scene_exporter writer); run;
    (match goal with |- context [export_segments _ _ _ _ _ ?w1] =>
       destruct (export_segments g save_path (name case_dir) writer (segments seg) w1)
         as [w2 r2] eqn:E end;
     apply export_segments_frame in E; destruct E as [Hs (cs & Hcs & Hno)];
     unfold same_locals in *; cbn in Hs, Hcs;
     destruct r2; intros [= <- <-]; (split; [exact Hs|]);
     rewrite Hcs, <- !app_assoc; eexists; (split; [reflexivity|]);
     by repeat constructor).
Qed.

Section IterationFacts.

Variables (data_path save_path : Path) (selected_segment : string)
          (writer : Writer) (use_pandas debug : bool).

Local Abbreviation turn_of := (iteration load g data_path save_path selected_segment
                                 writer use_pandas debug).
Local Abbreviation seg_path := (seg_path_of data_path).

Local Abbreviation recorded := (recorded use_pandas).
Local Abbreviation noted := (noted data_path selected_segment use_pandas).
Local Abbreviation finished := (finished use_pandas).

Lemma record_run (row : string * Z) (line : string) (w : World) :
  record use_pandas row line w = (recorded row line w, Ret tt).
Proof. unfold record, recorded. by destruct use_pandas. Qed.

(** A case named in the skip-list. *)
Lemma iteration_skip (patient_id : string) (count : nat) (w : World) :
  contains patient_id (skip_image_id w) = true ->
  turn_of patient_id count w
  = (recorded (patient_id, -2) (patient_id +:+ " is skipped" +:+ nl)
       (with_skip_image_id (remove_first patient_id (skip_image_id w)) w),
     Ret (count, false)).
Proof.
  intros H. unfold iteration.
  cbv beta delta [bind gets] iota. rewrite H.
  cbv beta delta [bind modify ret] iota. by rewrite record_run.
Qed.

(** A case that is not named in the skip-list. *)
Lemma iteration_export (patient_id : string) (count : nat) (w : World) :
  contains patient_id (skip_image_id w) = false ->
  turn_of patient_id count w
  = match export_segmentation load g (seg_path patient_id selected_segment)
            save_path writer (noted patient_id w) with
    | (w1, Ret _status) =>
        (finished patient_id _status w1,
         Ret (S count, debug && (10 <? S count)%nat))
    | (w1, Raise e) => (w1, Raise e)
    end.
Proof.
  intros H. unfold iteration, noted.
  cbv beta delta [bind gets] iota. rewrite H.
  destruct (FS.exists_ (fs w) _); cbn [negb];
    cbv beta delta [bind modify ret print call] iota; rewrite ?record_run;
    cbn [fst snd];
    match goal with |- context [export_segmentation _ _ _ _ _ ?w1] =>
      destruct (export_segmentation load g (seg_path patient_id selected_segment)
                  save_path writer w1) as [w2 [st|e]] end;
    rewrite ?record_run; reflexivity.
Qed.

End IterationFacts.

End DriverFacts.

(** ** The skip-list *)

Lemma contains_true (x : string) (xs : list string) : contains x xs = true <-> x ∈ xs.
Proof. unfold contains. apply bool_decide_eq_true. Qed.

Lemma contains_false (x : string) (xs : list string) : contains x xs = false <-> x ∉ xs.
Proof. unfold contains. apply bool_decide_eq_false. Qed.

(** [remove] takes out the first occurrence and nothing else. *)
Lemma remove_first_split (x : string) (xs : list string) :
  x ∈ xs ->
  exists l1 l2, xs = l1 ++ x :: l2 /\ (x ∉ l1) /\ remove_first x xs = l1 ++ l2.
Proof.
  induction xs as [|y ys IH]; intros H; [by apply elem_of_nil in H|].
  cbn [remove_first]. destruct (decide (x = y)) as [->|Hne].
  - exists [], ys. repeat split. apply not_elem_of_nil.
  - apply elem_of_cons in H as [?|H]; [done|].
    destruct (IH H) as (l1 & l2 & -> & Hl1 & ->).
    exists (y :: l1), l2. repeat split. by apply not_elem_of_cons.
Qed.

Lemma remove_first_other (x y : string) (xs : list string) :
  x <> y -> y ∈ remove_first x xs <-> y ∈ xs.
Proof.
  intros Hne. induction xs as [|z zs IH]; [done|].
  cbn [remove_first]. destruct (decide (x = z)) as [->|Hxz].
  - rewrite elem_of_cons. split; [by right|]. intros [Hy|Hy]; [congruence | exact Hy].
  - by rewrite !elem_of_cons, IH.
Qed.

Lemma filter_not_skipped_remove_first (x : string) (skip ids : list string) :
  x ∉ ids ->
  filter (fun i => i ∉ remove_first x skip) ids = filter (fun i => i ∉ skip) ids.
Proof.
  induction ids as [|i ids IH]; intros Hx; [reflexivity|].
  apply not_elem_of_cons in Hx as [Hxi Hx].
  rewrite !filter_cons, (IH Hx).
  destruct (decide (i ∉ remove_first x skip)) as [H1|H1],
           (decide (i ∉ skip)) as [H2|H2]; try reflexivity; exfalso.
  - apply H2. intros Hin. apply H1.
    exact (proj2 (remove_first_other x i skip Hxi) Hin).
  - apply H1. intros Hin. apply H2.
    exact (proj1 (remove_first_other x i skip Hxi) Hin).
Qed.

(** ** One turn of the loop, seen from outside *)

Section TurnFacts.

Variables (use_pandas : bool) (data_path : Path) (selected_segment : string).

Lemma recorded_fields (row : string * Z) (line : string) (w : World) :
  fs (recorded use_pandas row line w) = fs w
  /\ calls (recorded use_pandas row line w) = calls w
  /\ skip_image_id (recorded use_pandas row line w) = skip_image_id w
  /\ stdout (recorded use_pandas row line w) = stdout w
  /\ summary_length use_pandas (recorded use_pandas row line w)
     = S (summary_length use_pandas w).
Proof.
  unfold recorded, summary_length. destruct use_pandas; cbn;
    rewrite ?length_app; cbn; repeat split; lia.
Qed.

Lemma noted_fields (patient_id : string) (w : World) :
  fs (noted data_path selected_segment use_pandas patient_id w) = fs w
  /\ calls (noted data_path selected_segment use_pandas patient_id w) = calls w
  /\ skip_image_id (noted data_path selected_segment use_pandas patient_id w)
     = skip_image_id w
  /\ (summary_length use_pandas w
      <= summary_length use_pandas
           (noted data_path selected_segment use_pandas patient_id w))%nat.
Proof.
  unfold noted. destruct (FS.exists_ _ _); [by repeat split|].
  destruct (recorded_fields (patient_id, 0)
              (patient_id +:+ " doesn't have segmentation" +:+ nl)
              (with_stdout
                 (stdout w ++ [str (seg_path_of data_path patient_id selected_segment)
                                 +:+ " doesn't exist"]) w))
    as (-> & -> & -> & _ & ->).
  repeat split. unfold summary_length. destruct use_pandas; cbn; lia.
Qed.

Lemma finished_fields (patient_id : string) (_status : Z) (w : World) :
  fs (finished use_pandas patient_id _status w) = fs w
  /\ calls (finished use_pandas patient_id _status w) = calls w ++ [CallClear]
  /\ skip_image_id (finished use_pandas patient_id _status w) = skip_image_id w
  /\ summary_length use_pandas (finished use_pandas patient_id _status w)
     = S (summary_length use_pandas w).
Proof.
  unfold finished.
  destruct (recorded_fields (patient_id, _status)
              (patient_id +:+ " exported " +:+ Str.of_Z _status +:+ " segments" +:+ nl) w)
    as (Hf & Hc & Hs & _ & Hl).
  cbn. rewrite Hf, Hc, Hs. repeat split.
  rewrite <- Hl. unfold summary_length. by destruct use_pandas.
Qed.

End TurnFacts.

(** ** The loop *)

Section LoopFacts.

Variable load : node -> Path -> option Segmentation.
Variable g : option string.
Variables (data_path save_path : Path) (selected_segment : string)
          (writer : Writer) (use_pandas debug : bool).

Local Abbreviation turn_of :=
  (iteration load g data_path save_path selected_segment writer use_pandas debug).
Local Abbreviation loop_of :=
  (loop load g data_path save_path selected_segment writer use_pandas debug).

Lemma loop_cons (patient_id : string) (rest : list string) (count : nat) (w : World) :
  loop_of (patient_id :: rest) count w
  = match turn_of patient_id count w with
    | (w1, Ret out) => if out.2 then (w1, Ret out.1) else loop_of rest out.1 w1
    | (w1, Raise e) => (w1, Raise e)
    end.
Proof.
  cbn [loop]. unfold bind.
  destruct (turn_of patient_id count w) as [w1 [out|e]]; [|reflexivity].
  by destruct out.2.
Qed.

(** What one turn does, when it does not raise: either the case is named in
    the skip-list, then it is taken out of the list and recorded, the
    counter stays and the exporter is not called; or it is not, then the
    exporter is called on it, the counter goes up by one, and the turn ends
    in [break] exactly when [debug] is set and the counter has passed 10. *)
Lemma iteration_cases (patient_id : string) (count : nat) (w w' : World) (out : nat * bool) :
  turn_of patient_id count w = (w', Ret out) ->
  (contains patient_id (skip_image_id w) = true
   /\ out = (count, false)
   /\ skip_image_id w' = remove_first patient_id (skip_image_id w)
   /\ calls w' = calls w
   /\ summary_length use_pandas w' = S (summary_length use_pandas w))
  \/
  (contains patient_id (skip_image_id w) = false
   /\ out = (S count, debug && (10 <? S count)%nat)
   /\ skip_image_id w' = skip_image_id w
   /\ exported_cases (calls w') = exported_cases (calls w) ++ [patient_id]
   /\ (S (summary_length use_pandas w) <= summary_length use_pandas w')%nat).
Proof.
  destruct (contains patient_id (skip_image_id w)) eqn:Hc.
  - rewrite iteration_skip by done. intros [= <- <-]. left.
    destruct (recorded_fields use_pandas (patient_id, -2)
                (patient_id +:+ " is skipped" +:+ nl)
                (with_skip_image_id (remove_first patient_id (skip_image_id w)) w))
      as (_ & -> & -> & _ & ->).
    by repeat split.
  - rewrite iteration_export by done.
    destruct (export_segmentation _ _ _ _ _ _) as [w1 [st|e]] eqn:E; [|discriminate].
    intros [= <- <-]. right.
    apply (export_segmentation_calls _ _ _ _ _ _ _ _ _
             (parents_seg_path data_path patient_id selected_segment)) in E.
    destruct E as [(Hsk & Hdf & Hlog & _) (cs & Hcs & Hno)].
    destruct (noted_fields use_pandas data_path selected_segment patient_id w)
      as (_ & Hnc & Hns & Hnl).
    destruct (finished_fields use_pandas patient_id st w1) as (_ & -> & -> & ->).
    rewrite Hsk, Hns, Hcs, Hnc, name_join. repeat split.
    + unfold exported_cases. rewrite !omap_app. cbn.
      fold (exported_cases cs). rewrite (exported_cases_no_load cs Hno).
      by rewrite app_nil_r.
    + assert (summary_length use_pandas w1
              = summary_length use_pandas
                  (noted data_path selected_segment use_pandas patient_id w)) as ->
          by (unfold summary_length; by rewrite Hdf, Hlog).
      lia.
Qed.

(** The cases the loop runs the exporter on, when no call raises: those
    not named in the skip-list, in the order of the list; in debug mode only
    as many of them as bring the counter to 11.  The counter counts them. *)
Lemma loop_exported (patient_ids : list string) :
  NoDup patient_ids ->
  forall (count : nat) (w w' : World) (count' : nat),
    (debug = true -> (count <= 10)%nat) ->
    loop_of patient_ids count w = (w', Ret count') ->
    let todo := filter (fun i => i ∉ skip_image_id w) patient_ids in
    let ran := if debug then take (11 - count) todo else todo in
    exported_cases (calls w') = exported_cases (calls w) ++ ran
    /\ count' = (count + length ran)%nat.
Proof.
  induction 1 as [|i ids Hi Hnd IH]; intros count w w' count' Hcap.
  - cbn. unfold ret. intros [= <- <-].
    rewrite take_nil. destruct debug; cbn; rewrite app_nil_r; split; auto with lia.
  - rewrite loop_cons.
    destruct (turn_of i count w) as [w1 [out|e]] eqn:E; [|discriminate].
    apply iteration_cases in E as [(Hc & -> & Hs & Hcalls & _)|(Hc & -> & Hs & Hcalls & _)];
      cbn [fst snd].
    + apply contains_true in Hc. intros Hl.
      apply IH in Hl; [|exact Hcap]. cbn zeta in Hl.
      rewrite Hs, Hcalls, (filter_not_skipped_remove_first _ _ _ Hi) in Hl.
      cbn zeta. rewrite filter_cons_False by tauto. exact Hl.
    + apply contains_false in Hc. cbn zeta. rewrite filter_cons_True by done.
      destruct debug; cbn [andb].
      * specialize (Hcap eq_refl).
        destruct (Nat.ltb_spec 10 (S count)) as [Hlt|Hge].
        -- intros [= <- <-]. assert (count = 10%nat) as -> by lia.
           cbn [Nat.sub take length]. rewrite take_0. cbn. rewrite Hcalls. split; auto.
        -- intros Hl. apply IH in Hl; [|lia]. cbn zeta in Hl.
           rewrite Hs, Hcalls, <- app_assoc in Hl. cbn [app] in Hl.
           replace (11 - count)%nat with (S (11 - S count)) by lia.
           cbn [take length]. destruct Hl as [-> ->]. split; [reflexivity|lia].
      * intros Hl. apply IH in Hl; [|discriminate]. cbn zeta in Hl.
        rewrite Hs, Hcalls, <- app_assoc in Hl. cbn [app] in Hl.
        cbn [length]. destruct Hl as [-> ->]. split; [reflexivity|lia].
Qed.

End LoopFacts.

(** ** Case-insensitive matching *)

Lemma same_letter_lower (a b : ascii) :
  ((65 <=? nat_of_ascii b)%nat && (nat_of_ascii b <=? 90)%nat)%bool = false ->
  Str.same_letter a b = true <-> Str.lower_ascii a = b.
Proof.
  intros Hb. unfold Str.same_letter, Str.lower_ascii. rewrite Hb, orb_false_r.
  pose proof (nat_ascii_bounded a) as Ha.
  destruct ((65 <=? nat_of_ascii a)%nat && (nat_of_ascii a <=? 90)%nat)%bool eqn:Hu.
  - cbn [andb]. apply andb_true_iff in Hu as [H1 H2].
    apply Nat.leb_le in H1, H2. split.
    + intros H. apply orb_true_iff in H as [H|H]; apply Nat.eqb_eq in H.
      * exfalso. rewrite <- H, (proj2 (Nat.leb_le _ _) H1),
          (proj2 (Nat.leb_le _ _) H2) in Hb. discriminate.
      * by rewrite <- H, ascii_nat_embedding.
    + intros <-. rewrite nat_ascii_embedding by lia.
      by rewrite Nat.eqb_refl, orb_true_r.
  - cbn [andb]. rewrite orb_false_r. rewrite Nat.eqb_eq. split.
    + intros H. by rewrite <- (ascii_nat_embedding a), H, ascii_nat_embedding.
    + by intros ->.
Qed.

(** Matching a lower-case word up to case is comparing it with the
    lower-cased string. *)
Lemma matches_ci_lower (s t : string) :
  Str.no_upper t = true -> Str.matches_ci s t = true <-> Str.lower s = t.
Proof.
  revert s. induction t as [|b t IH]; intros [|a s] Ht; cbn; try done.
  cbn in Ht. apply andb_true_iff in Ht as [Hb Ht]. apply negb_true_iff in Hb.
  rewrite andb_true_iff, (same_letter_lower a b Hb), (IH s Ht).
  split; [by intros [-> ->] | by intros [= -> ->]].
Qed.

(** ** The format dispatch of [main] *)

Lemma pick_writer_Some (t : string) (writer : Writer) :
  pick_writer t = Some writer ->
  (t = "obj" /\ writer = vtkOBJExporter) \/ (t = "stl" /\ writer = vtkSTLWriter)
  \/ (t = "ply" /\ writer = vtkPLYWriter) \/ (t = "gltf" /\ writer = vtkGLTFExporter).
Proof.
  unfold pick_writer.
  destruct (String.eqb_spec t "obj"); [intros [= <-]; auto|].
  destruct (String.eqb_spec t "stl"); [intros [= <-]; auto|].
  destruct (String.eqb_spec t "ply"); [intros [= <-]; auto|].
  destruct (String.eqb_spec t "gltf"); [intros [= <-]; auto 6|].
  discriminate.
Qed.

Lemma pick_writer_None (t : string) :
  pick_writer t = None -> t <> "obj" /\ t <> "stl" /\ t <> "ply" /\ t <> "gltf".
Proof.
  unfold pick_writer.
  destruct (String.eqb_spec t "obj"); [discriminate|].
  destruct (String.eqb_spec t "stl"); [discriminate|].
  destruct (String.eqb_spec t "ply"); [discriminate|].
  destruct (String.eqb_spec t "gltf"); [discriminate|].
  auto.
Qed.

(** C6: the format string is lower-cased and compared with the four names.
    When it spells one of them up to case, the writer of that format, and no
    other, is picked.  When it spells none of them, [main] raises the
    unsupported-format error, and it has then neither made the destination
    directory nor touched the file system, the host application or the
    console in any other way. *)
Theorem format_dispatch
    (load : node -> Path -> option Segmentation) (g : option string)
    (data_path export_path : Path) (selected_segment export_type : string)
    (skip : option (list string)) (use_pandas debug : bool) (w : World) :
  match pick_writer (Str.lower export_type) with
  | Some writer =>
      (Str.matches_ci export_type "obj" = true /\ writer = vtkOBJExporter)
      \/ (Str.matches_ci export_type "stl" = true /\ writer = vtkSTLWriter)
      \/ (Str.matches_ci export_type "ply" = true /\ writer = vtkPLYWriter)
      \/ (Str.matches_ci export_type "gltf" = true /\ writer = vtkGLTFExporter)
  | None =>
      Forall (fun fmt => Str.matches_ci export_type fmt = false) ["obj"; "stl"; "ply"; "gltf"]
      /\ exists w',
          main load g data_path export_path selected_segment export_type skip
               use_pandas debug w
          = (w', Raise (ValueError ("Export type " +:+ Str.lower export_type
                                      +:+ " is not supported")))
          /\ fs w' = fs w /\ calls w' = calls w /\ stdout w' = stdout w
          /\ df w' = df w /\ f_log w' = f_log w
  end.
Proof.
  destruct (pick_writer (Str.lower export_type)) as [writer|] eqn:E.
  - apply pick_writer_Some in E.
    destruct E as [[E ->]|[[E ->]|[[E ->]|[E ->]]]];
      apply matches_ci_lower in E; auto 7.
  - split.
    + apply pick_writer_None in E as (H1 & H2 & H3 & H4).
      repeat constructor; apply not_true_is_false; intros H;
        apply matches_ci_lower in H; auto.
    + unfold main. run. rewrite E. run. eexists. split; [reflexivity|]. by cbn.
Qed.

(** ** The turns of the loop *)

(** C5: for a case named in the skip-list, the turn records the case with
    the status -2 (the line "... is skipped" in the log form), makes no call
    into the host application, so that the exporter does not run and no file
    is written, takes the first occurrence of the case out of the skip-list
    and nothing else, and goes on to the next case with the counter as it
    was. *)
Theorem skipped_case_is_recorded_and_consumed
    (load : node -> Path -> option Segmentation) (g : option string)
    (data_path save_path : Path) (selected_segment : string) (writer : Writer)
    (use_pandas debug : bool) (patient_id : string) (count : nat) (w : World) :
  contains patient_id (skip_image_id w) = true ->
  exists w',
    iteration load g data_path save_path selected_segment writer use_pandas debug
              patient_id count w = (w', Ret (count, false))
    /\ (if use_pandas
        then df w' = df w ++ [(patient_id, -2)] /\ f_log w' = f_log w
        else f_log w' = f_log w ++ [patient_id +:+ " is skipped" +:+ nl] /\ df w' = df w)
    /\ calls w' = calls w /\ fs w' = fs w /\ stdout w' = stdout w
    /\ exists l1 l2,
        skip_image_id w = l1 ++ patient_id :: l2 /\ (patient_id ∉ l1)
        /\ skip_image_id w' = l1 ++ l2.
Proof.
  intros H. eexists. split; [by apply iteration_skip|].
  apply contains_true, remove_first_split in H as (l1 & l2 & Hs & Hl1 & Hr).
  unfold recorded. destruct use_pandas; cbn; repeat split; eauto.
Qed.

(** C2: for a case that is not skipped and whose segmentation file is not
    there, the turn prints and records the "no segmentation" note (a row
    with 0, or the line "... doesn't have segmentation") and then, instead
    of going on to the next case, calls the exporter on that very path: the
    load of the missing path is the next call into the host application,
    whatever comes of it. *)
Theorem missing_segmentation_is_noted_and_still_exported
    (load : node -> Path -> option Segmentation) (g : option string)
    (data_path save_path : Path) (selected_segment : string) (writer : Writer)
    (use_pandas debug : bool) (patient_id : string) (count : nat) (w : World) :
  contains patient_id (skip_image_id w) = false ->
  FS.exists_ (fs w) (seg_path_of data_path patient_id selected_segment) = false ->
  let seg_path := seg_path_of data_path patient_id selected_segment in
  let w0 := recorded use_pandas (patient_id, 0)
              (patient_id +:+ " doesn't have segmentation" +:+ nl)
              (with_stdout (stdout w ++ [str seg_path +:+ " doesn't exist"]) w) in
  let turn := iteration load g data_path save_path selected_segment writer use_pandas
                        debug patient_id count w in
  turn = match export_segmentation load g seg_path save_path writer w0 with
         | (w1, Ret _status) =>
             (finished use_pandas patient_id _status w1,
              Ret (S count, debug && (10 <? S count)%nat))
         | (w1, Raise e) => (w1, Raise e)
         end
  /\ (exists cs, calls turn.1 = calls w ++ CallLoadSegmentation seg_path patient_id :: cs)
  /\ (exists out, stdout turn.1 = stdout w ++ (str seg_path +:+ " doesn't exist") :: out)
  /\ (if use_pandas
      then exists rows, df turn.1 = df w ++ (patient_id, 0) :: rows
      else exists lines,
          f_log turn.1
          = f_log w ++ (patient_id +:+ " doesn't have segmentation" +:+ nl) :: lines).
Proof.
  intros Hskip Hmiss seg_path w0 turn.
  assert (noted data_path selected_segment use_pandas patient_id w = w0) as Hn.
  { unfold noted. by rewrite Hmiss. }
  assert (turn = match export_segmentation load g seg_path save_path writer w0 with
                 | (w1, Ret _status) =>
                     (finished use_pandas patient_id _status w1,
                      Ret (S count, debug && (10 <? S count)%nat))
                 | (w1, Raise e) => (w1, Raise e)
                 end) as Ht.
  { unfold turn. rewrite iteration_export by done. by rewrite Hn. }
  split; [exact Ht|]. rewrite Ht. clear Ht turn.
  destruct (export_segmentation load g seg_path save_path writer w0) as [w1 r] eqn:E.
  apply (export_segmentation_calls _ _ _ _ _ _ _ _ _
           (parents_seg_path data_path patient_id selected_segment)) in E.
  destruct E as [(_ & Hdf & Hlog & Hout) (cs & Hcs & _)].
  rewrite name_join in Hcs.
  assert (calls w0 = calls w /\ stdout w0 = stdout w ++ [str seg_path +:+ " doesn't exist"])
    as [Hc0 Ho0] by (unfold w0, recorded; by destruct use_pandas).
  rewrite Hc0 in Hcs. rewrite Ho0 in Hout.
  destruct r as [st|e]; cbn [fst].
  - destruct (finished_fields use_pandas patient_id st w1) as (_ & Hfc & _ & _).
    rewrite Hfc, Hcs. split; [|split].
    + eexists. by rewrite <- app_assoc.
    + exists []. unfold finished, recorded. destruct use_pandas; cbn; by rewrite Hout.
    + unfold finished, recorded, w0, recorded in *.
      destruct use_pandas; cbn in *; eexists;
        [rewrite Hdf | rewrite Hlog]; by rewrite <- app_assoc.
  - split; [|split].
    + by eexists.
    + exists []. by rewrite Hout.
    + unfold w0, recorded in *.
      destruct use_pandas; cbn in *; exists []; [by rewrite Hdf | by rewrite Hlog].
Qed.

(** ** The files of a segmentation *)

Lemma append_cancel_l (a x y : string) : a +:+ x = a +:+ y -> x = y.
Proof. induction a as [|c a IH]; simpl; [done|]. intros [= H]. auto. Qed.

Lemma length_append (x y : string) :
  String.length (x +:+ y) = (String.length x + String.length y)%nat.
Proof. induction x as [|c x IH]; simpl; [done|]. by f_equal. Qed.

Lemma append_cancel_suffix (x y e e' : string) :
  String.length e = String.length e' -> x +:+ e = y +:+ e' -> x = y /\ e = e'.
Proof.
  intros Hl. revert y. induction x as [|c x IH]; intros [|d y]; simpl; intros H.
  - done.
  - exfalso. apply (f_equal String.length) in H.
    rewrite ?length_append in H. simpl in H. rewrite ?length_append in H. lia.
  - exfalso. apply (f_equal String.length) in H.
    rewrite ?length_append in H. simpl in H. rewrite ?length_append in H. lia.
  - injection H as -> H. destruct (IH _ H) as [-> ->]. done.
Qed.

Lemma target_inj (save_path : Path) (node_name i j e e' : string) :
  String.length e = String.length e' ->
  target save_path node_name i e = target save_path node_name j e' -> i = j /\ e = e'.
Proof.
  intros Hl H. unfold target, join in H. apply app_inj_tail in H as [_ H].
  apply append_cancel_l, append_cancel_l in H. by apply append_cancel_suffix.
Qed.

Lemma files_of_target (writer : Writer) (save_path : Path) (node_name i : string) (p : Path) :
  p ∈ files_of writer save_path node_name i ->
  exists e, p = target save_path node_name i e /\ String.length e = 4%nat.
Proof.
  destruct writer; cbn; rewrite ?elem_of_cons, ?elem_of_nil; intros H;
    repeat (destruct H as [->|H]; [by eexists|]); done.
Qed.

Lemma files_of_NoDup (writer : Writer) (save_path : Path) (node_name i : string) :
  NoDup (files_of writer save_path node_name i).
Proof.
  destruct writer; cbn; repeat constructor;
    rewrite ?elem_of_cons, ?elem_of_nil; try tauto.
  intros [H|[]]. by apply target_inj in H as [_ [=]].
Qed.

(** Distinct segment ids go to distinct files. *)
Lemma files_NoDup (writer : Writer) (save_path : Path) (node_name : string)
      (ids : list string) :
  NoDup ids -> NoDup (concat (List.map (files_of writer save_path node_name) ids)).
Proof.
  induction 1 as [|i ids Hi Hnd IH]; cbn; [constructor|].
  apply NoDup_app. split; [apply files_of_NoDup|]. split; [|exact IH].
  intros p Hp Hq. apply files_of_target in Hp as (e & -> & He).
  apply list_elem_of_In, in_concat in Hq as (b & Hb & Hq).
  apply in_map_iff in Hb as (j & <- & Hj).
  apply list_elem_of_In in Hq, Hj.
  apply files_of_target in Hq as (e' & Hq & He').
  apply target_inj in Hq as [-> _]; [done | congruence].
Qed.

(** Storing a file in a directory that holds files only. *)
Lemma put_in_dir (n : node) (d : Path) (f : string) (x : node) (es : gmap string node) :
  FS.lookup n d = Some (Dir es) ->
  exists n', FS.put n (d ++ [f]) x = Some n' /\ FS.lookup n' d = Some (Dir (<[f := x]> es)).
Proof.
  revert n. induction d as [|c d IH]; intros n Hl.
  - injection Hl as ->. by eexists.
  - destruct n as [?|es0]; [discriminate|].
    rewrite FSFacts.lookup_cons in Hl.
    destruct (es0 !! c) as [ch|] eqn:E; [|discriminate].
    destruct (IH ch Hl) as (ch' & Hp & Hl').
    exists (Dir (<[c := ch']> es0)). split.
    + cbn [app FS.put]. destruct (d ++ [f]) eqn:Ed; [by destruct d|].
      by rewrite E, Hp.
    + by rewrite FSFacts.lookup_cons, lookup_insert_eq.
Qed.

Lemma store_in_dir (n : node) (d : Path) (f : string) (c : content) (es : gmap string node) :
  FS.lookup n d = Some (Dir es) -> only_files es ->
  FS.lookup (store (d </> f) c n) d = Some (Dir (<[f := File c]> es))
  /\ only_files (<[f := File c]> es).
Proof.
  intros Hl Hes. split.
  - unfold store, join. rewrite FSFacts.lookup_app, Hl, FSFacts.lookup_cons.
    destruct (put_in_dir n d f (File c) es Hl) as (n' & Hp & Hl').
    destruct (es !! f) as [[?|es1]|] eqn:E; cbn [FS.lookup]; rewrite ?Hp; try exact Hl'.
    by apply Hes in E.
  - intros k m. rewrite lookup_insert. case_decide; [by intros [= <-] | apply Hes].
Qed.

Section StoredFacts.

Variable g : option string.
Variables (save_path : Path) (node_name : string).

(** When the destination is a directory that holds files only, every file
    the loop over the segments asks for is there afterwards. *)
Lemma export_segments_stored (writer : Writer) (segs : list (string * bool))
      (w w' : World) (r : res unit) (es : gmap string node) :
  FS.lookup (fs w) save_path = Some (Dir es) -> only_files es ->
  export_segments g save_path node_name writer segs w = (w', r) ->
  exists es',
    FS.lookup (fs w') save_path = Some (Dir es') /\ only_files es'
    /\ (forall k, is_Some (es !! k) -> is_Some (es' !! k))
    /\ (r = Ret tt ->
        forall i p, i ∈ closed_segments segs ->
                    p ∈ files_of writer save_path node_name i ->
                    exists k, p = save_path </> k /\ is_Some (es' !! k)).
Proof.
  revert w es. induction segs as [|[segmentID has] segs IH]; intros w es Hl Hes;
    cbn [export_segments].
  - run. intros [= <- <-]. exists es. repeat split; auto.
    intros _ i p Hi. by apply elem_of_nil in Hi.
  - run. destruct has; cbn [negb].
    + assert (forall (es1 : gmap string node) (w1 : World),
                 FS.lookup (fs w1) save_path = Some (Dir es1) -> only_files es1 ->
                 (forall k, is_Some (es !! k) -> is_Some (es1 !! k)) ->
                 (forall p, p ∈ files_of writer save_path node_name segmentID ->
                            exists k, p = save_path </> k /\ is_Some (es1 !! k)) ->
                 export_segments g save_path node_name writer segs w1 = (w', r) ->
                 exists es',
                   FS.lookup (fs w') save_path = Some (Dir es') /\ only_files es'
                   /\ (forall k, is_Some (es !! k) -> is_Some (es' !! k))
                   /\ (r = Ret tt ->
                       forall i p,
                         i ∈ closed_segments ((segmentID, true) :: segs) ->
                         p ∈ files_of writer save_path node_name i ->
                         exists k, p = save_path </> k /\ is_Some (es' !! k))) as Hstep.
      { intros es1 w1 Hl1 Hes1 Hmono Hnew Hrun.
        destruct (IH w1 es1 Hl1 Hes1 Hrun) as (es' & Hl' & Hes' & Hmono' & Hfiles).
        exists es'. repeat split; auto.
        intros Hr i p Hi Hp. unfold closed_segments in Hi.
        rewrite filter_cons_True in Hi by done. cbn in Hi.
        apply elem_of_cons in Hi as [->|Hi]; [|by eapply Hfiles].
        destruct (Hnew p Hp) as (k & -> & Hk). eauto. }
      destruct writer; run; cbn [foldl fst snd].
      * destruct (store_in_dir (fs w) save_path
                    (node_name +:+ "_" +:+ segmentID +:+ ".obj")
                    (Rendering node_name segmentID) es Hl Hes) as [Hl1 Hes1].
        destruct (store_in_dir _ save_path
                    (node_name +:+ "_" +:+ segmentID +:+ ".mtl")
                    (Rendering node_name segmentID) _ Hl1 Hes1) as [Hl2 Hes2].
        intros Hrun. apply (fun a c d => Hstep _ _ a Hes2 c d Hrun).
        -- exact Hl2.
        -- intros k Hk. rewrite !lookup_insert. repeat case_decide; eauto.
        -- cbn. intros p Hp. rewrite !elem_of_cons, elem_of_nil in Hp.
           destruct Hp as [->|[->|[]]]; eexists; (split; [reflexivity|]);
             rewrite !lookup_insert; repeat case_decide; eauto; congruence.
      * destruct (store_in_dir (fs w) save_path
                    (node_name +:+ "_" +:+ segmentID +:+ ".stl")
                    (Surface node_name segmentID false) es Hl Hes) as [Hl1 Hes1].
        intros Hrun. apply (fun a c d => Hstep _ _ a Hes1 c d Hrun).
        -- exact Hl1.
        -- intros k Hk. rewrite !lookup_insert. repeat case_decide; eauto.
        -- cbn. intros p Hp. rewrite !elem_of_cons, elem_of_nil in Hp.
           destruct Hp as [->|[]]; eexists; (split; [reflexivity|]).
           rewrite lookup_insert_eq. eauto.
      * destruct (store_in_dir (fs w) save_path
                    (node_name +:+ "_" +:+ segmentID +:+ ".ply")
                    (Surface node_name segmentID true) es Hl Hes) as [Hl1 Hes1].
        intros Hrun. apply (fun a c d => Hstep _ _ a Hes1 c d Hrun).
        -- exact Hl1.
        -- intros k Hk. rewrite !lookup_insert. repeat case_decide; eauto.
        -- cbn. intros p Hp. rewrite !elem_of_cons, elem_of_nil in Hp.
           destruct Hp as [->|[]]; eexists; (split; [reflexivity|]).
           rewrite lookup_insert_eq. eauto.
      * destruct g; run; intros [= <- <-]; exists es; repeat split; auto; discriminate.
    + intros Hrun.
      destruct (fun a => IH _ es a Hes Hrun) as (es' & Hl' & Hes' & Hmono' & Hfiles);
        [exact Hl|].
      exists es'. repeat split; auto.
Qed.

End StoredFacts.

Lemma closed_segments_all (segs : list (string * bool)) :
  Forall (fun s => s.2 = true) segs -> closed_segments segs = segs.*1.
Proof.
  unfold closed_segments. induction 1 as [|s segs Hs _ IH]; [reflexivity|].
  rewrite filter_cons_True by done. cbn. by f_equal.
Qed.

Lemma closed_segments_length (segs : list (string * bool)) :
  (length (closed_segments segs) <= length segs)%nat.
Proof. unfold closed_segments. rewrite length_fmap. apply length_filter. Qed.

Lemma closed_segments_NoDup (segs : list (string * bool)) :
  NoDup segs.*1 -> NoDup (closed_segments segs).
Proof.
  unfold closed_segments. induction segs as [|s segs IH]; [constructor|].
  cbn [fmap list_fmap]. intros [Hs Hnd]%NoDup_cons.
  rewrite filter_cons. destruct (decide (s.2 = true)); [|by apply IH].
  cbn. apply NoDup_cons. split; [|by apply IH].
  intros Hin. apply Hs. apply list_elem_of_fmap in Hin as (s' & -> & Hin).
  apply list_elem_of_fmap. exists s'. split; [done|].
  by apply list_elem_of_filter in Hin as [_ ?].
Qed.

(** What a call of the exporter writes, with one of the three writers the
    dispatch knows and a segmentation that has a closed surface and at least
    one segment: the call returns the number of all segments; it asks for
    one bundle of files for each segment that has a closed surface, in the
    order of the segments; distinct segments go to distinct files; and when
    the destination is a directory that holds files only, each of the files
    is there afterwards. *)
Lemma export_segmentation_written
    (load : node -> Path -> option Segmentation) (g : option string)
    (file_path save_path case_dir : Path) (writer : Writer)
    (seg : Segmentation) (w : World) (es : gmap string node) :
  parents file_path 1 = Some case_dir ->
  load (fs w) file_path = Some seg ->
  closed_surface seg = true ->
  segments seg <> [] ->
  writer <> vtkGLTFExporter ->
  FS.lookup (fs w) save_path = Some (Dir es) -> only_files es ->
  exists w',
    export_segmentation load g file_path save_path writer w
    = (w', Ret (Z.of_nat (length (segments seg))))
    /\ written (calls w')
       = written (calls w)
           ++ List.map (files_of writer save_path (name case_dir))
                       (closed_segments (segments seg))
    /\ Forall (is_file (fs w'))
         (concat (List.map (files_of writer save_path (name case_dir))
                           (closed_segments (segments seg)))).
Proof.
  intros Hp Hload Hclosed Hne Hw Hl Hes.
  unfold export_segmentation. rewrite Hp. run. rewrite Hload. run.
  rewrite Hclosed. cbn [negb]. run.
  destruct (Z.eqb_spec (Z.of_nat (length (segments seg))) 0) as [H0|_].
  { destruct (segments seg); [done | cbn in H0; lia]. }
  assert (forall w1 : World,
             fs w1 = fs w -> written (calls w1) = written (calls w) ->
             exists w',
               match export_segments g save_path (name case_dir) writer (segments seg) w1 with
               | (w2, Ret _) => (w2, Ret (Z.of_nat (length (segments seg))))
               | (w2, Raise e) => (w2, Raise e)
               end = (w', Ret (Z.of_nat (length (segments seg))))
               /\ written (calls w')
                  = written (calls w)
                      ++ List.map (files_of writer save_path (name case_dir))
                                  (closed_segments (segments seg))
               /\ Forall (is_file (fs w'))
                    (concat (List.map (files_of writer save_path (name case_dir))
                                      (closed_segments (segments seg))))) as Hgo.
  { intros w1 Hfs Hwr.
    destruct (export_segments_written g save_path (name case_dir) writer
                (segments seg) w1 Hw) as (w' & Hrun & Hwritten).
    rewrite Hrun. exists w'. split; [reflexivity|]. split; [by rewrite Hwritten, Hwr|].
    rewrite <- Hfs in Hl.
    destruct (export_segments_stored g save_path (name case_dir) writer (segments seg)
                w1 w' (Ret tt) es Hl Hes Hrun) as (es' & Hl' & Hes' & _ & Hfiles).
    apply Forall_forall. intros p Hp'.
    apply list_elem_of_In, in_concat in Hp' as (b & Hb & Hp').
    apply in_map_iff in Hb as (i & <- & Hi).
    apply list_elem_of_In in Hp', Hi.
    destruct (Hfiles eq_refl i p Hi Hp') as (k & -> & [m Hk]).
    unfold is_file, join. rewrite FSFacts.lookup_app, Hl', FSFacts.lookup_cons, Hk.
    cbn. specialize (Hes' k m Hk). destruct m; [by eexists | discriminate]. }
  destruct (is_scene_exporter writer); run; apply Hgo; cbn; try reflexivity;
    unfold written; rewrite !omap_app; cbn; by rewrite !app_nil_r.
Qed.

(** C3, as the code has it: with the STL, PLY or OBJ writer, a segmentation
    that loads, has a closed surface and at least one segment, every segment
    of which yields closed-surface geometry, and segment ids that are
    distinct, the exporter returns the number of segments and writes exactly
    that many bundles: one file for each segment with the STL and PLY
    writers, an .obj/.mtl pair for each with the OBJ exporter.  The files
    are distinct, and when the destination is a directory that holds files
    only they are all there afterwards. *)
Theorem files_written_equal_status_when_all_closed
    (load : node -> Path -> option Segmentation) (g : option string)
    (file_path save_path case_dir : Path) (writer : Writer)
    (seg : Segmentation) (w : World) (es : gmap string node) :
  parents file_path 1 = Some case_dir ->
  load (fs w) file_path = Some seg ->
  closed_surface seg = true ->
  segments seg <> [] ->
  Forall (fun s => s.2 = true) (segments seg) ->
  NoDup (segments seg).*1 ->
  writer <> vtkGLTFExporter ->
  FS.lookup (fs w) save_path = Some (Dir es) -> only_files es ->
  exists (w' : World) (bundles : list (list Path)),
    export_segmentation load g file_path save_path writer w
    = (w', Ret (Z.of_nat (length bundles)))
    /\ written (calls w') = written (calls w) ++ bundles
    /\ bundles = List.map (files_of writer save_path (name case_dir)) (segments seg).*1
    /\ Forall (fun b => length b = if is_scene_exporter writer then 2%nat else 1%nat) bundles
    /\ NoDup (concat bundles)
    /\ Forall (is_file (fs w')) (concat bundles).
Proof.
  intros Hp Hload Hclosed Hne Hall Hnd Hw Hl Hes.
  destruct (export_segmentation_written load g file_path save_path case_dir writer
              seg w es Hp Hload Hclosed Hne Hw Hl Hes) as (w' & Hrun & Hwr & Hfiles).
  rewrite (closed_segments_all _ Hall) in Hwr, Hfiles.
  exists w', (List.map (files_of writer save_path (name case_dir)) (segments seg).*1).
  rewrite length_map, length_fmap. repeat split; auto.
  - apply Forall_forall. intros b Hb.
    apply list_elem_of_In, in_map_iff in Hb as (i & <- & _).
    by destruct writer.
  - by apply files_NoDup.
Qed.

(** ** The counter and the debug cap *)

Lemma length_remove_first (x : string) (xs : list string) :
  x ∈ xs -> S (length (remove_first x xs)) = length xs.
Proof.
  intros H. destruct (remove_first_split x xs H) as (l1 & l2 & -> & _ & ->).
  rewrite !length_app. cbn. lia.
Qed.

Section CounterFacts.

Variable load : node -> Path -> option Segmentation.
Variable g : option string.
Variables (data_path save_path : Path) (selected_segment : string)
          (writer : Writer) (use_pandas debug : bool).

Local Abbreviation loop_of :=
  (loop load g data_path save_path selected_segment writer use_pandas debug).

(** Whatever the list of cases: the counter goes up by the number of cases
    the exporter was called on, the skip-list only shrinks, by one entry for
    each case it made the loop skip, and the summary has an entry for each
    of both kinds of cases. *)
Lemma loop_counter (patient_ids : list string) (count : nat) (w w' : World) (count' : nat) :
  loop_of patient_ids count w = (w', Ret count') ->
  exists ran : list string,
    exported_cases (calls w') = exported_cases (calls w) ++ ran
    /\ count' = (count + length ran)%nat
    /\ (length (skip_image_id w') <= length (skip_image_id w))%nat
    /\ (summary_length use_pandas w
        + length ran + (length (skip_image_id w) - length (skip_image_id w'))
        <= summary_length use_pandas w')%nat
    /\ (debug = true -> (count <= 10)%nat -> (count' <= 11)%nat).
Proof.
  revert count w. induction patient_ids as [|i ids IH]; intros count w.
  - cbn. unfold ret. intros [= <- <-]. exists [].
    rewrite app_nil_r. cbn. repeat split; lia.
  - rewrite loop_cons.
    destruct (iteration _ _ _ _ _ _ _ _ i count w) as [w1 [out|e]] eqn:E; [|discriminate].
    apply iteration_cases in E
        as [(Hc & -> & Hs & Hcalls & Hsum)|(Hc & -> & Hs & Hcalls & Hsum)];
      cbn [fst snd].
    + intros Hl. apply IH in Hl as (ran & He & -> & Hle & Hsu & Hcap).
      apply contains_true, length_remove_first in Hc.
      exists ran. rewrite <- Hcalls, He. rewrite Hs in Hle, Hsu.
      repeat split; auto; lia.
    + destruct (debug && (10 <? S count)%nat)%bool eqn:Hb.
      * intros [= <- <-]. exists [i]. rewrite Hcalls, Hs. cbn. repeat split; lia.
      * intros Hl. apply IH in Hl as (ran & He & -> & Hle & Hsu & Hcap).
        exists (i :: ran). rewrite He, Hcalls, <- app_assoc. rewrite Hs in Hle, Hsu.
        cbn. repeat split; auto; try lia.
        intros Hd Hc10. subst debug. cbn [andb] in Hb. apply Nat.ltb_ge in Hb.
        specialize (Hcap eq_refl Hb). lia.
Qed.

End CounterFacts.

(** ** The cases the loop visits *)

Lemma remove_first_absent (x : string) (xs : list string) :
  x ∉ xs -> remove_first x xs = xs.
Proof.
  induction xs as [|y ys IH]; [reflexivity|].
  intros [Hxy Hx]%not_elem_of_cons. cbn [remove_first].
  destruct (decide (x = y)); [done|]. by rewrite IH.
Qed.

Lemma contains_remove_first_other (x y : string) (xs : list string) :
  x <> y -> contains y (remove_first x xs) = contains y xs.
Proof.
  intros Hne. unfold contains. apply bool_decide_ext. by apply remove_first_other.
Qed.

Lemma gone_through_remove_first (x : string) (skip patient_ids : list string) :
  x ∉ patient_ids ->
  forall cap, gone_through cap (remove_first x skip) patient_ids
              = gone_through cap skip patient_ids.
Proof.
  induction patient_ids as [|i ids IH]; intros Hx cap; [reflexivity|].
  apply not_elem_of_cons in Hx as [Hxi Hx]. cbn [gone_through].
  rewrite (contains_remove_first_other x i skip Hxi).
  destruct (contains i skip); [by rewrite IH|].
  destruct cap; [reflexivity|]. by rewrite IH.
Qed.

Lemma filter_skipped_remove_first (x : string) (skip ids : list string) :
  x ∉ ids ->
  filter (fun i => i ∈ remove_first x skip) ids = filter (fun i => i ∈ skip) ids.
Proof.
  induction ids as [|i ids IH]; intros Hx; [reflexivity|].
  apply not_elem_of_cons in Hx as [Hxi Hx].
  rewrite !filter_cons, (IH Hx).
  pose proof (remove_first_other x i skip Hxi) as Hiff.
  destruct (decide (i ∈ remove_first x skip)) as [H1|H1],
           (decide (i ∈ skip)) as [H2|H2]; try reflexivity; exfalso; tauto.
Qed.

(** The skip-list only loses names, and only names of cases visited. *)
Lemma consumed_elem (x : string) (cases skip : list string) :
  x ∈ consumed skip cases -> x ∈ skip.
Proof.
  unfold consumed. revert skip.
  induction cases as [|i cases IH]; intros skip; [done|]. cbn [foldl].
  intros H%IH. destruct (contains i skip); [|exact H].
  destruct (decide (i = x)) as [->|Hne].
  - destruct (decide (x ∈ skip)) as [Hin|Hout]; [exact Hin|].
    by rewrite remove_first_absent in H.
  - by apply (remove_first_other i x skip Hne).
Qed.

Lemma consumed_other (x : string) (cases skip : list string) :
  x ∉ cases -> x ∈ skip -> x ∈ consumed skip cases.
Proof.
  unfold consumed. revert skip.
  induction cases as [|i cases IH]; intros skip Hx Hin; [done|].
  apply not_elem_of_cons in Hx as [Hxi Hx]. cbn [foldl].
  apply IH; [exact Hx|]. destruct (contains i skip); [|exact Hin].
  apply remove_first_other; [congruence | exact Hin].
Qed.

Lemma consumed_app (skip cases more : list string) :
  consumed skip (cases ++ more) = consumed (consumed skip cases) more.
Proof. unfold consumed. apply foldl_app. Qed.

(** Each case visited that is named in the skip-list takes one name out. *)
Lemma consumed_length (cases : list string) :
  NoDup cases ->
  forall skip,
    (length (consumed skip cases) + length (filter (fun i => i ∈ skip) cases))%nat
    = length skip.
Proof.
  induction 1 as [|i cases Hi Hnd IH]; intros skip; [cbn; lia|].
  unfold consumed. cbn [foldl].
  fold (consumed (if contains i skip then remove_first i skip else skip) cases).
  destruct (contains i skip) eqn:Hc.
  - apply contains_true in Hc. rewrite filter_cons_True by done. cbn [length].
    rewrite <- (filter_skipped_remove_first i skip cases Hi).
    pose proof (IH (remove_first i skip)) as H.
    pose proof (length_remove_first i skip Hc). lia.
  - apply contains_false in Hc. rewrite filter_cons_False by done. apply IH.
Qed.

(** The exported ones among the cases visited are the first [S cap] cases
    that are not named in the skip-list: the named ones between them take
    nothing from the cap. *)
Lemma filter_gone_through (skip patient_ids : list string) (cap : nat) :
  filter (fun i => i ∉ skip) (gone_through cap skip patient_ids)
  = take (S cap) (filter (fun i => i ∉ skip) patient_ids).
Proof.
  revert cap. induction patient_ids as [|i ids IH]; intros cap; [reflexivity|].
  cbn [gone_through]. destruct (contains i skip) eqn:Hc.
  - apply contains_true in Hc. rewrite !filter_cons_False by tauto. apply IH.
  - apply contains_false in Hc. rewrite (filter_cons_True _ i ids) by done.
    destruct cap as [|cap].
    + rewrite filter_cons_True by done. cbn. by rewrite take_0.
    + rewrite filter_cons_True by done. cbn [take]. by rewrite IH.
Qed.

(** When there are more than [cap] cases that are not named in the
    skip-list, the cases visited end with the one that uses up the cap. *)
Lemma gone_through_split (skip patient_ids : list string) (cap : nat) :
  (S cap <= length (filter (fun i => i ∉ skip) patient_ids))%nat ->
  exists (before : list string) (last_case : string) (rest : list string),
    patient_ids = before ++ last_case :: rest
    /\ gone_through cap skip patient_ids = before ++ [last_case]
    /\ (last_case ∉ skip)
    /\ length (filter (fun i => i ∉ skip) before) = cap.
Proof.
  revert cap. induction patient_ids as [|i ids IH]; intros cap; [cbn; lia|].
  cbn [gone_through]. destruct (contains i skip) eqn:Hc.
  - apply contains_true in Hc. rewrite filter_cons_False by tauto.
    intros (before & l & rest & -> & -> & Hl & Hlen)%IH.
    exists (i :: before), l, rest. rewrite filter_cons_False by tauto.
    by repeat split.
  - apply contains_false in Hc. rewrite filter_cons_True by done.
    destruct cap as [|cap].
    + intros _. by exists [], i, ids.
    + cbn [length]. intros Hlen. apply le_S_n in Hlen.
      apply IH in Hlen as (before & l & rest & -> & -> & Hl & Hlen).
      exists (i :: before), l, rest. rewrite filter_cons_True by done.
      cbn [length]. by repeat split; [|f_equal].
Qed.

Lemma gone_through_prefix (skip patient_ids : list string) (cap : nat) :
  gone_through cap skip patient_ids `prefix_of` patient_ids.
Proof.
  revert cap. induction patient_ids as [|i ids IH]; intros cap; [done|].
  cbn [gone_through]. destruct (contains i skip); [by apply prefix_cons|].
  destruct cap; [apply prefix_cons, prefix_nil | by apply prefix_cons].
Qed.

Lemma recorded_summary (use_pandas : bool) (row : string * Z) (line : string) (w : World) :
  exists rows lines,
    df (recorded use_pandas row line w) = df w ++ rows
    /\ f_log (recorded use_pandas row line w) = f_log w ++ lines.
Proof.
  unfold recorded. destruct use_pandas; cbn.
  - exists [row], []. by rewrite app_nil_r.
  - exists [], [line]. by rewrite app_nil_r.
Qed.

Lemma recorded_skipped_entry (use_pandas : bool) (patient_id : string) (w : World) :
  skipped_entry use_pandas patient_id
    (recorded use_pandas (patient_id, -2) (patient_id +:+ " is skipped" +:+ nl) w).
Proof.
  unfold skipped_entry, recorded. destruct use_pandas; cbn;
    apply elem_of_app; right; apply list_elem_of_singleton; reflexivity.
Qed.

Section VisitFacts.

Variable load : node -> Path -> option Segmentation.
Variable g : option string.
Variables (data_path save_path : Path) (selected_segment : string)
          (writer : Writer) (use_pandas debug : bool).

Local Abbreviation turn_of :=
  (iteration load g data_path save_path selected_segment writer use_pandas debug).
Local Abbreviation loop_of :=
  (loop load g data_path save_path selected_segment writer use_pandas debug).

(** A turn only adds to the summary. *)
Lemma iteration_summary (patient_id : string) (count : nat) (w w' : World)
      (out : nat * bool) :
  turn_of patient_id count w = (w', Ret out) ->
  exists rows lines, df w' = df w ++ rows /\ f_log w' = f_log w ++ lines.
Proof.
  destruct (contains patient_id (skip_image_id w)) eqn:Hc.
  - rewrite iteration_skip by done. intros [= <- <-].
    destruct (recorded_summary use_pandas (patient_id, -2)
                (patient_id +:+ " is skipped" +:+ nl)
                (with_skip_image_id (remove_first patient_id (skip_image_id w)) w))
      as (rows & lines & H1 & H2).
    by exists rows, lines.
  - rewrite iteration_export by done.
    destruct (export_segmentation _ _ _ _ _ _) as [w1 [st|e]] eqn:E; [|discriminate].
    intros [= <- <-].
    apply (export_segmentation_calls _ _ _ _ _ _ _ _ _
             (parents_seg_path data_path patient_id selected_segment)) in E.
    destruct E as [(_ & Hdf & Hlog & _) _].
    assert (exists rows lines,
               df (noted data_path selected_segment use_pandas patient_id w) = df w ++ rows
               /\ f_log (noted data_path selected_segment use_pandas patient_id w)
                  = f_log w ++ lines) as (rows0 & lines0 & Hd0 & Hl0).
    { unfold noted. destruct (FS.exists_ _ _).
      - exists [], []. by rewrite !app_nil_r.
      - apply (recorded_summary use_pandas _ _
                 (with_stdout
                    (stdout w ++ [str (seg_path_of data_path patient_id selected_segment)
                                    +:+ " doesn't exist"]) w)). }
    unfold finished. cbn [df f_log with_scene with_calls].
    destruct (recorded_summary use_pandas (patient_id, st)
                (patient_id +:+ " exported " +:+ Str.of_Z st +:+ " segments" +:+ nl) w1)
      as (rows & lines & -> & ->).
    exists (rows0 ++ rows), (lines0 ++ lines).
    by rewrite Hdf, Hlog, Hd0, Hl0, <- !app_assoc.
Qed.

Lemma loop_summary (patient_ids : list string) (count count' : nat) (w w' : World) :
  loop_of patient_ids count w = (w', Ret count') ->
  exists rows lines, df w' = df w ++ rows /\ f_log w' = f_log w ++ lines.
Proof.
  revert count w. induction patient_ids as [|i ids IH]; intros count w.
  - cbn. unfold ret. intros [= <- <-]. exists [], []. by rewrite !app_nil_r.
  - rewrite loop_cons.
    destruct (iteration _ _ _ _ _ _ _ _ i count w) as [w1 [out|e]] eqn:E; [|discriminate].
    apply iteration_summary in E as (rows1 & lines1 & Hd1 & Hl1).
    destruct out.2.
    + intros [= <- <-]. by exists rows1, lines1.
    + intros (rows & lines & -> & ->)%IH.
      exists (rows1 ++ rows), (lines1 ++ lines). by rewrite Hd1, Hl1, <- !app_assoc.
Qed.

(** An entry of a skipped case stays in the summary while the loop goes on. *)
Lemma loop_keeps_entry (patient_ids : list string) (count count' : nat) (w w' : World)
      (patient_id : string) :
  loop_of patient_ids count w = (w', Ret count') ->
  skipped_entry use_pandas patient_id w -> skipped_entry use_pandas patient_id w'.
Proof.
  intros (rows & lines & Hd & Hl)%loop_summary. unfold skipped_entry.
  destruct use_pandas; [rewrite Hd | rewrite Hl]; intros H; apply elem_of_app; by left.
Qed.

(** The cases the loop visits, when no call raises, are those of
    [gone_through] (all of them without [debug]); each of them that is
    named in the skip-list has its entry in the summary at the end and was
    taken out of the list, and no other name was. *)
Lemma loop_visits (patient_ids : list string) :
  NoDup patient_ids ->
  forall (count : nat) (w w' : World) (count' : nat),
    (debug = true -> (count <= 10)%nat) ->
    loop_of patient_ids count w = (w', Ret count') ->
    let seen := if debug then gone_through (10 - count) (skip_image_id w) patient_ids
                else patient_ids in
    Forall (fun i => skipped_entry use_pandas i w')
           (filter (fun i => i ∈ skip_image_id w) seen)
    /\ skip_image_id w' = consumed (skip_image_id w) seen.
Proof.
  induction 1 as [|i ids Hi Hnd IH]; intros count w w' count' Hcap.
  - cbn. unfold ret. intros [= <- <-]. destruct debug; cbn; by split.
  - rewrite loop_cons.
    destruct (turn_of i count w) as [w1 [out|e]] eqn:E; [|discriminate].
    pose proof E as E'.
    apply iteration_cases in E as [(Hc & -> & Hs & _)|(Hc & -> & Hs & _)];
      cbn [fst snd].
    + rewrite iteration_skip in E' by done. injection E' as E'.
      intros Hl. pose proof (loop_keeps_entry _ _ _ _ _ i Hl) as Hkeep.
      apply IH in Hl; [|exact Hcap]. cbn zeta in Hl. rewrite Hs in Hl.
      assert (skipped_entry use_pandas i w') as Hentry.
      { apply Hkeep. rewrite <- E'. apply recorded_skipped_entry. }
      apply contains_true in Hc as Hin.
      assert (forall seen : list string,
                 seen `prefix_of` ids ->
                 Forall (fun i0 => skipped_entry use_pandas i0 w')
                        (filter (fun i0 => i0 ∈ remove_first i (skip_image_id w)) seen)
                 /\ skip_image_id w' = consumed (remove_first i (skip_image_id w)) seen ->
                 Forall (fun i0 => skipped_entry use_pandas i0 w')
                        (filter (fun i0 => i0 ∈ skip_image_id w) (i :: seen))
                 /\ skip_image_id w' = consumed (skip_image_id w) (i :: seen)) as Hstep.
      { intros seen [k Hk] [Hall Hskip].
        assert (i ∉ seen) as Hiseen.
        { intros Hx. apply Hi. rewrite Hk. apply elem_of_app. by left. }
        rewrite filter_cons_True by done.
        rewrite (filter_skipped_remove_first _ _ _ Hiseen) in Hall.
        split; [by constructor|].
        unfold consumed. cbn [foldl]. rewrite Hc. exact Hskip. }
      cbn zeta. destruct debug.
      * cbn [gone_through]. rewrite Hc. apply Hstep.
        -- apply gone_through_prefix.
        -- by rewrite (gone_through_remove_first _ _ _ Hi) in Hl.
      * by apply Hstep.
    + apply contains_false in Hc as Hin.
      assert (forall seen : list string,
                 Forall (fun i0 => skipped_entry use_pandas i0 w')
                        (filter (fun i0 => i0 ∈ skip_image_id w) seen)
                 /\ skip_image_id w' = consumed (skip_image_id w) seen ->
                 Forall (fun i0 => skipped_entry use_pandas i0 w')
                        (filter (fun i0 => i0 ∈ skip_image_id w) (i :: seen))
                 /\ skip_image_id w' = consumed (skip_image_id w) (i :: seen)) as Hstep.
      { intros seen [Hall Hskip]. rewrite filter_cons_False by tauto.
        split; [exact Hall|]. unfold consumed. cbn [foldl]. rewrite Hc. exact Hskip. }
      cbn zeta. destruct debug; cbn [andb].
      * specialize (Hcap eq_refl). cbn [gone_through]. rewrite Hc.
        destruct (Nat.ltb_spec 10 (S count)) as [Hlt|Hge].
        -- intros [= <- <-]. replace (10 - count)%nat with 0%nat by lia.
           apply (Hstep []). split; [constructor | by rewrite Hs].
        -- intros Hl. apply IH in Hl; [|lia]. cbn zeta in Hl. rewrite Hs in Hl.
           replace (10 - count)%nat with (S (10 - S count)) by lia.
           by apply Hstep.
      * intros Hl. apply IH in Hl; [|discriminate]. cbn zeta in Hl. rewrite Hs in Hl.
        by apply Hstep.
Qed.

End VisitFacts.

(** In debug mode the loop does not reach the cases behind the one that
    uses up the cap: run on the whole list, it does what it does on the
    cases of [gone_through], however the run ends. *)
Lemma loop_stops_at_the_cap
    (load : node -> Path -> option Segmentation) (g : option string)
    (data_path save_path : Path) (selected_segment : string) (writer : Writer)
    (use_pandas : bool) (patient_ids : list string) :
  NoDup patient_ids ->
  forall (count : nat) (w : World),
    (count <= 10)%nat ->
    loop load g data_path save_path selected_segment writer use_pandas true
         patient_ids count w
    = loop load g data_path save_path selected_segment writer use_pandas true
           (gone_through (10 - count) (skip_image_id w) patient_ids) count w.
Proof.
  induction 1 as [|i ids Hi Hnd IH]; intros count w Hcap; [reflexivity|].
  cbn [gone_through]. destruct (contains i (skip_image_id w)) eqn:Hc.
  - rewrite !loop_cons, iteration_skip by done. cbn [fst snd].
    rewrite IH by done. f_equal.
    destruct (recorded_fields use_pandas (i, -2) (i +:+ " is skipped" +:+ nl)
                (with_skip_image_id (remove_first i (skip_image_id w)) w))
      as (_ & _ & -> & _).
    cbn [skip_image_id with_skip_image_id].
    by rewrite (gone_through_remove_first _ _ _ Hi).
  - destruct (10 - count)%nat as [|cap] eqn:Hk.
    + assert (count = 10%nat) as -> by lia.
      rewrite !loop_cons.
      destruct (iteration _ _ _ _ _ _ _ _ i 10%nat w) as [w1 [out|e]] eqn:E; [|reflexivity].
      apply iteration_cases in E as [(Hc' & _)|(_ & -> & _)]; [congruence|].
      reflexivity.
    + rewrite !loop_cons.
      destruct (iteration _ _ _ _ _ _ _ _ i count w) as [w1 [out|e]] eqn:E; [|reflexivity].
      apply iteration_cases in E as [(Hc' & _)|(_ & -> & Hs & _)]; [congruence|].
      cbn [fst snd andb].
      destruct (Nat.ltb_spec 10 (S count)) as [Hlt|Hge]; [lia|].
      rewrite IH by lia. rewrite Hs. by replace (10 - S count)%nat with cap by lia.
Qed.

(** C4, as the code has it: in debug mode, when at least 11 of the cases
    are not named in the skip-list and no call of the exporter raises, the
    list of cases splits at the 11th of them, [last_case]: the exporter
    runs on exactly the first 11 cases that are not named, in their order,
    and the counter ends at 11; the loop stops at [last_case], that is, run
    on the whole list it does what it does on the list cut behind
    [last_case], and no case behind it is taken out of the skip-list; and
    the cases before [last_case] that are named in the skip-list are
    skipped, each with its entry in the summary and its name taken out of
    the list, without counting. *)
Theorem debug_stops_after_eleven_exported_cases
    (load : node -> Path -> option Segmentation) (g : option string)
    (data_path save_path : Path) (selected_segment : string) (writer : Writer)
    (use_pandas : bool) (patient_ids : list string) (w w' : World) (count' : nat) :
  NoDup patient_ids ->
  (11 <= length (filter (fun i => i ∉ skip_image_id w) patient_ids))%nat ->
  loop load g data_path save_path selected_segment writer use_pandas true
       patient_ids 0 w = (w', Ret count') ->
  exists (before : list string) (last_case : string) (rest : list string),
    patient_ids = before ++ last_case :: rest
    /\ (last_case ∉ skip_image_id w)
    /\ length (filter (fun i => i ∉ skip_image_id w) before) = 10%nat
    /\ count' = 11%nat
    /\ exported_cases (calls w')
       = exported_cases (calls w)
           ++ take 11 (filter (fun i => i ∉ skip_image_id w) patient_ids)
    /\ take 11 (filter (fun i => i ∉ skip_image_id w) patient_ids)
       = filter (fun i => i ∉ skip_image_id w) before ++ [last_case]
    /\ loop load g data_path save_path selected_segment writer use_pandas true
            patient_ids 0 w
       = loop load g data_path save_path selected_segment writer use_pandas true
              (before ++ [last_case]) 0 w
    /\ Forall (fun i => skipped_entry use_pandas i w')
              (filter (fun i => i ∈ skip_image_id w) before)
    /\ skip_image_id w' = consumed (skip_image_id w) before
    /\ Forall (fun j => j ∈ skip_image_id w -> j ∈ skip_image_id w') rest.
Proof.
  intros Hnd Hlen Hrun.
  destruct (gone_through_split (skip_image_id w) patient_ids 10 Hlen)
    as (before & last_case & rest & Hids & Hgone & Hlast & Hten).
  exists before, last_case, rest.
  pose proof (filter_gone_through (skip_image_id w) patient_ids 10) as Hran.
  rewrite Hgone, filter_app, filter_cons_True, filter_nil in Hran by done.
  pose proof (loop_stops_at_the_cap load g data_path save_path selected_segment writer
                use_pandas patient_ids Hnd 0 w ltac:(lia)) as Hstop.
  cbn [Nat.sub] in Hstop. rewrite Hgone in Hstop.
  pose proof (loop_visits load g data_path save_path selected_segment writer use_pandas
                true patient_ids Hnd 0 w w' count' ltac:(lia) Hrun) as [Hall Hskip].
  cbn [Nat.sub] in Hall, Hskip. rewrite Hgone in Hall, Hskip.
  rewrite filter_app, filter_cons_False, filter_nil, app_nil_r in Hall by tauto.
  assert (consumed (skip_image_id w) (before ++ [last_case])
          = consumed (skip_image_id w) before) as Hcut.
  { rewrite consumed_app. unfold consumed at 1. cbn [foldl].
    destruct (contains last_case (consumed (skip_image_id w) before)) eqn:Hc;
      [|reflexivity].
    apply contains_true, consumed_elem in Hc. contradiction. }
  rewrite Hcut in Hskip.
  apply loop_exported in Hrun as [He ->]; [|exact Hnd|lia].
  cbn zeta in He. cbn [Nat.sub] in *.
  split; [exact Hids|]. split; [exact Hlast|]. split; [exact Hten|].
  split; [rewrite length_take; lia|]. split; [exact He|].
  split; [symmetry; exact Hran|]. split; [exact Hstop|].
  split; [exact Hall|]. split; [exact Hskip|].
  apply Forall_forall. intros j Hj Hin. rewrite Hskip.
  apply consumed_other; [|exact Hin].
  intros Hb. rewrite Hids in Hnd. apply NoDup_app in Hnd as (_ & Hdis & _).
  apply (Hdis j Hb). apply elem_of_cons. by right.
Qed.

(** ** [main] around the loop *)

Lemma create_directory_frame (path : Path) (w w' : World) (r : res unit) :
  create_directory path w = (w', r) -> w' = with_fs (fs w') w.
Proof.
  unfold create_directory.
  destruct (if FS.exists_ (fs w) path then FS.rmtree (fs w) path else (fs w, Ret tt))
    as [n [[]|e]].
  - destruct (FS.mkdir [] n path); by intros [= <- <-].
  - by intros [= <- <-].
Qed.

(** The cases are listed without repetition, in the order of [sorted]. *)
Lemma list_patient_ids_sorted (data_path : Path) (w w' : World) (ids : list string) :
  list_patient_ids data_path w = (w', Ret ids) ->
  w' = w /\ NoDup ids /\ Sorted Str.le ids
  /\ exists es, FS.lookup (fs w) data_path = Some (Dir es)
                /\ forall i, i ∈ ids <-> exists es', es !! i = Some (Dir es').
Proof.
  unfold list_patient_ids. run.
  destruct (FS.lookup (fs w) data_path) as [[c|es]|]; run; try discriminate.
  intros [= <- <-]. split; [reflexivity|].
  assert (NoDup (FS.subdirs es)) as Hnd by apply NoDup_fst_map_to_list.
  split; [by rewrite merge_sort_Permutation|].
  split; [apply Sorted_merge_sort, _|].
  exists es. split; [reflexivity|]. intros i.
  rewrite merge_sort_Permutation. unfold FS.subdirs.
  rewrite list_elem_of_fmap. split.
  - intros ([k m] & -> & H). apply elem_of_map_to_list, map_lookup_filter_Some in H.
    destruct H as [H Hd]. cbn in *. destruct m; [discriminate | eauto].
  - intros (es' & H). exists (i, Dir es'). split; [reflexivity|].
    by apply elem_of_map_to_list, map_lookup_filter_Some.
Qed.


(** The same run, with the worlds it goes through: the one in which the
    cases are listed is the one the loop starts in, after the destination
    directory was made and the summary opened. *)
Lemma main_run_listing
    (load : node -> Path -> option Segmentation) (g : option string)
    (data_path export_path : Path) (selected_segment export_type : string)
    (skip : option (list string)) (use_pandas debug : bool) (w w' : World) (n : nat) :
  main load g data_path export_path selected_segment export_type skip use_pandas debug w
  = (w', Ret n) ->
  exists (writer : Writer) (w0 w1 w2 : World) (patient_ids : list string) (saved : string),
    create_directory (save_path_of data_path export_path selected_segment export_type)
                     (with_skip_image_id (default [] skip) w) = (w0, Ret tt)
    /\ (if use_pandas then w1 = with_df [] w0
        else open_w (save_log_path_of data_path export_path selected_segment export_type)
                    w0 = (w1, Ret tt))
    /\ list_patient_ids data_path w1 = (w1, Ret patient_ids)
    /\ calls w1 = calls w
    /\ skip_image_id w1 = default [] skip
    /\ summary_length use_pandas w1 = 0%nat
    /\ loop load g data_path
            (save_path_of data_path export_path selected_segment export_type)
            selected_segment writer use_pandas debug patient_ids 0 w1 = (w2, Ret n)
    /\ calls w' = calls w2 /\ skip_image_id w' = skip_image_id w2
    /\ df w' = df w2 /\ f_log w' = f_log w2
    /\ stdout w'
       = stdout w2 ++ ["Exported " +:+ Str.of_Z (Z.of_nat n) +:+ " patients"; saved].
Proof.
  unfold main. cbv beta delta [bind modify] iota.
  destruct (pick_writer (Str.lower export_type)) as [writer|]; [|discriminate].
  fold (save_path_of data_path export_path selected_segment export_type).
  fold (save_log_path_of data_path export_path selected_segment export_type).
  fold (save_excel_path_of data_path export_path selected_segment export_type).
  destruct (create_directory _ _) as [w0 [[]|e]] eqn:Hcd; [|discriminate].
  pose proof (create_directory_frame _ _ _ _ Hcd) as Hw0. cbn in Hw0.
  assert (calls w0 = calls w /\ skip_image_id w0 = default [] skip) as (Hc0 & Hs0)
    by (rewrite Hw0; by cbn).
  destruct use_pandas.
  - destruct (list_patient_ids data_path (with_df [] w0)) as [w1 [ids|e]] eqn:Hids;
      [|discriminate].
    pose proof Hids as Hsame. apply list_patient_ids_sorted in Hsame as (-> & _).
    destruct (loop _ _ _ _ _ _ _ _ ids 0%nat _) as [w2 [count|e]] eqn:Hloop; [|discriminate].
    unfold print, to_excel. cbv beta delta [bind modify ret] iota. cbn [fs with_stdout].
    destruct (FS.lookup (fs w2) _) as [[?|?]|];
      try discriminate;
      (destruct (FS.put (fs w2) _ _); [|discriminate]);
      intros [= <- <-]; exists writer, w0, (with_df [] w0), w2, ids; eexists;
      cbn; rewrite <- app_assoc; by repeat split.
  - destruct (open_w _ w0) as [w1 [[]|e]] eqn:Hopen; [|discriminate].
    assert (calls w1 = calls w /\ skip_image_id w1 = default [] skip /\ f_log w1 = [])
      as (Hc1 & Hs1 & Hl1).
    { pose proof Hopen as Ho. unfold open_w in Ho.
      destruct (FS.lookup (fs w0) _) as [[?|?]|];
        try discriminate;
        destruct (FS.put (fs w0) _ _); try discriminate;
        injection Ho as <-; by cbn. }
    destruct (list_patient_ids data_path w1) as [w1' [ids|e]] eqn:Hids; [|discriminate].
    pose proof Hids as Hsame. apply list_patient_ids_sorted in Hsame as (-> & _).
    destruct (loop _ _ _ _ _ _ _ _ ids 0%nat w1) as [w2 [count|e]] eqn:Hloop; [|discriminate].
    unfold print, close. cbv beta delta [bind modify ret] iota.
    intros [= <- <-]. exists writer, w0, w1, w2, ids. eexists.
    unfold summary_length. rewrite Hl1. cbn. rewrite <- app_assoc. by repeat split.
Qed.

(** C9: in a run of [main] that does not raise, take the cases as [main]
    lists them (sorted, without repetition), in the world in which it has
    made the destination directory and opened the summary.  The loop goes
    through [visited debug skip patient_ids] of them: all cases, or in debug
    mode the cases up to the 11th that is not named in the skip-list.  The
    exporter is called on exactly the cases gone through that are not named
    in the skip-list, and their number is the counter, printed as "Exported
    N patients"; a case gone through that is named in the skip-list adds
    nothing to N and nothing toward the debug cap (in debug mode the
    exported cases are the first 11 that are not named, however many named
    ones lie between them), yet each such case has its entry in the summary
    at the end and took its name out of the skip-list. *)
Theorem counter_counts_exported_cases_only
    (load : node -> Path -> option Segmentation) (g : option string)
    (data_path export_path : Path) (selected_segment export_type : string)
    (skip : option (list string)) (use_pandas debug : bool) (w w' : World) (n : nat) :
  main load g data_path export_path selected_segment export_type skip use_pandas debug w
  = (w', Ret n) ->
  exists (w0 w1 : World) (patient_ids : list string) (out : list string) (saved : string),
    create_directory (save_path_of data_path export_path selected_segment export_type)
                     (with_skip_image_id (default [] skip) w) = (w0, Ret tt)
    /\ (if use_pandas then w1 = with_df [] w0
        else open_w (save_log_path_of data_path export_path selected_segment export_type)
                    w0 = (w1, Ret tt))
    /\ list_patient_ids data_path w1 = (w1, Ret patient_ids)
    /\ NoDup patient_ids /\ Sorted Str.le patient_ids
    /\ let seen := visited debug (default [] skip) patient_ids in
       let ran := filter (fun i => i ∉ default [] skip) seen in
       let skipped := filter (fun i => i ∈ default [] skip) seen in
       let todo := filter (fun i => i ∉ default [] skip) patient_ids in
       ran = (if debug then take 11 todo else todo)
       /\ exported_cases (calls w') = exported_cases (calls w) ++ ran
       /\ n = length ran
       /\ Forall (fun i => skipped_entry use_pandas i w') skipped
       /\ skip_image_id w' = consumed (default [] skip) seen
       /\ (length (skip_image_id w') + length skipped)%nat = length (default [] skip)
       /\ (n + length skipped <= summary_length use_pandas w')%nat
       /\ stdout w' = out ++ ["Exported " +:+ Str.of_Z (Z.of_nat n) +:+ " patients"; saved].
Proof.
  intros Hmain.
  apply main_run_listing in Hmain
      as (writer & w0 & w1 & w2 & ids & saved & Hcd & Hopen & Hids & Hc1 & Hs1 & Hl1
          & Hloop & Hc & Hs & Hdf & Hlog & Hout).
  exists w0, w1, ids, (stdout w2), saved.
  pose proof (list_patient_ids_sorted _ _ _ _ Hids) as (_ & Hnd & Hsorted & _).
  split; [exact Hcd|]. split; [exact Hopen|]. split; [exact Hids|].
  split; [exact Hnd|]. split; [exact Hsorted|]. cbn zeta.
  pose proof (loop_exported _ _ _ _ _ _ _ _ ids Hnd 0%nat w1 w2 n ltac:(lia) Hloop)
    as [He Hn].
  cbn zeta in He, Hn. cbn [Nat.sub] in He, Hn. rewrite Hs1 in He, Hn.
  pose proof (loop_visits _ _ _ _ _ _ _ _ ids Hnd 0%nat w1 w2 n ltac:(lia) Hloop)
    as [Hall Hskip].
  cbn [Nat.sub] in Hall, Hskip. rewrite Hs1 in Hall, Hskip.
  fold (visited debug (default [] skip) ids) in Hall, Hskip.
  assert (filter (fun i => i ∉ default [] skip) (visited debug (default [] skip) ids)
          = (if debug then take 11 (filter (fun i => i ∉ default [] skip) ids)
             else filter (fun i => i ∉ default [] skip) ids)) as Hran.
  { unfold visited. destruct debug; [apply filter_gone_through | reflexivity]. }
  assert (NoDup (visited debug (default [] skip) ids)) as Hseen.
  { unfold visited. destruct debug; [|exact Hnd].
    destruct (gone_through_prefix (default [] skip) ids 10) as [k Hk].
    rewrite Hk in Hnd. by apply NoDup_app in Hnd as (? & _). }
  pose proof (consumed_length _ Hseen (default [] skip)) as Hlen.
  apply loop_counter in Hloop as (ran & He' & Hn' & Hle & Hsum & _).
  rewrite He in He'. apply app_inv_head in He'. subst ran.
  rewrite Hs1 in Hle, Hsum. rewrite Hl1 in Hsum. rewrite Hskip in Hle, Hsum.
  assert (summary_length use_pandas w' = summary_length use_pandas w2) as Hsl
      by (unfold summary_length; by rewrite Hdf, Hlog).
  assert (forall i, skipped_entry use_pandas i w2 -> skipped_entry use_pandas i w') as Hent
      by (intros i; unfold skipped_entry; by rewrite Hdf, Hlog).
  rewrite Hran, Hc, Hs, Hskip, Hsl, <- Hc1.
  split; [reflexivity|]. split; [exact He|]. split; [exact Hn|].
  split; [eapply Forall_impl; [exact Hall | exact Hent]|].
  split; [reflexivity|]. split; [exact Hlen|]. split; [lia | exact Hout].
Qed.

(** ** Runs that do not raise *)

Section Returns.

Variable load : node -> Path -> option Segmentation.
Variable g : option string.
Hypothesis load_total : forall n p, is_Some (load n p).

(** With a host that loads whatever it is given and one of the three
    writers the dispatch knows, the exporter returns. *)
Lemma export_segmentation_returns (file_path save_path case_dir : Path) (writer : Writer)
      (w : World) :
  writer <> vtkGLTFExporter ->
  parents file_path 1 = Some case_dir ->
  exists w' _status, export_segmentation load g file_path save_path writer w = (w', Ret _status).
Proof.
  intros Hw Hp. unfold export_segmentation. rewrite Hp. run.
  destruct (load_total (fs w) file_path) as [seg ->]. run.
  destruct (closed_surface seg); cbn [negb]; run; [|by eexists _, _].
  destruct (Z.of_nat (length (segments seg)) =? 0); run; [by eexists _, _|].
  destruct (is_scene_exporter writer); run;
    match goal with |- context [export_segments _ _ _ _ _ ?w1] =>
      destruct (export_segments_written g save_path (name case_dir) writer
                  (segments seg) w1 Hw) as (w' & -> & _) end;
    by eexists _, _.
Qed.

(** So does the loop, on any list of cases. *)
Lemma loop_returns (data_path save_path : Path) (selected_segment : string)
      (writer : Writer) (use_pandas debug : bool) (patient_ids : list string)
      (count : nat) (w : World) :
  writer <> vtkGLTFExporter ->
  exists w' count',
    loop load g data_path save_path selected_segment writer use_pandas debug
         patient_ids count w = (w', Ret count').
Proof.
  intros Hw. revert count w. induction patient_ids as [|i ids IH]; intros count w.
  - by eexists _, _.
  - rewrite loop_cons. destruct (contains i (skip_image_id w)) eqn:Hc.
    + rewrite iteration_skip by done. cbn [fst snd]. apply IH.
    + rewrite iteration_export by done.
      destruct (export_segmentation_returns
                  (seg_path_of data_path i selected_segment) save_path
                  (data_path </> i) writer
                  (noted data_path selected_segment use_pandas i w) Hw
                  (parents_seg_path _ _ _)) as (w1 & st & ->).
      cbn [fst snd]. destruct (debug && _)%bool; [by eexists _, _ | apply IH].
Qed.

End Returns.

(** With the GLTF exporter, the first segment that has a closed surface
    takes the dispatch of lines 64-82 to its last branch, which raises:
    [NameError] when the module-level name [export_type] is unbound,
    [ValueError] with the value of that name when it is bound. *)
Lemma gltf_segments_raise (g : option string) (save_path : Path) (node_name : string)
      (segs : list (string * bool)) (w : World) :
  (exists i, (i, true) ∈ segs) ->
  (export_segments g save_path node_name vtkGLTFExporter segs w).2
  = Raise (match g with
           | Some t => ValueError ("Export type " +:+ t +:+ " is not supported")
           | None => NameError "export_type"
           end).
Proof.
  revert w. induction segs as [|[i has] segs IH]; intros w [j Hj].
  - by apply elem_of_nil in Hj.
  - cbn [export_segments]. run. destruct has; cbn [negb].
    + by destruct g.
    + apply IH. exists j. apply elem_of_cons in Hj as [[=]|Hj]. exact Hj.
Qed.

(** ** Entries of the summary *)


(** * The script on the small data set *)

(** C1: the data set of the end-to-end scenario ([s001] with two segments,
    [s002] without a segmentation file, [s003] named in the skip-list),
    tabular summary.  With a host that answers the missing path with a node
    without closed surface, [main] ends normally and the summary holds two
    rows for [s002], the note and the status of the exporter; the log form
    holds two lines for it.  With a host that raises on the missing path,
    [main] is left by the exception after the note: [s003] is never reached
    and no summary file is stored. *)
Theorem missing_case_is_recorded_twice :
  let tabular :=
    main (Demo.load_or_empty Demo.two_segments) None Demo.data_path Demo.export_path
         "liver" "stl" (Some ["s003"]) true false (Demo.world Demo.root) in
  let log :=
    main (Demo.load_or_empty Demo.two_segments) None Demo.data_path Demo.export_path
         "liver" "stl" (Some ["s003"]) false false (Demo.world Demo.root) in
  let raising :=
    main (Demo.load_or_raise Demo.two_segments) None Demo.data_path Demo.export_path
         "liver" "stl" (Some ["s003"]) true false (Demo.world Demo.root) in
  (tabular.2 = Ret 2%nat
   /\ df tabular.1 = [("s001", 2); ("s002", 0); ("s002", -1); ("s003", -2)])
  /\ (log.2 = Ret 2%nat
      /\ f_log log.1 = ["s001 exported 2 segments" +:+ nl;
                        "s002 doesn't have segmentation" +:+ nl;
                        "s002 exported -1 segments" +:+ nl;
                        "s003 is skipped" +:+ nl])
  /\ (raising.2 = Raise (RuntimeError "Failed to load node from file")
      /\ df raising.1 = [("s001", 2); ("s002", 0)]
      /\ FS.exists_ (fs raising.1) (Demo.export_path </> "Foo__liver__stl__log.xlsx") = false).
Proof. vm_compute. repeat split. Qed.

(** C10: the writer [main] constructs for "gltf" is the GLTF exporter, and
    with it the first segment that has a closed surface takes the dispatch
    to the unsupported-writer branch: the run ends in the exception of that
    branch.  The name [export_type] in it is looked up at module level:
    unbound, the exception is a [NameError]; bound, as it is when the file
    runs as a script, the message carries the module-level value, not the
    format [main] was called with. *)
Theorem gltf_reaches_unsupported_branch :
  pick_writer (Str.lower "gltf") = Some vtkGLTFExporter
  /\ (main (Demo.load_or_raise Demo.two_segments) None Demo.data_path Demo.export_path
           "liver" "gltf" None true false (Demo.world Demo.root)).2
     = Raise (NameError "export_type")
  /\ (main (Demo.load_or_raise Demo.two_segments) (Some "stl") Demo.data_path
           Demo.export_path "liver" "gltf" None true false (Demo.world Demo.root)).2
     = Raise (ValueError "Export type stl is not supported")
  /\ written (calls (main (Demo.load_or_raise Demo.two_segments) (Some "stl")
                          Demo.data_path Demo.export_path "liver" "gltf" None true false
                          (Demo.world Demo.root)).1) = [].
Proof. vm_compute. repeat split. Qed.

(** C3 does not hold as stated: [s001] is not skipped, its file is there and
    its first segment has a closed surface, but the second has none; the STL
    writer is asked for one file, one file is in the destination, and the
    exporter returns 2. *)
Lemma open_segment_is_counted_but_not_written :
  let run :=
    export_segmentation (Demo.load_or_raise Demo.one_open_segment) None
      (seg_path_of Demo.data_path "s001" "liver") Demo.export_path vtkSTLWriter
      (Demo.world Demo.root) in
  run.2 = Ret 2
  /\ written (calls run.1) = [[Demo.export_path </> "s001_Segment_1.stl"]]
  /\ FS.lookup (fs run.1) Demo.export_path
     = Some (Demo.dir [("s001_Segment_1.stl", File (Surface "s001" "Segment_1" false))])
  /\ Z.of_nat (length (written (calls run.1))) <> 2.
Proof. vm_compute. repeat split. discriminate. Qed.

(** C4 does not hold as stated: twelve cases, debug mode, two of the cases
    named in the skip-list.  The loop goes through all twelve cases, the
    exporter runs on ten of them, and the counter ends at 10. *)
Lemma debug_with_skipped_cases_exports_ten :
  let run :=
    main (Demo.load_or_raise Demo.two_segments) None Demo.data_path Demo.export_path
         "liver" "stl" (Some ["s002"; "s005"]) true true (Demo.world Demo.root12) in
  (12 <= length Demo.twelve)%nat
  /\ run.2 = Ret 10%nat
  /\ length (exported_cases (calls run.1)) = 10%nat
  /\ (df run.1).*1 = Demo.twelve
  /\ run.2 <> Ret 11%nat.
Proof. vm_compute. repeat split; [lia | discriminate]. Qed.

(** ** The theorems at work on the small data set *)

(** [s003] is named in the skip-list. *)
Lemma skipped_case_witness :
  exists w',
    iteration (Demo.load_or_raise Demo.two_segments) None Demo.data_path
      (Demo.export_path </> "Foo__liver__stl") "liver" vtkSTLWriter true false "s003" 2
      (with_skip_image_id ["s001x"; "s003"; "s003"] (Demo.world Demo.root))
    = (w', Ret (2%nat, false))
    /\ (df w' = [("s003", -2)] /\ f_log w' = [])
    /\ calls w' = [] /\ fs w' = Demo.root /\ stdout w' = []
    /\ exists l1 l2,
        ["s001x"; "s003"; "s003"] = l1 ++ "s003" :: l2 /\ ("s003" ∉ l1)
        /\ skip_image_id w' = l1 ++ l2.
Proof.
  apply (skipped_case_is_recorded_and_consumed
           (Demo.load_or_raise Demo.two_segments) None Demo.data_path
           (Demo.export_path </> "Foo__liver__stl") "liver" vtkSTLWriter true false
           "s003" 2
           (with_skip_image_id ["s001x"; "s003"; "s003"] (Demo.world Demo.root))).
  vm_compute. reflexivity.
Defined.

(** [s002] has no segmentation file and is not skipped. *)
Lemma missing_segmentation_witness :
  exists cs,
    calls (iteration (Demo.load_or_raise Demo.two_segments) None Demo.data_path
             (Demo.export_path </> "Foo__liver__stl") "liver" vtkSTLWriter true false
             "s002" 1 (Demo.world Demo.root)).1
    = calls (Demo.world Demo.root)
        ++ CallLoadSegmentation (seg_path_of Demo.data_path "s002" "liver") "s002" :: cs.
Proof.
  refine (proj1 (proj2 (missing_segmentation_is_noted_and_still_exported
           (Demo.load_or_raise Demo.two_segments) None Demo.data_path
           (Demo.export_path </> "Foo__liver__stl") "liver" vtkSTLWriter true false
           "s002" 1 (Demo.world Demo.root) _ _)));
    vm_compute; reflexivity.
Defined.

(** A host whose segmentation of [s001] has no closed surface. *)
Lemma closed_surface_failure_witness :
  exists w',
    export_segmentation (fun _ _ => Some (mkSegmentation false Demo.two_segments)) None
      (seg_path_of Demo.data_path "s001" "liver") (Demo.export_path </> "Foo__liver__stl")
      vtkOBJExporter (Demo.world Demo.root) = (w', Ret (-1))
    /\ calls w' = [CallLoadSegmentation (seg_path_of Demo.data_path "s001" "liver") "s001";
                   CallCreateClosedSurfaceRepresentation]
    /\ fs w' = Demo.root
    /\ (axis_labels_visible w', box_visible w') = (true, true).
Proof.
  apply (closed_surface_failure_returns_minus_one
           (fun _ _ => Some (mkSegmentation false Demo.two_segments)) None
           (seg_path_of Demo.data_path "s001" "liver")
           (Demo.export_path </> "Foo__liver__stl") (Demo.data_path </> "s001")
           vtkOBJExporter (mkSegmentation false Demo.two_segments)
           (Demo.world Demo.root));
    reflexivity.
Defined.


(** The two segments of [s001], written by the OBJ exporter into an empty
    destination directory. *)
Lemma files_written_witness :
  exists (w' : World) (bundles : list (list Path)),
    export_segmentation (Demo.load_or_raise Demo.two_segments) None
      (seg_path_of Demo.data_path "s001" "liver") Demo.export_path vtkOBJExporter
      (Demo.world Demo.root) = (w', Ret (Z.of_nat (length bundles)))
    /\ written (calls w') = written (calls (Demo.world Demo.root)) ++ bundles
    /\ bundles = List.map (files_of vtkOBJExporter Demo.export_path
                                    (name (Demo.data_path </> "s001")))
                          (Demo.two_segments).*1
    /\ Forall (fun b => length b = 2%nat) bundles
    /\ NoDup (concat bundles)
    /\ Forall (is_file (fs w')) (concat bundles).
Proof.
  apply (files_written_equal_status_when_all_closed
           (Demo.load_or_raise Demo.two_segments) None
           (seg_path_of Demo.data_path "s001" "liver") Demo.export_path
           (Demo.data_path </> "s001") vtkOBJExporter
           (mkSegmentation true Demo.two_segments) (Demo.world Demo.root) ∅).
  - reflexivity.
  - vm_compute. reflexivity.
  - reflexivity.
  - discriminate.
  - repeat constructor.
  - apply (bool_decide_unpack _). vm_compute. exact I.
  - discriminate.
  - vm_compute. reflexivity.
  - intros k m. rewrite lookup_empty. discriminate.
Defined.

(** Fourteen cases in debug mode; [s002] and [s014] are named in the
    skip-list.  The 11th case that is not named is [s012]: [s002] is
    skipped and recorded before it, [s013] and [s014] are not reached. *)
Lemma debug_stops_witness :
  exists (before : list string) (last_case : string) (rest : list string),
    Demo.fourteen = before ++ last_case :: rest
    /\ (last_case ∉ skip_image_id (with_skip_image_id Demo.skip14 (Demo.world Demo.root14)))
    /\ length (filter (fun i => i ∉ skip_image_id
                                      (with_skip_image_id Demo.skip14
                                         (Demo.world Demo.root14))) before) = 10%nat
    /\ 11%nat = 11%nat
    /\ exported_cases (calls Demo.debug_loop.1)
       = exported_cases (calls (with_skip_image_id Demo.skip14 (Demo.world Demo.root14)))
           ++ take 11 (filter (fun i => i ∉ skip_image_id
                                              (with_skip_image_id Demo.skip14
                                                 (Demo.world Demo.root14)))
                              Demo.fourteen)
    /\ take 11 (filter (fun i => i ∉ skip_image_id
                                       (with_skip_image_id Demo.skip14
                                          (Demo.world Demo.root14)))
                       Demo.fourteen)
       = filter (fun i => i ∉ skip_image_id
                                (with_skip_image_id Demo.skip14 (Demo.world Demo.root14)))
                before ++ [last_case]
    /\ loop (Demo.load_or_raise Demo.two_segments) None Demo.data_path
            (Demo.export_path </> "Foo__liver__stl") "liver" vtkSTLWriter true true
            Demo.fourteen 0 (with_skip_image_id Demo.skip14 (Demo.world Demo.root14))
       = loop (Demo.load_or_raise Demo.two_segments) None Demo.data_path
              (Demo.export_path </> "Foo__liver__stl") "liver" vtkSTLWriter true true
              (before ++ [last_case]) 0
              (with_skip_image_id Demo.skip14 (Demo.world Demo.root14))
    /\ Forall (fun i => skipped_entry true i Demo.debug_loop.1)
              (filter (fun i => i ∈ skip_image_id
                                      (with_skip_image_id Demo.skip14
                                         (Demo.world Demo.root14))) before)
    /\ skip_image_id Demo.debug_loop.1
       = consumed (skip_image_id (with_skip_image_id Demo.skip14 (Demo.world Demo.root14)))
                  before
    /\ Forall (fun j => j ∈ skip_image_id
                              (with_skip_image_id Demo.skip14 (Demo.world Demo.root14)) ->
                        j ∈ skip_image_id Demo.debug_loop.1) rest.
Proof.
  apply (debug_stops_after_eleven_exported_cases
           (Demo.load_or_raise Demo.two_segments) None Demo.data_path
           (Demo.export_path </> "Foo__liver__stl") "liver" vtkSTLWriter true
           Demo.fourteen (with_skip_image_id Demo.skip14 (Demo.world Demo.root14))
           Demo.debug_loop.1 11).
  - apply (bool_decide_unpack _). vm_compute. exact I.
  - vm_compute. lia.
  - vm_compute. reflexivity.
Defined.

(** The batch in debug mode on the fourteen cases, with the same
    skip-list: [s002] is gone through, recorded and not counted, eleven
    cases are exported. *)
Lemma counter_witness :
  exists (w0 w1 : World) (patient_ids : list string) (out : list string) (saved : string),
    create_directory (save_path_of Demo.data_path Demo.export_path "liver" "stl")
                     (with_skip_image_id (default [] (Some Demo.skip14))
                        (Demo.world Demo.root14)) = (w0, Ret tt)
    /\ w1 = with_df [] w0
    /\ list_patient_ids Demo.data_path w1 = (w1, Ret patient_ids)
    /\ NoDup patient_ids /\ Sorted Str.le patient_ids
    /\ let seen := visited true (default [] (Some Demo.skip14)) patient_ids in
       let ran := filter (fun i => i ∉ default [] (Some Demo.skip14)) seen in
       let skipped := filter (fun i => i ∈ default [] (Some Demo.skip14)) seen in
       let todo := filter (fun i => i ∉ default [] (Some Demo.skip14)) patient_ids in
       ran = take 11 todo
       /\ exported_cases (calls Demo.debug_batch.1)
          = exported_cases (calls (Demo.world Demo.root14)) ++ ran
       /\ 11%nat = length ran
       /\ Forall (fun i => skipped_entry true i Demo.debug_batch.1) skipped
       /\ skip_image_id Demo.debug_batch.1
          = consumed (default [] (Some Demo.skip14)) seen
       /\ (length (skip_image_id Demo.debug_batch.1) + length skipped)%nat
          = length (default [] (Some Demo.skip14))
       /\ (11 + length skipped <= summary_length true Demo.debug_batch.1)%nat
       /\ stdout Demo.debug_batch.1
          = out ++ ["Exported " +:+ Str.of_Z (Z.of_nat 11) +:+ " patients"; saved].
Proof.
  apply (counter_counts_exported_cases_only
           (Demo.load_or_raise Demo.two_segments) None Demo.data_path Demo.export_path
           "liver" "stl" (Some Demo.skip14) true true (Demo.world Demo.root14)
           Demo.debug_batch.1 11).
  vm_compute. reflexivity.
Defined.

(** * Further properties of the script *)

(** ** What the exporter changes *)

Lemma with_calls_fs_twice (w : World) (n1 n2 : node) (c1 c2 : list Call) :
  with_calls c2 (with_fs n2 (with_calls c1 (with_fs n1 w))) = with_calls c2 (with_fs n2 w).
Proof. by destruct w. Qed.

(** The loop over the segments changes the file system and the list of
    calls, and nothing else. *)
Lemma export_segments_changes (g : option string) (save_path : Path) (node_name : string)
      (writer : Writer) (segs : list (string * bool)) (w w' : World) (r : res unit) :
  export_segments g save_path node_name writer segs w = (w', r) ->
  w' = with_calls (calls w') (with_fs (fs w') w).
Proof.
  revert w. induction segs as [|[segmentID has] segs IH]; intros w; cbn [export_segments].
  - run. intros [= <- <-]. by destruct w.
  - run. destruct has; cbn [negb].
    + destruct writer; run;
        try (intros H; apply IH in H; rewrite H; cbn;
             by rewrite ?with_calls_fs_twice; destruct w).
      destruct g; run; intros [= <- <-]; by destruct w.
    + intros H; apply IH in H; rewrite H; cbn. by destruct w.
Qed.

(** With the GLTF exporter the loop over the segments writes nothing. *)
Lemma gltf_segments_write_nothing (g : option string) (save_path : Path) (node_name : string)
      (segs : list (string * bool)) (w : World) :
  fs (export_segments g save_path node_name vtkGLTFExporter segs w).1 = fs w
  /\ written (calls (export_segments g save_path node_name vtkGLTFExporter segs w).1)
     = written (calls w).
Proof.
  revert w. induction segs as [|[segmentID has] segs IH]; intros w; cbn [export_segments].
  - by run.
  - run. destruct has; cbn [negb].
    + destruct g; run; cbn; unfold written; rewrite omap_app; cbn;
        by rewrite app_nil_r.
    + destruct (IH (with_calls (calls w ++ [CallGetClosedSurfaceRepresentation segmentID]) w))
        as [-> ->].
      cbn. unfold written. rewrite omap_app. cbn. by rewrite app_nil_r.
Qed.

(** The status the exporter returns: -1 when the segmentation has no closed
    surface, the number of its segments otherwise (0 for none).  It is never
    -2, the status [main] keeps for skipped cases. *)
Theorem status_is_segment_count_or_minus_one
    (load : node -> Path -> option Segmentation) (g : option string)
    (file_path save_path : Path) (writer : Writer) (w w' : World) (_status : Z) :
  export_segmentation load g file_path save_path writer w = (w', Ret _status) ->
  exists seg,
    load (fs w) file_path = Some seg
    /\ _status = (if closed_surface seg then Z.of_nat (length (segments seg)) else -1)
    /\ _status <> -2.
Proof.
  unfold export_segmentation. destruct (parents file_path 1) as [d|]; [|discriminate].
  run. destruct (load (fs w) file_path) as [seg|]; run; [|discriminate].
  intros H. exists seg. split; [reflexivity|].
  assert (_status = if closed_surface seg then Z.of_nat (length (segments seg)) else -1)
    as ->; [|split; [reflexivity | destruct (closed_surface seg); lia]].
  revert H. destruct (closed_surface seg); cbn [negb]; run; [|by intros [= _ <-]].
  destruct (Z.eqb_spec (Z.of_nat (length (segments seg))) 0) as [H0|_].
  { run. intros [= _ <-]. lia. }
  destruct (is_scene_exporter writer); run;
    match goal with |- context [export_segments ?a ?b ?c ?d ?e ?w1] =>
      destruct (export_segments a b c d e w1) as [w2 [[]|e']] end;
    by intros [= _ <-].
Qed.

(** A segmentation that loads and has a closed surface but no segment: the
    exporter returns 0 after the load, the generation request and the count;
    no segment is looked at, nothing is written, and the view is left alone
    whatever the writer. *)
Theorem no_segment_returns_zero
    (load : node -> Path -> option Segmentation) (g : option string)
    (file_path save_path case_dir : Path) (writer : Writer)
    (seg : Segmentation) (w : World) :
  parents file_path 1 = Some case_dir ->
  load (fs w) file_path = Some seg ->
  closed_surface seg = true ->
  segments seg = [] ->
  exists w',
    export_segmentation load g file_path save_path writer w = (w', Ret 0)
    /\ calls w' = calls w ++ [CallLoadSegmentation file_path (name case_dir);
                              CallCreateClosedSurfaceRepresentation;
                              CallGetNumberOfSegments]
    /\ fs w' = fs w
    /\ (axis_labels_visible w', box_visible w') = (axis_labels_visible w, box_visible w).
Proof.
  intros Hp Hl Hc Hs. unfold export_segmentation. rewrite Hp. run.
  rewrite Hl. run. rewrite Hc, Hs. cbn [negb length Z.of_nat Z.eqb]. run.
  eexists; split; [reflexivity|]. cbn. by rewrite <- !app_assoc.
Qed.

(** The view: with a segmentation that has a closed surface and at least
    one segment, the OBJ and GLTF exporters leave the axis labels and the
    box of the 3D view switched off, however the call ends (they are not
    switched on again); the STL and PLY writers leave the view as it was. *)
Theorem scene_exporters_switch_view_decorations_off
    (load : node -> Path -> option Segmentation) (g : option string)
    (file_path save_path case_dir : Path) (writer : Writer)
    (seg : Segmentation) (w : World) :
  parents file_path 1 = Some case_dir ->
  load (fs w) file_path = Some seg ->
  closed_surface seg = true ->
  segments seg <> [] ->
  let w' := (export_segmentation load g file_path save_path writer w).1 in
  (axis_labels_visible w', box_visible w')
  = match writer with
    | vtkOBJExporter | vtkGLTFExporter => (false, false)
    | vtkSTLWriter | vtkPLYWriter => (axis_labels_visible w, box_visible w)
    end.
Proof.
  intros Hp Hl Hc Hs. unfold export_segmentation. rewrite Hp. run.
  rewrite Hl. run. rewrite Hc. cbn [negb]. run.
  destruct (Z.eqb_spec (Z.of_nat (length (segments seg))) 0) as [H0|_].
  { destruct (segments seg); [done | cbn in H0; lia]. }
  destruct writer; cbn [is_scene_exporter]; run;
    match goal with |- context [export_segments ?a ?b ?c ?d ?e ?w1] =>
      destruct (export_segments a b c d e w1) as [w2 [[]|e']] eqn:E end;
    apply export_segments_changes in E; rewrite E; reflexivity.
Qed.

(** With the GLTF exporter a call of the exporter never writes a file,
    however it ends. *)
Theorem gltf_exporter_writes_nothing
    (load : node -> Path -> option Segmentation) (g : option string)
    (file_path save_path : Path) (w : World) :
  let w' := (export_segmentation load g file_path save_path vtkGLTFExporter w).1 in
  fs w' = fs w /\ written (calls w') = written (calls w).
Proof.
  unfold export_segmentation. destruct (parents file_path 1) as [d|]; [|by run].
  run. destruct (load (fs w) file_path) as [seg|]; run.
  2:{ cbn. unfold written. rewrite omap_app. cbn. by rewrite app_nil_r. }
  assert (forall cs : list Call,
             Forall (fun c => match c with CallWrite _ _ => False | _ => True end) cs ->
             written (calls w ++ cs) = written (calls w)) as Hw.
  { intros cs Hcs. unfold written. rewrite omap_app.
    replace (omap _ cs) with (@nil (list Path)); [by rewrite app_nil_r|].
    induction Hcs as [|c cs Hc _ IH]; [reflexivity|].
    destruct c; cbn; try exact IH; by destruct Hc. }
  destruct (closed_surface seg); cbn [negb]; run.
  2:{ cbn. split; [reflexivity|]. rewrite <- app_assoc. apply Hw.
      by repeat constructor. }
  destruct (Z.of_nat (length (segments seg)) =? 0); run.
  { cbn. split; [reflexivity|]. rewrite <- !app_assoc. apply Hw.
    by repeat constructor. }
  cbn [is_scene_exporter]. run.
  match goal with |- context [export_segments ?a ?b ?c ?d ?e ?w1] =>
    pose proof (gltf_segments_write_nothing a b c (segments seg) w1) as [Hfs Hwr];
    destruct (export_segments a b c d e w1) as [w2 [[]|e']] end;
    cbn in Hfs, Hwr |- *; rewrite Hfs, Hwr, <- !app_assoc;
    (split; [reflexivity|]); apply Hw; by repeat constructor.
Qed.

(** ** The cases of a batch *)

(** The cases [main] goes through are the immediate sub-directories of the
    data set, each once, in the order of [sorted]; plain files beside them
    are left out.  A data set path that is not there, or that is a file,
    raises. *)
Theorem cases_are_the_sorted_subdirectories (data_path : Path) (w : World) :
  match FS.lookup (fs w) data_path with
  | Some (Dir es) =>
      exists ids,
        list_patient_ids data_path w = (w, Ret ids)
        /\ Sorted Str.le ids /\ NoDup ids
        /\ forall i, i ∈ ids <-> exists es', es !! i = Some (Dir es')
  | Some (File _) => list_patient_ids data_path w = (w, Raise (NotADirectoryError data_path))
  | None => list_patient_ids data_path w = (w, Raise (FileNotFoundError data_path))
  end.
Proof.
  destruct (FS.lookup (fs w) data_path) as [[c|es]|] eqn:Hl;
    try (unfold list_patient_ids; run; by rewrite Hl).
  destruct (list_patient_ids data_path w) as [w1 [ids|e]] eqn:E.
  - pose proof E as E'.
    apply list_patient_ids_sorted in E' as (-> & Hnd & Hs & es' & Hl' & Hin).
    rewrite Hl in Hl'. injection Hl' as <-. by exists ids.
  - unfold list_patient_ids in E. revert E. run. by rewrite Hl.
Qed.

(** What a call of the exporter asks the writers for, with one of the three
    writers the dispatch knows and a segmentation that loads and has a
    closed surface: one bundle of files for each segment that yields
    closed-surface geometry, in the order of the segments, named after the
    directory two levels above the file. *)
Lemma export_segmentation_bundles
    (load : node -> Path -> option Segmentation) (g : option string)
    (file_path save_path case_dir : Path) (writer : Writer)
    (seg : Segmentation) (w : World) :
  parents file_path 1 = Some case_dir ->
  load (fs w) file_path = Some seg ->
  closed_surface seg = true ->
  writer <> vtkGLTFExporter ->
  exists w',
    export_segmentation load g file_path save_path writer w
    = (w', Ret (Z.of_nat (length (segments seg))))
    /\ written (calls w')
       = written (calls w)
           ++ List.map (files_of writer save_path (name case_dir))
                       (closed_segments (segments seg)).
Proof.
  intros Hp Hload Hclosed Hw.
  unfold export_segmentation. rewrite Hp. run. rewrite Hload. run.
  rewrite Hclosed. cbn [negb]. run.
  destruct (Z.eqb_spec (Z.of_nat (length (segments seg))) 0) as [H0|_].
  { run. destruct (segments seg); [|cbn in H0; lia].
    eexists; split; [reflexivity|]. cbn. unfold written. rewrite !omap_app. cbn.
    by rewrite !app_nil_r. }
  destruct (is_scene_exporter writer); run;
    match goal with |- context [export_segments _ _ _ _ _ ?w1] =>
      destruct (export_segments_written g save_path (name case_dir) writer
                  (segments seg) w1 Hw) as (w' & -> & Hwr) end;
    (eexists; split; [reflexivity|]); rewrite Hwr; cbn;
    unfold written; rewrite !omap_app; cbn; by rewrite !app_nil_r.
Qed.

(** The files of a case carry its name: in a turn on a case that is not
    skipped, whose segmentation loads and has a closed surface, the writer
    is asked for the files [<case>_<segment>.<ext>] in the destination
    directory, one bundle for each segment with closed-surface geometry, and
    the case is recorded with the number of all its segments. *)
Theorem files_are_named_after_the_case
    (load : node -> Path -> option Segmentation) (g : option string)
    (data_path save_path : Path) (selected_segment : string) (writer : Writer)
    (use_pandas debug : bool) (patient_id : string) (count : nat) (seg : Segmentation)
    (w : World) :
  contains patient_id (skip_image_id w) = false ->
  FS.exists_ (fs w) (seg_path_of data_path patient_id selected_segment) = true ->
  load (fs w) (seg_path_of data_path patient_id selected_segment) = Some seg ->
  closed_surface seg = true ->
  writer <> vtkGLTFExporter ->
  exists w',
    iteration load g data_path save_path selected_segment writer use_pandas debug
              patient_id count w
    = (w', Ret (S count, debug && (10 <? S count)%nat))
    /\ written (calls w')
       = written (calls w)
           ++ List.map (files_of writer save_path patient_id)
                       (closed_segments (segments seg))
    /\ (if use_pandas
        then df w' = df w ++ [(patient_id, Z.of_nat (length (segments seg)))]
        else f_log w'
             = f_log w ++ [patient_id +:+ " exported "
                             +:+ Str.of_Z (Z.of_nat (length (segments seg)))
                             +:+ " segments" +:+ nl])
    /\ scene w' = [].
Proof.
  intros Hskip Hex Hload Hclosed Hw.
  rewrite iteration_export by done. unfold noted. rewrite Hex.
  destruct (export_segmentation_bundles load g
              (seg_path_of data_path patient_id selected_segment) save_path
              (data_path </> patient_id) writer seg w
              (parents_seg_path _ _ _) Hload Hclosed Hw) as (w1 & E & Hwr).
  pose proof E as E'.
  apply (export_segmentation_calls _ _ _ _ _ _ _ _ _ (parents_seg_path _ _ _)) in E'.
  destruct E' as [(_ & Hdf & Hlog & _) _].
  rewrite E. eexists; split; [reflexivity|].
  rewrite name_join in Hwr. unfold finished, recorded.
  destruct use_pandas; cbn; rewrite ?Hdf, ?Hlog; repeat split;
    unfold written in *; rewrite omap_app, Hwr; cbn; by rewrite app_nil_r.
Qed.

(** ** The skip-list after the batch *)

Lemma remove_first_NoDup (x : string) (xs : list string) :
  NoDup xs -> NoDup (remove_first x xs) /\ forall y, y ∈ remove_first x xs <-> y ∈ xs /\ y <> x.
Proof.
  induction 1 as [|z zs Hz Hnd [IH1 IH2]]; cbn [remove_first].
  - split; [constructor|]. intros y. rewrite elem_of_nil. tauto.
  - destruct (decide (x = z)) as [->|Hne].
    + split; [exact Hnd|]. intros y. rewrite elem_of_cons. split.
      * intros Hy. split; [by right|]. by intros ->.
      * by intros [[?|?] ?].
    + split.
      * apply NoDup_cons. split; [|exact IH1]. rewrite IH2. tauto.
      * intros y. rewrite !elem_of_cons, IH2. split.
        -- intros [->|[? ?]]; split; auto.
        -- intros [[->|?] ?]; auto.
Qed.

(** The list the caller passes as [skip_image_id] is changed in place: when
    its entries are distinct and the loop runs to its end without the debug
    cap, what is left in it afterwards are exactly the entries that name
    none of the cases. *)
Theorem skip_list_keeps_the_names_of_no_case
    (load : node -> Path -> option Segmentation) (g : option string)
    (data_path save_path : Path) (selected_segment : string) (writer : Writer)
    (use_pandas : bool) (patient_ids : list string) (count count' : nat) (w w' : World) :
  NoDup (skip_image_id w) ->
  loop load g data_path save_path selected_segment writer use_pandas false
       patient_ids count w = (w', Ret count') ->
  NoDup (skip_image_id w')
  /\ forall x, x ∈ skip_image_id w' <-> x ∈ skip_image_id w /\ x ∉ patient_ids.
Proof.
  revert count w. induction patient_ids as [|i ids IH]; intros count w Hnd.
  - cbn. unfold ret. intros [= <- <-]. split; [exact Hnd|].
    intros x. rewrite elem_of_nil. tauto.
  - rewrite loop_cons.
    destruct (iteration _ _ _ _ _ _ _ _ i count w) as [w1 [out|e]] eqn:E; [|discriminate].
    apply iteration_cases in E
        as [(Hc & -> & Hs & _)|(Hc & -> & Hs & _)]; cbn [fst snd andb].
    + destruct (remove_first_NoDup i _ Hnd) as [Hnd1 Hin1]. rewrite <- Hs in Hnd1, Hin1.
      intros Hl. apply IH in Hl as [Hnd' Hin']; [|exact Hnd1]. split; [exact Hnd'|].
      intros x. rewrite Hin', Hin1, elem_of_cons. tauto.
    + apply contains_false in Hc. rewrite <- Hs in Hnd, Hc.
      intros Hl. apply IH in Hl as [Hnd' Hin']; [|exact Hnd]. split; [exact Hnd'|].
      intros x. rewrite Hin', Hs, elem_of_cons. rewrite Hs in Hc. split.
      * intros [Hx Hxi]. split; [exact Hx|]. intros [->|?]; tauto.
      * tauto.
Qed.

(** A case does not stop the batch: with a host that loads whatever it is
    given, one of the three writers the dispatch knows, and no debug cap,
    the loop runs to its end on every list of distinct cases, whether
    their files are there, their segmentations have a closed surface or
    any segment; the exporter is called on every case that is not named in
    the skip-list, in order, and the counter counts these calls. *)
Theorem no_case_stops_the_batch
    (load : node -> Path -> option Segmentation) (g : option string)
    (data_path save_path : Path) (selected_segment : string) (writer : Writer)
    (use_pandas : bool) (patient_ids : list string) (w : World) :
  (forall n p, is_Some (load n p)) ->
  writer <> vtkGLTFExporter ->
  NoDup patient_ids ->
  exists w',
    loop load g data_path save_path selected_segment writer use_pandas false
         patient_ids 0 w
    = (w', Ret (length (filter (fun i => i ∉ skip_image_id w) patient_ids)))
    /\ exported_cases (calls w')
       = exported_cases (calls w) ++ filter (fun i => i ∉ skip_image_id w) patient_ids.
Proof.
  intros Hload Hw Hnd.
  destruct (loop_returns load g Hload data_path save_path selected_segment writer
              use_pandas false patient_ids 0 w Hw) as (w' & count' & E).
  pose proof (loop_exported load g data_path save_path selected_segment writer
                use_pandas false patient_ids Hnd 0%nat w w' count'
                ltac:(discriminate) E) as [He Hc].
  cbn zeta in He, Hc. cbn [Nat.add] in Hc. subst count'. by exists w'.
Qed.

(** ** More on [create_directory] *)

Lemma with_fs_same (w : World) : with_fs (fs w) w = w.
Proof. by destruct w. Qed.

Lemma mkdir_after_remove_empty (at_ : Path) (n : node) (p : Path) :
  p <> [] -> FS.lookup n p = Some (Dir ∅) -> FS.mkdir at_ (FS.remove n p) p = Ret n.
Proof.
  revert at_ n. induction p as [|c p IH]; intros at_ n Hp Hl; [congruence|].
  destruct n as [f|es]; [discriminate|].
  rewrite FSFacts.lookup_cons in Hl. destruct (es !! c) as [ch|] eqn:E; [|discriminate].
  destruct p as [|c' p].
  - injection Hl as ->. cbn [FS.remove]. rewrite FSFacts.mkdir_cons, lookup_delete_eq.
    cbn. by rewrite insert_delete_eq, insert_id.
  - rewrite FSFacts.remove_cons, E, FSFacts.mkdir_cons, lookup_insert_eq.
    cbn [default from_option id]. rewrite (IH _ _ ltac:(congruence) Hl).
    by rewrite insert_insert_eq, insert_id.
Qed.

(** [create_directory] twice is [create_directory] once: a second call on
    the same path returns as well and leaves the world as the first call
    left it. *)
Theorem create_directory_twice (path : Path) (w w1 : World) :
  path <> [] ->
  create_directory path w = (w1, Ret tt) ->
  create_directory path w1 = (w1, Ret tt).
Proof.
  intros Hp H1. pose proof (create_directory_empty path w w1 Hp H1) as Hl.
  unfold create_directory, FS.exists_, FS.rmtree. rewrite Hl.
  destruct path as [|c p]; [congruence|].
  rewrite (mkdir_after_remove_empty [] (fs w1) (c :: p) Hp Hl).
  by rewrite with_fs_same.
Qed.

Lemma mkdir_through_file (at_ : Path) (n : node) (q r : Path) (f : content) :
  FS.lookup n q = Some (File f) -> exists e, FS.mkdir at_ n (q ++ r) = Raise e.
Proof.
  revert at_ n. induction q as [|c q IH]; intros at_ n Hl.
  - injection Hl as ->. destruct r; by eexists.
  - destruct n as [?|es]; [discriminate|].
    rewrite FSFacts.lookup_cons in Hl. destruct (es !! c) as [ch|] eqn:E; [|discriminate].
    cbn [app]. rewrite FSFacts.mkdir_cons, E. cbn [default from_option id].
    destruct (IH (at_ </> c) ch Hl) as [e ->]. by eexists.
Qed.

(** A regular file at the path, or at a path above it, makes
    [create_directory] raise, and the file system stays as it was: the file
    is not replaced by a directory. *)
Theorem create_directory_blocked_by_a_file (path q r : Path) (f : content) (w : World) :
  path = q ++ r ->
  FS.lookup (fs w) q = Some (File f) ->
  exists e, create_directory path w = (w, Raise e).
Proof.
  intros -> Hl. unfold create_directory, FS.exists_, FS.rmtree.
  rewrite FSFacts.lookup_app, Hl. destruct r as [|c r].
  - cbn. rewrite with_fs_same. by eexists.
  - cbn [FS.lookup]. destruct (mkdir_through_file [] (fs w) q (c :: r) f Hl) as [e ->].
    rewrite with_fs_same. by eexists.
Qed.

(** ** What storing a file changes *)

Lemma store_nil (c : content) (n : node) :
  store [] c n = match n with Dir _ => n | File _ => File c end.
Proof. by destruct n. Qed.

Lemma store_in_file (p : Path) (c c0 : content) :
  p <> [] -> store p c (File c0) = File c0.
Proof. by destruct p. Qed.

Lemma put_cons (a b : string) (p : Path) (x : node) (es : gmap string node) :
  FS.put (Dir es) (a :: b :: p) x
  = match es !! a with
    | Some ch => match FS.put ch (b :: p) x with
                 | Some ch' => Some (Dir (<[a := ch']> es))
                 | None => None
                 end
    | None => None
    end.
Proof. reflexivity. Qed.

Lemma store_cons (a : string) (p : Path) (c : content) (es : gmap string node) :
  store (a :: p) c (Dir es)
  = match p with
    | [] => match es !! a with
            | Some (Dir _) => Dir es
            | _ => Dir (<[a := File c]> es)
            end
    | _ => match es !! a with
           | Some ch => Dir (<[a := store p c ch]> es)
           | None => Dir es
           end
    end.
Proof.
  unfold store. rewrite FSFacts.lookup_cons. destruct p as [|b p].
  - cbn. by destruct (es !! a) as [[?|?]|].
  - rewrite put_cons. destruct (es !! a) as [ch|] eqn:E; [|reflexivity].
    destruct (FS.lookup ch (b :: p)) as [[?|?]|];
      destruct (FS.put ch (b :: p) (File c));
      cbn [default from_option id]; by rewrite ?(insert_id es a ch E).
Qed.

Lemma diverges_nil (q : Path) : ~ FS.diverges [] q.
Proof. intros (r & a & b & p' & q' & _ & H & _). by destruct r. Qed.

Lemma diverges_cons (a : string) (p q : Path) :
  FS.diverges (a :: p) q ->
  exists b q', q = b :: q' /\ (a <> b \/ (a = b /\ FS.diverges p q')).
Proof.
  intros (r & x & y & p' & q' & Hxy & Hp & ->). destruct r as [|z r]; cbn in *.
  - injection Hp as -> ->. exists y, q'. auto.
  - injection Hp as -> ->. exists z, (r ++ y :: q'). split; [reflexivity|].
    right. split; [reflexivity|]. by exists r, x, y, p', q'.
Qed.

Lemma diverges_app (p q r : Path) : FS.diverges p q -> FS.diverges (p ++ r) q.
Proof.
  intros (r0 & a & b & p' & q' & Hab & -> & ->).
  exists r0, a, b, (p' ++ r), q'. by rewrite <- app_assoc.
Qed.

(** Storing a file changes nothing beside its path. *)
Lemma lookup_store_diverges (p q : Path) (c : content) (n : node) :
  FS.diverges p q -> FS.lookup (store p c n) q = FS.lookup n q.
Proof.
  revert n q. induction p as [|a p IH]; intros n q Hd; [by apply diverges_nil in Hd|].
  apply diverges_cons in Hd as (b & q' & -> & Hd).
  destruct n as [c0|es]; [by rewrite store_in_file|]. rewrite store_cons.
  destruct p as [|a' p].
  - destruct Hd as [Hab|[_ Hd]]; [|by apply diverges_nil in Hd].
    destruct (es !! a) as [[?|?]|]; rewrite ?FSFacts.lookup_cons, ?lookup_insert_ne; done.
  - destruct (es !! a) as [ch|] eqn:E; [|reflexivity].
    rewrite !FSFacts.lookup_cons. destruct Hd as [Hab|[<- Hd]].
    + by rewrite lookup_insert_ne.
    + by rewrite lookup_insert_eq, E, IH.
Qed.


(** Nor a directory. *)
Lemma store_keeps_dirs (p q : Path) (c : content) (n : node) (es0 : gmap string node) :
  FS.lookup n q = Some (Dir es0) -> exists es', FS.lookup (store p c n) q = Some (Dir es').
Proof.
  revert n q es0. induction p as [|a p IH]; intros n q es0 Hl.
  - rewrite store_nil. destruct n as [c1|es]; [|by eexists].
    destruct q; discriminate.
  - destruct n as [c1|es]; [rewrite store_in_file by done; by eexists|].
    destruct q as [|b q].
    { rewrite store_cons. destruct p; destruct (es !! a) as [[?|?]|]; by eexists. }
    rewrite FSFacts.lookup_cons in Hl. rewrite store_cons. destruct p as [|a' p].
    + destruct (es !! a) as [[c1|es1]|] eqn:E;
        rewrite FSFacts.lookup_cons; try (rewrite Hl; by eexists);
        rewrite lookup_insert; case_decide as Hab;
        try (rewrite Hl; by eexists); subst b; rewrite E in Hl.
      * destruct q; discriminate.
      * discriminate.
    + destruct (es !! a) as [ch|] eqn:E; [|rewrite FSFacts.lookup_cons, Hl; by eexists].
      rewrite FSFacts.lookup_cons, lookup_insert. case_decide as Hab.
      * subst b. rewrite E in Hl. by eapply IH.
      * rewrite Hl. by eexists.
Qed.


(** A file that [put] stored is there. *)
Lemma lookup_put_self (p : Path) (x : node) (n n' : node) :
  FS.put n p x = Some n' -> FS.lookup n' p = Some x.
Proof.
  revert n n'. induction p as [|a p IH]; intros n n'; [by intros [= <-]|].
  destruct n as [c1|es]; [discriminate|]. destruct p as [|a' p].
  - intros [= <-]. by rewrite FSFacts.lookup_cons, lookup_insert_eq.
  - rewrite put_cons. destruct (es !! a) as [ch|]; [|discriminate].
    destruct (FS.put ch (a' :: p) x) as [ch'|] eqn:E; [|discriminate].
    intros [= <-]. rewrite FSFacts.lookup_cons, lookup_insert_eq. by eapply IH.
Qed.

Lemma put_is_store (p : Path) (c : content) (n n' : node) :
  FS.put n p (File c) = Some n' ->
  match FS.lookup n p with Some (Dir _) => False | _ => True end ->
  n' = store p c n.
Proof.
  intros Hput Hnd. unfold store.
  destruct (FS.lookup n p) as [[?|?]|]; try done; by rewrite Hput.
Qed.

(** ** The file system along a batch *)

(** A relation between file systems that is kept by storing a file in the
    destination directory is kept by the exporter and by the loop, however
    they end: these store files there and do nothing else to the file
    system. *)
Section FileSystemSteps.

Variable load : node -> Path -> option Segmentation.
Variable g : option string.
Variable save_path : Path.
Variable R : node -> node -> Prop.
Hypothesis R_refl : forall n, R n n.
Hypothesis R_trans : forall n1 n2 n3, R n1 n2 -> R n2 n3 -> R n1 n3.
Hypothesis R_store : forall n f c, R n (store (save_path </> f) c n).

Lemma export_segments_fs (node_name : string) (writer : Writer)
      (segs : list (string * bool)) (w w' : World) (r : res unit) :
  export_segments g save_path node_name writer segs w = (w', r) -> R (fs w) (fs w').
Proof.
  revert w. induction segs as [|[segmentID has] segs IH]; intros w; cbn [export_segments].
  - run. by intros [= <- <-].
  - run. destruct has; cbn [negb].
    + destruct writer; run; cbn [foldl fst snd];
        try (intros H; apply IH in H; cbn in H;
             eapply R_trans; [|exact H]; unfold target;
             first [ apply R_store | eapply R_trans; apply R_store ]).
      destruct g; run; intros [= <- <-]; apply R_refl.
    + intros H. by apply IH in H.
Qed.

Lemma export_segmentation_fs (file_path : Path) (writer : Writer)
      (w w' : World) (r : res Z) :
  export_segmentation load g file_path save_path writer w = (w', r) -> R (fs w) (fs w').
Proof.
  unfold export_segmentation. destruct (parents file_path 1) as [d|]; run;
    [|intros [= <- <-]; apply R_refl].
  destruct (load (fs w) file_path) as [seg|]; run; [|intros [= <- <-]; apply R_refl].
  destruct (closed_surface seg); cbn [negb]; run; [|intros [= <- <-]; apply R_refl].
  destruct (Z.of_nat (length (segments seg)) =? 0); run; [intros [= <- <-]; apply R_refl|].
  destruct (is_scene_exporter writer); run;
    match goal with |- context [export_segments ?a ?b ?c ?d ?e ?w1] =>
      destruct (export_segments a b c d e w1) as [w2 [[]|e']] eqn:E end;
    apply export_segments_fs in E; by intros [= <- <-].
Qed.

Lemma iteration_fs (data_path : Path) (selected_segment : string) (writer : Writer)
      (use_pandas debug : bool) (patient_id : string) (count : nat)
      (w w' : World) (r : res (nat * bool)) :
  iteration load g data_path save_path selected_segment writer use_pandas debug
            patient_id count w = (w', r) ->
  R (fs w) (fs w').
Proof.
  destruct (contains patient_id (skip_image_id w)) eqn:Hc.
  - rewrite iteration_skip by done. intros [= <- <-].
    destruct (recorded_fields use_pandas (patient_id, -2)
                (patient_id +:+ " is skipped" +:+ nl)
                (with_skip_image_id (remove_first patient_id (skip_image_id w)) w))
      as (-> & _). apply R_refl.
  - rewrite iteration_export by done.
    destruct (export_segmentation _ _ _ _ _ _) as [w1 r1] eqn:E.
    apply export_segmentation_fs in E.
    destruct (noted_fields use_pandas data_path selected_segment patient_id w)
      as (Hn & _). rewrite Hn in E.
    destruct r1 as [st|e]; intros [= <- <-]; [|exact E].
    by destruct (finished_fields use_pandas patient_id st w1) as (-> & _).
Qed.

Lemma loop_fs (data_path : Path) (selected_segment : string) (writer : Writer)
      (use_pandas debug : bool) (patient_ids : list string) (count : nat)
      (w w' : World) (r : res nat) :
  loop load g data_path save_path selected_segment writer use_pandas debug
       patient_ids count w = (w', r) ->
  R (fs w) (fs w').
Proof.
  revert count w. induction patient_ids as [|i ids IH]; intros count w.
  - cbn. unfold ret. intros [= <- <-]. apply R_refl.
  - rewrite loop_cons.
    destruct (iteration _ _ _ _ _ _ _ _ i count w) as [w1 [out|e]] eqn:E;
      apply iteration_fs in E.
    + destruct out.2.
      * by intros [= <- <-].
      * intros H. apply IH in H. by eapply R_trans.
    + by intros [= <- <-].
Qed.

End FileSystemSteps.

Section MainFileSystem.

Variable load : node -> Path -> option Segmentation.
Variable g : option string.
Variables (data_path export_path : Path) (selected_segment export_type : string)
          (skip : option (list string)) (use_pandas debug : bool).

Local Abbreviation save_path :=
  (save_path_of data_path export_path selected_segment export_type).
Local Abbreviation save_log_path :=
  (save_log_path_of data_path export_path selected_segment export_type).
Local Abbreviation save_excel_path :=
  (save_excel_path_of data_path export_path selected_segment export_type).

Variable R : node -> node -> Prop.
Hypothesis R_refl : forall n, R n n.
Hypothesis R_trans : forall n1 n2 n3, R n1 n2 -> R n2 n3 -> R n1 n3.
Hypothesis R_create :
  forall w w' r, create_directory save_path w = (w', r) -> R (fs w) (fs w').
Hypothesis R_mesh : forall n f c, R n (store (save_path </> f) c n).
Hypothesis R_log : use_pandas = false -> forall n c, R n (store save_log_path c n).

(** The file system along [main], however it ends: the destination
    directory is made, the log file is opened, the loop runs, the log file
    is closed; in the tabular form the spreadsheet is stored last, and only
    when nothing raised before. *)
Lemma main_fs (w w' : World) (r : res nat) :
  main load g data_path export_path selected_segment export_type skip use_pandas debug w
  = (w', r) ->
  exists n2,
    R (fs w) n2
    /\ (fs w' = n2
        \/ (use_pandas = true /\ (exists n, r = Ret n)
            /\ fs w' = store save_excel_path
                             (Sheet ["patient_id"; "n_segment"] (df w')) n2
            /\ FS.lookup (fs w') save_excel_path
               = Some (File (Sheet ["patient_id"; "n_segment"] (df w'))))).
Proof.
  unfold main. cbv beta delta [bind modify] iota.
  destruct (pick_writer (Str.lower export_type)) as [writer|];
    [|intros [= <- <-]; exists (fs w); split; [apply R_refl | by left]].
  fold save_path.
  destruct (create_directory save_path _) as [w0 rc] eqn:Hcd.
  apply R_create in Hcd. cbn [fs with_skip_image_id] in Hcd.
  destruct rc as [[]|e]; [|intros [= <- <-]; exists (fs w0); split; [exact Hcd | by left]].
  destruct use_pandas.
  - destruct (list_patient_ids data_path (with_df [] w0)) as [w1 [ids|e]] eqn:Hids.
    2:{ intros [= <- <-]. exists (fs w0). split; [exact Hcd|left].
        unfold list_patient_ids in Hids. revert Hids. run.
        destruct (FS.lookup (fs w0) data_path) as [[?|?]|]; run; by intros [= <-]. }
    apply list_patient_ids_sorted in Hids as (-> & _).
    destruct (loop _ _ _ _ _ _ _ _ ids 0%nat _) as [w2 [count|e]] eqn:Hloop;
      apply (loop_fs load g save_path R R_refl R_trans R_mesh) in Hloop;
      cbn [fs with_df] in Hloop.
    2:{ intros [= <- <-]. exists (fs w2). split; [by eapply R_trans | by left]. }
    unfold print, to_excel. cbv beta delta [bind modify ret] iota. cbn [fs df with_stdout].
    fold save_path. fold save_excel_path.
    assert (R (fs w) (fs w2)) as Hr2 by (by eapply R_trans).
    destruct (FS.lookup (fs w2) save_excel_path) as [[c|es]|] eqn:Hl;
      try (intros [= <- <-]; exists (fs w2); split; [exact Hr2 | by left]);
      (destruct (FS.put (fs w2) save_excel_path _) as [n|] eqn:Hput;
       [|intros [= <- <-]; exists (fs w2); split; [exact Hr2 | by left]]);
      intros [= <- <-]; exists (fs w2); (split; [exact Hr2|]);
      right; cbn [fs df with_fs with_stdout];
      (split; [reflexivity|]); (split; [by eexists|]);
      (split; [apply put_is_store; [exact Hput | by rewrite Hl]
              | by apply lookup_put_self in Hput]).
  - specialize (R_log eq_refl).
    destruct (open_w _ w0) as [w1 ro] eqn:Hopen. fold save_path in Hopen.
    fold save_log_path in Hopen.
    assert (R (fs w0) (fs w1)) as Hr1.
    { unfold open_w in Hopen.
      destruct (FS.lookup (fs w0) save_log_path) as [[c|es]|] eqn:Hl;
        try (injection Hopen as <- <-; apply R_refl);
        (destruct (FS.put (fs w0) save_log_path _) as [n|] eqn:Hput;
         [|injection Hopen as <- <-; apply R_refl]);
        injection Hopen as <- <-; cbn [fs with_fs with_f_log];
        rewrite (put_is_store _ _ _ _ Hput) by (by rewrite Hl); apply R_log. }
    destruct ro as [[]|e];
      [|intros [= <- <-]; exists (fs w1); split; [by eapply R_trans | by left]].
    destruct (list_patient_ids data_path w1) as [w1' [ids|e]] eqn:Hids.
    2:{ intros [= <- <-]. exists (fs w1). split; [by eapply R_trans|left].
        unfold list_patient_ids in Hids. revert Hids. run.
        destruct (FS.lookup (fs w1) data_path) as [[?|?]|]; run; by intros [= <-]. }
    apply list_patient_ids_sorted in Hids as (-> & _).
    destruct (loop _ _ _ _ _ _ _ _ ids 0%nat _) as [w2 [count|e]] eqn:Hloop;
      apply (loop_fs load g save_path R R_refl R_trans R_mesh) in Hloop.
    2:{ intros [= <- <-]. exists (fs w2).
        split; [eapply R_trans; [|exact Hloop]; by eapply R_trans | by left]. }
    unfold print, close. cbv beta delta [bind modify ret] iota.
    intros [= <- <-]. cbn [fs f_log with_fs with_stdout]. fold save_path.
    fold save_log_path. eexists. split; [|by left].
    eapply R_trans; [|apply R_log]. eapply R_trans; [|exact Hloop]. by eapply R_trans.
Qed.

End MainFileSystem.

Lemma fs_with_fs (n : node) (w : World) : fs (with_fs n w) = n.
Proof. reflexivity. Qed.

(** [create_directory] touches nothing beside the path, however it ends. *)
Lemma create_directory_outside (path : Path) (w w' : World) (r : res unit) (q : Path) :
  create_directory path w = (w', r) ->
  FS.diverges path q -> FS.lookup (fs w') q = FS.lookup (fs w) q.
Proof.
  intros H Hd. revert H. unfold create_directory, FS.exists_, FS.rmtree.
  destruct (FS.lookup (fs w) path) as [[f|es]|] eqn:Hl.
  - by intros [= <- <-].
  - destruct path as [|c p]; [by apply diverges_nil in Hd|].
    remember (c :: p) as path eqn:Hpath.
    destruct (FS.mkdir [] (FS.remove (fs w) path) path) as [n'|e] eqn:Hm;
      intros [= <- <-]; rewrite fs_with_fs.
    + rewrite (FSFacts.lookup_mkdir_diverges _ _ _ _ _ Hd Hm).
      by apply FSFacts.lookup_remove_diverges.
    + by apply FSFacts.lookup_remove_diverges.
  - destruct (FS.mkdir [] (fs w) path) as [n'|e] eqn:Hm;
      intros [= <- <-]; rewrite fs_with_fs; [|reflexivity].
    by rewrite (FSFacts.lookup_mkdir_diverges _ _ _ _ _ Hd Hm).
Qed.

(** The batch writes below the export root only.  Take paths in normal
    form, a label and segment ids that hold no separator, and case
    directories whose names are names, so that each of them is one
    component of the paths the script builds: then a path that leaves the
    export root sees the same node before and after [main], however [main]
    ends.  In particular the data set is not changed when it lies outside
    the export root.  (A label such as [/../../x] is outside of this: with
    it the script builds a destination that is not below the export
    root.) *)
Theorem main_changes_nothing_outside_the_export_root
    (load : node -> Path -> option Segmentation) (g : option string)
    (data_path export_path : Path) (selected_segment export_type : string)
    (skip : option (list string)) (use_pandas debug : bool) (w : World) (q : Path) :
  no_separator selected_segment = true ->
  (forall n p seg, load n p = Some seg ->
                   Forall (fun s => no_separator s.1 = true) (segments seg)) ->
  (forall es, FS.lookup (fs w) data_path = Some (Dir es) ->
              forallb is_name (FS.subdirs es) = true) ->
  normal data_path = true -> normal export_path = true -> normal q = true ->
  FS.diverges export_path q ->
  FS.lookup (fs (main load g data_path export_path selected_segment export_type skip
                      use_pandas debug w).1) q
  = FS.lookup (fs w) q.
Proof.
  intros _ _ _ _ _ _ Hq.
  destruct (main load g data_path export_path selected_segment export_type skip
                 use_pandas debug w) as [w' r] eqn:E.
  apply (main_fs load g data_path export_path selected_segment export_type skip
           use_pandas debug
           (fun n n' => forall q, FS.diverges export_path q ->
                                  FS.lookup n' q = FS.lookup n q)) in E.
  - cbn [fst]. destruct E as (n2 & Hn2 & [->|(_ & _ & -> & _)]).
    + by apply Hn2.
    + rewrite lookup_store_diverges; [by apply Hn2|].
      unfold save_excel_path_of, join. by apply diverges_app.
  - done.
  - intros n1 n2 n3 H12 H23 q' Hq'. by rewrite H23, H12.
  - intros w0 w1 r0 Hcd q' Hq'. eapply create_directory_outside; [exact Hcd|].
    unfold save_path_of, join. by apply diverges_app.
  - intros n f c q' Hq'. apply lookup_store_diverges.
    unfold save_path_of, join. by apply diverges_app, diverges_app.
  - intros _ n c q' Hq'. apply lookup_store_diverges.
    unfold save_log_path_of, join. by apply diverges_app.
Qed.

Lemma append_ne_self (x e : string) : e <> "" -> x <> x +:+ e.
Proof.
  intros He H. apply (f_equal String.length) in H. rewrite length_append in H.
  destruct e; [done | cbn in H; lia].
Qed.

Lemma diverges_last (p : Path) (a b : string) : a <> b -> FS.diverges (p </> a) (p </> b).
Proof. intros Hab. by exists p, a, b, [], []. Qed.

(** In the tabular form the summary is stored at the very end: when [main]
    is left by an exception, whatever was at the place of the spreadsheet
    before the run is still there, and the rows gathered so far are in no
    file. *)
Theorem no_spreadsheet_after_an_exception
    (load : node -> Path -> option Segmentation) (g : option string)
    (data_path export_path : Path) (selected_segment export_type : string)
    (skip : option (list string)) (debug : bool) (w w' : World) (e : Exn) :
  main load g data_path export_path selected_segment export_type skip true debug w
  = (w', Raise e) ->
  FS.lookup (fs w') (save_excel_path_of data_path export_path selected_segment export_type)
  = FS.lookup (fs w) (save_excel_path_of data_path export_path selected_segment export_type).
Proof.
  intros E.
  assert (FS.diverges (save_path_of data_path export_path selected_segment export_type)
            (save_excel_path_of data_path export_path selected_segment export_type)) as Hd.
  { unfold save_excel_path_of, save_path_of. rewrite name_join. apply diverges_last.
    by apply append_ne_self. }
  apply (main_fs load g data_path export_path selected_segment export_type skip
           true debug
           (fun n n' =>
              FS.lookup n' (save_excel_path_of data_path export_path selected_segment
                                               export_type)
              = FS.lookup n (save_excel_path_of data_path export_path selected_segment
                                                export_type))) in E.
  - by destruct E as (n2 & Hn2 & [->|(_ & [n [=]] & _)]).
  - done.
  - intros n1 n2 n3 H12 H23. by rewrite H23, H12.
  - intros w0 w1 r0 Hcd. by eapply create_directory_outside.
  - intros n f c. apply lookup_store_diverges. by apply diverges_app.
  - discriminate.
Qed.

(** The steps of a run of [main] that does not raise, with the worlds
    between them. *)
Lemma main_run_steps
    (load : node -> Path -> option Segmentation) (g : option string)
    (data_path export_path : Path) (selected_segment export_type : string)
    (skip : option (list string)) (use_pandas debug : bool) (w w' : World) (n : nat) :
  main load g data_path export_path selected_segment export_type skip use_pandas debug w
  = (w', Ret n) ->
  exists (writer : Writer) (w0 w1 w2 : World) (patient_ids : list string),
    create_directory (save_path_of data_path export_path selected_segment export_type)
                     (with_skip_image_id (default [] skip) w) = (w0, Ret tt)
    /\ (if use_pandas then w1 = with_df [] w0
        else open_w (save_log_path_of data_path export_path selected_segment export_type)
                    w0 = (w1, Ret tt))
    /\ loop load g data_path
            (save_path_of data_path export_path selected_segment export_type)
            selected_segment writer use_pandas debug patient_ids 0 w1 = (w2, Ret n)
    /\ df w' = df w2 /\ f_log w' = f_log w2
    /\ (if use_pandas
        then fs w' = store (save_excel_path_of data_path export_path selected_segment
                                               export_type)
                           (Sheet ["patient_id"; "n_segment"] (df w2)) (fs w2)
             /\ FS.lookup (fs w')
                  (save_excel_path_of data_path export_path selected_segment export_type)
                = Some (File (Sheet ["patient_id"; "n_segment"] (df w2)))
        else fs w' = store (save_log_path_of data_path export_path selected_segment
                                             export_type)
                           (Text (f_log w2)) (fs w2)).
Proof.
  unfold main. cbv beta delta [bind modify] iota.
  destruct (pick_writer (Str.lower export_type)) as [writer|]; [|discriminate].
  fold (save_path_of data_path export_path selected_segment export_type).
  fold (save_log_path_of data_path export_path selected_segment export_type).
  fold (save_excel_path_of data_path export_path selected_segment export_type).
  destruct (create_directory _ _) as [w0 [[]|e]] eqn:Hcd; [|discriminate].
  destruct use_pandas.
  - destruct (list_patient_ids data_path (with_df [] w0)) as [w1 [ids|e]] eqn:Hids;
      [|discriminate].
    apply list_patient_ids_sorted in Hids as (-> & _).
    destruct (loop _ _ _ _ _ _ _ _ ids 0%nat _) as [w2 [count|e]] eqn:Hloop; [|discriminate].
    unfold print, to_excel. cbv beta delta [bind modify ret] iota. cbn [fs df with_stdout].
    destruct (FS.lookup (fs w2) _) as [[c|es]|] eqn:Hl;
      try discriminate;
      (destruct (FS.put (fs w2) _ _) as [n'|] eqn:Hput; [|discriminate]);
      intros [= <- <-]; exists writer, w0, (with_df [] w0), w2, ids;
      cbn [fs df f_log with_fs with_stdout];
      repeat split; try done;
      [apply put_is_store; [exact Hput | by rewrite Hl]
      |by apply lookup_put_self in Hput
      |apply put_is_store; [exact Hput | by rewrite Hl]
      |by apply lookup_put_self in Hput].
  - destruct (open_w _ w0) as [w1 [[]|e]] eqn:Hopen; [|discriminate].
    destruct (list_patient_ids data_path w1) as [w1' [ids|e]] eqn:Hids; [|discriminate].
    apply list_patient_ids_sorted in Hids as (-> & _).
    destruct (loop _ _ _ _ _ _ _ _ ids 0%nat _) as [w2 [count|e]] eqn:Hloop; [|discriminate].
    unfold print, close. cbv beta delta [bind modify ret] iota.
    intros [= <- <-]. by exists writer, w0, w1, w2, ids.
Qed.


(** The destination directory: when [main] returns, the directory
    [<export root>/<data set name>__<label>__<format in lower case>] is
    there. *)
Theorem destination_directory_is_there
    (load : node -> Path -> option Segmentation) (g : option string)
    (data_path export_path : Path) (selected_segment export_type : string)
    (skip : option (list string)) (use_pandas debug : bool) (w w' : World) (n : nat) :
  main load g data_path export_path selected_segment export_type skip use_pandas debug w
  = (w', Ret n) ->
  exists es,
    FS.lookup (fs w')
      (export_path </> (name data_path +:+ "__" +:+ selected_segment +:+ "__"
                          +:+ Str.lower export_type))
    = Some (Dir es).
Proof.
  intros E. apply main_run_steps in E
    as (writer & w0 & w1 & w2 & ids & Hcd & Hopen & Hloop & _ & _ & Hend).
  fold (save_path_of data_path export_path selected_segment export_type).
  apply create_directory_empty in Hcd; [|unfold save_path_of, join; by destruct export_path].
  assert (exists es, FS.lookup (fs w1)
                       (save_path_of data_path export_path selected_segment export_type)
                     = Some (Dir es)) as Hd1.
  { destruct use_pandas; [subst w1; by eexists|].
    unfold open_w in Hopen.
    destruct (FS.lookup (fs w0) (save_log_path_of _ _ _ _)) as [[c|es]|] eqn:Hl;
      try discriminate;
      (destruct (FS.put (fs w0) _ _) as [n'|] eqn:Hput; [|discriminate]);
      injection Hopen as <-; cbn [fs with_fs with_f_log];
      rewrite (put_is_store _ _ _ _ Hput) by (by rewrite Hl);
      by eapply store_keeps_dirs. }
  assert ((exists es, FS.lookup (fs w1) (save_path_of data_path export_path
                                          selected_segment export_type) = Some (Dir es)) ->
          exists es, FS.lookup (fs w2) (save_path_of data_path export_path
                                         selected_segment export_type) = Some (Dir es))
    as Hkeep.
  { refine (loop_fs load g _
              (fun n1 n2 =>
                 (exists es, FS.lookup n1 (save_path_of data_path export_path
                                             selected_segment export_type)
                             = Some (Dir es)) ->
                 exists es, FS.lookup n2 (save_path_of data_path export_path
                                            selected_segment export_type)
                            = Some (Dir es))
              _ _ _ _ _ _ _ _ _ _ _ _ _ Hloop).
    - done.
    - intros n1 n2 n3 H12 H23 H1. auto.
    - intros n1 f c [es0 Hes0]. by eapply store_keeps_dirs. }
  destruct (Hkeep Hd1) as [es2 Hes2].
  destruct use_pandas; [destruct Hend as [-> _] | rewrite Hend];
    by eapply store_keeps_dirs.
Qed.

(** ** The order of the rows *)

Lemma turn_rows
    (load : node -> Path -> option Segmentation) (g : option string)
    (data_path save_path : Path) (selected_segment : string) (writer : Writer)
    (debug : bool) (patient_id : string) (count : nat) (w w' : World) (out : nat * bool) :
  iteration load g data_path save_path selected_segment writer true debug
            patient_id count w = (w', Ret out) ->
  exists k, (k = 1%nat \/ k = 2%nat) /\ (df w').*1 = (df w).*1 ++ replicate k patient_id.
Proof.
  destruct (contains patient_id (skip_image_id w)) eqn:Hc.
  - rewrite iteration_skip by done. intros [= <- <-]. exists 1%nat.
    split; [by left|]. cbn. by rewrite fmap_app.
  - rewrite iteration_export by done.
    destruct (export_segmentation _ _ _ _ _ _) as [w1 [st|e]] eqn:E; [|discriminate].
    intros [= <- <-].
    apply (export_segmentation_calls _ _ _ _ _ _ _ _ _
             (parents_seg_path data_path patient_id selected_segment)) in E.
    destruct E as [(_ & Hdf & _) _].
    unfold finished, recorded. cbn. rewrite Hdf. unfold noted, recorded.
    destruct (FS.exists_ _ _); cbn; rewrite !fmap_app; cbn.
    + exists 1%nat. split; [by left | reflexivity].
    + exists 2%nat. split; [by right|]. by rewrite <- app_assoc.
Qed.

(** The rows of the table follow the order of the cases: when the loop
    returns, the case names of the rows it added are those of the cases it
    went through, in their order, each once or twice in a row; the cases it
    went through are the first ones of the list, and all of them without the
    debug cap. *)
Theorem rows_follow_the_cases
    (load : node -> Path -> option Segmentation) (g : option string)
    (data_path save_path : Path) (selected_segment : string) (writer : Writer)
    (debug : bool) (patient_ids : list string) (count count' : nat) (w w' : World) :
  loop load g data_path save_path selected_segment writer true debug
       patient_ids count w = (w', Ret count') ->
  exists reps : list (string * nat),
    reps.*1 `prefix_of` patient_ids
    /\ (debug = false -> reps.*1 = patient_ids)
    /\ Forall (fun r => r.2 = 1%nat \/ r.2 = 2%nat) reps
    /\ (df w').*1 = (df w).*1 ++ concat (List.map (fun r => replicate r.2 r.1) reps).
Proof.
  revert count w. induction patient_ids as [|i ids IH]; intros count w.
  - cbn. unfold ret. intros [= <- <-]. exists []. cbn. rewrite app_nil_r.
    repeat split; auto.
  - rewrite loop_cons.
    destruct (iteration _ _ _ _ _ _ _ _ i count w) as [w1 [out|e]] eqn:E; [|discriminate].
    pose proof E as E'. apply turn_rows in E' as (k & Hk & Hrows).
    apply iteration_cases in E as [(_ & -> & _)|(_ & -> & _)]; cbn [fst snd].
    + intros Hl. apply IH in Hl as (reps & Hpre & Hall & Hks & Hdf).
      exists ((i, k) :: reps). cbn. repeat split.
      * by apply prefix_cons.
      * intros Hd. by rewrite (Hall Hd).
      * by constructor.
      * by rewrite Hdf, Hrows, <- app_assoc.
    + destruct (debug && (10 <? S count)%nat)%bool eqn:Hb.
      * intros [= <- <-]. exists [(i, k)]. cbn. rewrite app_nil_r. repeat split.
        -- apply prefix_cons, prefix_nil.
        -- intros ->. discriminate.
        -- by constructor.
        -- exact Hrows.
      * intros Hl. apply IH in Hl as (reps & Hpre & Hall & Hks & Hdf).
        exists ((i, k) :: reps). cbn. repeat split.
        -- by apply prefix_cons.
        -- intros Hd. by rewrite (Hall Hd).
        -- by constructor.
        -- by rewrite Hdf, Hrows, <- app_assoc.
Qed.

(** ** A batch that runs to its end *)

Lemma lookup_child (n : node) (d : Path) (x : string) (es : gmap string node) :
  FS.lookup n d = Some (Dir es) -> FS.lookup n (d </> x) = es !! x.
Proof.
  intros Hl. unfold join. rewrite FSFacts.lookup_app, Hl, FSFacts.lookup_cons.
  by destruct (es !! x).
Qed.

Lemma lookup_parent (n : node) (d : Path) (x : string) (m : node) :
  FS.lookup n (d </> x) = Some m -> exists es, FS.lookup n d = Some (Dir es).
Proof.
  unfold join. rewrite FSFacts.lookup_app.
  destruct (FS.lookup n d) as [[c|es]|]; try discriminate. by eexists.
Qed.

Lemma mkdir_in_dir (at_ : Path) (n : node) (d : Path) (x : string) (es : gmap string node) :
  FS.lookup n d = Some (Dir es) ->
  (forall c, es !! x <> Some (File c)) ->
  exists n', FS.mkdir at_ n (d </> x) = Ret n'.
Proof.
  unfold join. revert at_ n. induction d as [|c d IH]; intros at_ n Hl Hx.
  - injection Hl as ->. cbn [app]. rewrite FSFacts.mkdir_cons.
    destruct (es !! x) as [[c|es']|] eqn:E; [by destruct (Hx c) | |]; by eexists.
  - destruct n as [?|es0]; [discriminate|]. rewrite FSFacts.lookup_cons in Hl.
    destruct (es0 !! c) as [ch|] eqn:E; [|discriminate].
    cbn [app]. rewrite FSFacts.mkdir_cons, E. cbn [default from_option id].
    destruct (IH (at_ </> c) ch Hl Hx) as [n' ->]. by eexists.
Qed.

(** [create_directory] returns when the directory above the path is there
    and no file is at the path. *)
Lemma create_directory_returns (d : Path) (x : string) (es : gmap string node) (w : World) :
  FS.lookup (fs w) d = Some (Dir es) ->
  (forall c, FS.lookup (fs w) (d </> x) <> Some (File c)) ->
  exists w0, create_directory (d </> x) w = (w0, Ret tt).
Proof.
  intros Hd Hx. unfold create_directory, FS.exists_, FS.rmtree.
  destruct (FS.lookup (fs w) (d </> x)) as [[c|old]|] eqn:Hl.
  - by destruct (Hx c).
  - assert (d </> x <> []) as Hne by (unfold join; by destruct d).
    destruct (FSFacts.mkdir_after_remove [] (fs w) (d </> x) old Hne Hl) as (n' & Hm & _).
    destruct (d </> x) as [|c p] eqn:Hp; [congruence|]. rewrite Hm. by eexists.
  - rewrite (lookup_child _ _ _ _ Hd) in Hl.
    destruct (mkdir_in_dir [] (fs w) d x es Hd) as [n' ->]; [by rewrite Hl|]. by eexists.
Qed.

(** [main] returns when the export root, the data set and the host are in
    order; the conditions are spelled out with the theorem that follows. *)
Lemma main_runs_to_its_end
    (load : node -> Path -> option Segmentation) (g : option string)
    (data_path export_path : Path) (selected_segment export_type : string)
    (skip : option (list string)) (use_pandas debug : bool) (w : World)
    (writer : Writer) (es ds : gmap string node) :
  (forall n p, is_Some (load n p)) ->
  pick_writer (Str.lower export_type) = Some writer ->
  writer <> vtkGLTFExporter ->
  FS.lookup (fs w) export_path = Some (Dir es) ->
  (forall c, FS.lookup (fs w)
               (save_path_of data_path export_path selected_segment export_type)
             <> Some (File c)) ->
  (forall es',
      FS.lookup (fs w)
        (if use_pandas
         then save_excel_path_of data_path export_path selected_segment export_type
         else save_log_path_of data_path export_path selected_segment export_type)
      <> Some (Dir es')) ->
  FS.lookup (fs w) data_path = Some (Dir ds) ->
  FS.diverges export_path data_path ->
  exists w' n,
    main load g data_path export_path selected_segment export_type skip use_pandas debug w
    = (w', Ret n).
Proof.
  intros Hload Hpick Hw Hroot Hsave Hsum Hdata Hdiv.
  unfold main. cbv beta delta [bind modify] iota. rewrite Hpick.
  fold (save_path_of data_path export_path selected_segment export_type).
  fold (save_log_path_of data_path export_path selected_segment export_type).
  fold (save_excel_path_of data_path export_path selected_segment export_type).
  set (save_path := save_path_of data_path export_path selected_segment export_type) in *.
  set (log := save_log_path_of data_path export_path selected_segment export_type) in *.
  set (excel := save_excel_path_of data_path export_path selected_segment export_type) in *.
  assert (FS.diverges save_path data_path) as Hdiv_save
      by (unfold save_path, save_path_of, join; by apply diverges_app).
  assert (FS.diverges save_path log /\ FS.diverges save_path excel) as [Hsl Hse].
  { unfold log, excel, save_log_path_of, save_excel_path_of. fold save_path.
    unfold save_path, save_path_of. rewrite name_join.
    split; apply diverges_last; by apply append_ne_self. }
  assert (exists w0, create_directory save_path (with_skip_image_id (default [] skip) w)
                     = (w0, Ret tt)) as [w0 Hcd]
      by exact (create_directory_returns export_path _ es
                  (with_skip_image_id (default [] skip) w) Hroot Hsave).
  rewrite Hcd.
  assert (forall q, FS.diverges save_path q -> FS.lookup (fs w0) q = FS.lookup (fs w) q)
    as Hframe0 by (intros q Hq; by apply (create_directory_outside _ _ _ _ _ Hcd Hq)).
  assert (exists es0, FS.lookup (fs w0) export_path = Some (Dir es0)) as [es0 Hroot0].
  { apply (lookup_parent _ _ (name data_path +:+ "__" +:+ selected_segment +:+ "__"
                                +:+ Str.lower export_type) (Dir ∅)).
    apply (create_directory_empty _ _ _) in Hcd; [exact Hcd|].
    unfold save_path, save_path_of, join. by destruct export_path. }
  destruct use_pandas.
  - (* the tabular form *)
    assert (list_patient_ids data_path (with_df [] w0)
            = (with_df [] w0, Ret (merge_sort Str.le (FS.subdirs ds)))) as ->.
    { unfold list_patient_ids. run. by rewrite (Hframe0 _ Hdiv_save), Hdata. }
    destruct (loop_returns load g Hload data_path save_path selected_segment writer
                true debug (merge_sort Str.le (FS.subdirs ds)) 0 (with_df [] w0) Hw)
      as (w2 & count & Hloop).
    rewrite Hloop. unfold print, to_excel. cbv beta delta [bind modify ret] iota.
    cbn [fs df with_stdout].
    assert (FS.lookup (fs w2) excel = FS.lookup (fs w) excel) as Hex.
    { rewrite <- (Hframe0 _ Hse).
      refine (loop_fs load g save_path
                (fun n1 n2 => FS.lookup n2 excel = FS.lookup n1 excel)
                _ _ _ _ _ _ _ _ _ _ _ _ _ Hloop).
      - done.
      - intros n1 n2 n3 H12 H23. by rewrite H23.
      - intros n1 f c. apply lookup_store_diverges. by apply diverges_app. }
    assert (exists es2, FS.lookup (fs w2) export_path = Some (Dir es2)) as [es2 Hroot2].
    { refine (loop_fs load g save_path
                (fun n1 n2 => (exists e1, FS.lookup n1 export_path = Some (Dir e1)) ->
                              exists e2, FS.lookup n2 export_path = Some (Dir e2))
                _ _ _ _ _ _ _ _ _ _ _ _ _ Hloop _).
      - done.
      - intros n1 n2 n3 H12 H23 H1. auto.
      - intros n1 f c [e1 He1]. by eapply store_keeps_dirs.
      - by exists es0. }
    destruct (put_in_dir (fs w2) export_path
                (name save_path +:+ "__log.xlsx")
                (File (Sheet ["patient_id"; "n_segment"] (df w2))) es2 Hroot2)
      as (n' & Hput & _).
    fold (join export_path (name save_path +:+ "__log.xlsx")) in Hput.
    change (export_path </> (name save_path +:+ "__log.xlsx")) with excel in Hput.
    rewrite Hput, Hex.
    destruct (FS.lookup (fs w) excel) as [[c|es']|] eqn:Hl;
      [by eexists _, _ | by destruct (Hsum es') | by eexists _, _].
  - (* the log form *)
    assert (exists w1, open_w log w0 = (w1, Ret tt)
                       /\ fs w1 = store log (Text []) (fs w0)) as (w1 & Hopen & Hfs1).
    { unfold open_w.
      destruct (put_in_dir (fs w0) export_path (name save_path +:+ "__log.log")
                  (File (Text [])) es0 Hroot0) as (n' & Hput & _).
      fold (join export_path (name save_path +:+ "__log.log")) in Hput.
      change (export_path </> (name save_path +:+ "__log.log")) with log in Hput.
      rewrite Hput.
      assert (match FS.lookup (fs w0) log with Some (Dir _) => False | _ => True end)
        as Hnd.
      { rewrite (Hframe0 _ Hsl).
        destruct (FS.lookup (fs w) log) as [[c|es']|] eqn:Hl; try done.
        by destruct (Hsum es'). }
      rewrite (put_is_store _ _ _ _ Hput Hnd).
      destruct (FS.lookup (fs w0) log) as [[c|es']|]; try done; by eexists. }
    rewrite Hopen.
    assert (list_patient_ids data_path w1
            = (w1, Ret (merge_sort Str.le (FS.subdirs ds)))) as ->.
    { unfold list_patient_ids. run. rewrite Hfs1, lookup_store_diverges.
      - by rewrite (Hframe0 _ Hdiv_save), Hdata.
      - unfold log, save_log_path_of, join. by apply diverges_app. }
    destruct (loop_returns load g Hload data_path save_path selected_segment writer
                false debug (merge_sort Str.le (FS.subdirs ds)) 0 w1 Hw)
      as (w2 & count & Hloop).
    rewrite Hloop. unfold print, close. cbv beta delta [bind modify ret] iota.
    by eexists _, _.
Qed.


(** The script as it is configured (label heart, format stl, log form, no
    debug cap): with a host that loads whatever it is given, the two
    directories of the configuration in place, no file where the
    destination directory goes and no directory where the log goes, the
    script runs to its end and "Done" is the last line it prints. *)
Theorem script_prints_done
    (load : node -> Path -> option Segmentation) (w : World)
    (es ds : gmap string node) :
  (forall n p, is_Some (load n p)) ->
  FS.lookup (fs w) script_export_path = Some (Dir es) ->
  (forall c, FS.lookup (fs w)
               (save_path_of TotalSegmentor_path script_export_path "heart" "stl")
             <> Some (File c)) ->
  (forall es', FS.lookup (fs w)
                 (save_log_path_of TotalSegmentor_path script_export_path "heart" "stl")
               <> Some (Dir es')) ->
  FS.lookup (fs w) TotalSegmentor_path = Some (Dir ds) ->
  exists w' out, script load w = (w', Ret tt) /\ stdout w' = out ++ ["Done"].
Proof.
  intros Hload Hroot Hsave Hlog Hdata.
  destruct (main_runs_to_its_end load (Some "stl") TotalSegmentor_path script_export_path
              "heart" "stl"
              (Some ["s1406"; "s1407"; "s1409"; "s1417"; "s1419"]) false false w
              vtkSTLWriter es ds Hload eq_refl ltac:(discriminate) Hroot Hsave Hlog Hdata)
    as (w1 & n & Hmain).
  { by exists ["Users"; "khoanguyen-tuan"; "Local"; "Data_set"],
              "test_3DSlicer_export", "Totalsegmentator_dataset_v201", [], []. }
  unfold script. cbv beta zeta delta [bind] iota. rewrite Hmain.
  unfold print, modify. by eexists _, _.
Qed.

(** Whenever [create_directory] returns, the path is a directory without an
    entry, also when nothing was at the path and the directories above it
    had to be made; and nothing beside the path has changed. *)
Theorem create_directory_makes_an_empty_directory (path : Path) (w w' : World) :
  path <> [] ->
  create_directory path w = (w', Ret tt) ->
  FS.lookup (fs w') path = Some (Dir ∅)
  /\ (forall q, FS.diverges path q -> FS.lookup (fs w') q = FS.lookup (fs w) q)
  /\ w' = with_fs (fs w') w.
Proof.
  intros Hp H. split; [by eapply create_directory_empty|].
  split; [intros q Hq; by eapply create_directory_outside|].
  by eapply create_directory_frame.
Qed.

(** ** The further properties on the small data set *)

Lemma load_or_empty_total (segs : list (string * bool)) (n : node) (p : Path) :
  is_Some (Demo.load_or_empty segs n p).
Proof.
  unfold Demo.load_or_empty. destruct (FS.lookup n p) as [[[]|]|]; by eexists.
Qed.

Lemma status_witness :
  exists seg,
    Demo.load_or_raise Demo.one_open_segment (fs (Demo.world Demo.root))
      (seg_path_of Demo.data_path "s001" "liver") = Some seg
    /\ 2 = (if closed_surface seg then Z.of_nat (length (segments seg)) else -1)
    /\ 2 <> -2.
Proof.
  apply (status_is_segment_count_or_minus_one
           (Demo.load_or_raise Demo.one_open_segment) None
           (seg_path_of Demo.data_path "s001" "liver") Demo.export_path vtkSTLWriter
           (Demo.world Demo.root)
           (export_segmentation (Demo.load_or_raise Demo.one_open_segment) None
              (seg_path_of Demo.data_path "s001" "liver") Demo.export_path vtkSTLWriter
              (Demo.world Demo.root)).1).
  vm_compute. reflexivity.
Defined.

Lemma no_segment_witness :
  exists w',
    export_segmentation (Demo.load_or_raise []) None
      (seg_path_of Demo.data_path "s001" "liver") Demo.export_path vtkOBJExporter
      (Demo.world Demo.root) = (w', Ret 0)
    /\ calls w' = calls (Demo.world Demo.root)
                    ++ [CallLoadSegmentation (seg_path_of Demo.data_path "s001" "liver")
                                             (name (Demo.data_path </> "s001"));
                        CallCreateClosedSurfaceRepresentation;
                        CallGetNumberOfSegments]
    /\ fs w' = Demo.root
    /\ (axis_labels_visible w', box_visible w') = (true, true).
Proof.
  apply (no_segment_returns_zero (Demo.load_or_raise []) None
           (seg_path_of Demo.data_path "s001" "liver") Demo.export_path
           (Demo.data_path </> "s001") vtkOBJExporter (mkSegmentation true [])
           (Demo.world Demo.root));
    vm_compute; reflexivity.
Defined.

Lemma view_witness :
  (axis_labels_visible
     (export_segmentation (Demo.load_or_raise Demo.two_segments) None
        (seg_path_of Demo.data_path "s001" "liver") Demo.export_path vtkOBJExporter
        (Demo.world Demo.root)).1,
   box_visible
     (export_segmentation (Demo.load_or_raise Demo.two_segments) None
        (seg_path_of Demo.data_path "s001" "liver") Demo.export_path vtkOBJExporter
        (Demo.world Demo.root)).1)
  = (false, false).
Proof.
  apply (scene_exporters_switch_view_decorations_off
           (Demo.load_or_raise Demo.two_segments) None
           (seg_path_of Demo.data_path "s001" "liver") Demo.export_path
           (Demo.data_path </> "s001") vtkOBJExporter
           (mkSegmentation true Demo.two_segments) (Demo.world Demo.root));
    [reflexivity | vm_compute; reflexivity | reflexivity | discriminate].
Defined.

Lemma file_names_witness :
  exists w',
    iteration (Demo.load_or_raise Demo.one_open_segment) None Demo.data_path
      (Demo.export_path </> "Foo__liver__ply") "liver" vtkPLYWriter false false "s001" 0
      (Demo.world Demo.root)
    = (w', Ret (1%nat, false))
    /\ written (calls w')
       = [[Demo.export_path </> "Foo__liver__ply" </> "s001_Segment_1.ply"]]
    /\ f_log w' = ["s001 exported 2 segments" +:+ nl]
    /\ scene w' = [].
Proof.
  apply (files_are_named_after_the_case (Demo.load_or_raise Demo.one_open_segment) None
           Demo.data_path (Demo.export_path </> "Foo__liver__ply") "liver" vtkPLYWriter
           false false "s001" 0 (mkSegmentation true Demo.one_open_segment)
           (Demo.world Demo.root));
    [reflexivity | vm_compute; reflexivity | vm_compute; reflexivity
     | reflexivity | discriminate].
Defined.


Lemma skip_list_witness :
  let w' := (loop (Demo.load_or_empty Demo.two_segments) None Demo.data_path
                  (Demo.export_path </> "Foo__liver__stl") "liver" vtkSTLWriter true false
                  ["s001"; "s002"; "s003"] 0
                  (with_skip_image_id ["s003"; "s999"] (Demo.world Demo.root))).1 in
  NoDup (skip_image_id w')
  /\ forall x, x ∈ skip_image_id w'
               <-> x ∈ ["s003"; "s999"] /\ x ∉ ["s001"; "s002"; "s003"].
Proof.
  apply (skip_list_keeps_the_names_of_no_case
           (Demo.load_or_empty Demo.two_segments) None Demo.data_path
           (Demo.export_path </> "Foo__liver__stl") "liver" vtkSTLWriter true
           ["s001"; "s002"; "s003"] 0 2
           (with_skip_image_id ["s003"; "s999"] (Demo.world Demo.root))).
  - apply (bool_decide_unpack _). vm_compute. exact I.
  - vm_compute. reflexivity.
Defined.

Lemma no_case_stops_witness :
  exists w',
    loop (Demo.load_or_empty Demo.two_segments) None Demo.data_path
         (Demo.export_path </> "Foo__liver__stl") "liver" vtkSTLWriter true false
         ["s001"; "s002"; "s003"] 0
         (with_skip_image_id ["s003"] (Demo.world Demo.root))
    = (w', Ret (length (filter (fun i => i ∉ ["s003"]) ["s001"; "s002"; "s003"])))
    /\ exported_cases (calls w')
       = exported_cases (calls (Demo.world Demo.root))
           ++ filter (fun i => i ∉ ["s003"]) ["s001"; "s002"; "s003"].
Proof.
  apply (no_case_stops_the_batch (Demo.load_or_empty Demo.two_segments) None
           Demo.data_path (Demo.export_path </> "Foo__liver__stl") "liver" vtkSTLWriter
           true ["s001"; "s002"; "s003"]
           (with_skip_image_id ["s003"] (Demo.world Demo.root))).
  - apply load_or_empty_total.
  - discriminate.
  - apply (bool_decide_unpack _). vm_compute. exact I.
Defined.

Lemma create_directory_twice_witness :
  create_directory (Demo.export_path </> "Foo__liver__stl")
    (create_directory (Demo.export_path </> "Foo__liver__stl")
                      (Demo.world Demo.root_after_run)).1
  = ((create_directory (Demo.export_path </> "Foo__liver__stl")
                       (Demo.world Demo.root_after_run)).1, Ret tt).
Proof.
  apply (create_directory_twice (Demo.export_path </> "Foo__liver__stl")
           (Demo.world Demo.root_after_run));
    [discriminate | vm_compute; reflexivity].
Defined.

Lemma create_directory_blocked_witness :
  exists e,
    create_directory (Demo.data_path </> "README" </> "Foo__liver__stl")
                     (Demo.world Demo.root)
    = (Demo.world Demo.root, Raise e).
Proof.
  apply (create_directory_blocked_by_a_file
           (Demo.data_path </> "README" </> "Foo__liver__stl")
           (Demo.data_path </> "README") ["Foo__liver__stl"] (Opaque "text")
           (Demo.world Demo.root));
    [reflexivity | vm_compute; reflexivity].
Defined.

Lemma create_directory_empty_witness :
  FS.lookup (fs (create_directory (Demo.export_path </> "a" </> "b")
                                  (Demo.world Demo.root)).1)
            (Demo.export_path </> "a" </> "b") = Some (Dir ∅)
  /\ (forall q, FS.diverges (Demo.export_path </> "a" </> "b") q ->
                FS.lookup (fs (create_directory (Demo.export_path </> "a" </> "b")
                                                (Demo.world Demo.root)).1) q
                = FS.lookup (fs (Demo.world Demo.root)) q)
  /\ (create_directory (Demo.export_path </> "a" </> "b") (Demo.world Demo.root)).1
     = with_fs (fs (create_directory (Demo.export_path </> "a" </> "b")
                                     (Demo.world Demo.root)).1)
               (Demo.world Demo.root).
Proof.
  apply (create_directory_makes_an_empty_directory (Demo.export_path </> "a" </> "b")
           (Demo.world Demo.root));
    [discriminate | vm_compute; reflexivity].
Defined.

Lemma outside_witness :
  FS.lookup (fs (main (Demo.load_or_raise Demo.two_segments) None Demo.data_path
                      Demo.export_path "liver" "stl" (Some ["s003"]) true false
                      (Demo.world Demo.root)).1)
            (Demo.data_path </> "s001" </> "segmentations" </> "liver.nii.gz")
  = FS.lookup (fs (Demo.world Demo.root))
              (Demo.data_path </> "s001" </> "segmentations" </> "liver.nii.gz").
Proof.
  apply (main_changes_nothing_outside_the_export_root
           (Demo.load_or_raise Demo.two_segments) None Demo.data_path Demo.export_path
           "liver" "stl" (Some ["s003"]) true false (Demo.world Demo.root)).
  - reflexivity.
  - intros n p seg. unfold Demo.load_or_raise.
    destruct (FS.lookup n p) as [[[]|]|]; try discriminate.
    intros [= <-]. by repeat constructor.
  - intros es H. vm_compute in H. injection H as <-. vm_compute. reflexivity.
  - reflexivity.
  - reflexivity.
  - reflexivity.
  - by exists [], "out", "data", [], ["Foo"; "s001"; "segmentations"; "liver.nii.gz"].
Defined.

Lemma no_spreadsheet_witness :
  FS.lookup (fs (main (Demo.load_or_raise Demo.two_segments) None Demo.data_path
                      Demo.export_path "liver" "stl" (Some ["s003"]) true false
                      (Demo.world Demo.root)).1)
            (save_excel_path_of Demo.data_path Demo.export_path "liver" "stl")
  = FS.lookup (fs (Demo.world Demo.root))
              (save_excel_path_of Demo.data_path Demo.export_path "liver" "stl").
Proof.
  apply (no_spreadsheet_after_an_exception
           (Demo.load_or_raise Demo.two_segments) None Demo.data_path Demo.export_path
           "liver" "stl" (Some ["s003"]) false (Demo.world Demo.root) _
           (RuntimeError "Failed to load node from file")).
  vm_compute. reflexivity.
Defined.


Lemma destination_witness :
  exists es,
    FS.lookup (fs (main (Demo.load_or_empty Demo.two_segments) None Demo.data_path
                        Demo.export_path "liver" "STL" (Some ["s003"]) true false
                        (Demo.world Demo.root)).1)
              (Demo.export_path </> (name Demo.data_path +:+ "__" +:+ "liver" +:+ "__"
                                       +:+ Str.lower "STL"))
    = Some (Dir es).
Proof.
  apply (destination_directory_is_there
           (Demo.load_or_empty Demo.two_segments) None Demo.data_path Demo.export_path
           "liver" "STL" (Some ["s003"]) true false (Demo.world Demo.root) _ 2).
  vm_compute. reflexivity.
Defined.

Lemma rows_witness :
  exists reps : list (string * nat),
    reps.*1 `prefix_of` ["s001"; "s002"; "s003"]
    /\ (false = false -> reps.*1 = ["s001"; "s002"; "s003"])
    /\ Forall (fun r => r.2 = 1%nat \/ r.2 = 2%nat) reps
    /\ (df (loop (Demo.load_or_empty Demo.two_segments) None Demo.data_path
                 (Demo.export_path </> "Foo__liver__stl") "liver" vtkSTLWriter true false
                 ["s001"; "s002"; "s003"] 0
                 (with_skip_image_id ["s003"] (Demo.world Demo.root))).1).*1
       = (df (with_skip_image_id ["s003"] (Demo.world Demo.root))).*1
           ++ concat (List.map (fun r => replicate r.2 r.1) reps).
Proof.
  apply (rows_follow_the_cases
           (Demo.load_or_empty Demo.two_segments) None Demo.data_path
           (Demo.export_path </> "Foo__liver__stl") "liver" vtkSTLWriter false
           ["s001"; "s002"; "s003"] 0 2
           (with_skip_image_id ["s003"] (Demo.world Demo.root))).
  vm_compute. reflexivity.
Defined.


Lemma script_witness :
  exists w' out,
    script (Demo.load_or_empty Demo.two_segments) (Demo.world Demo.script_root)
    = (w', Ret tt)
    /\ stdout w' = out ++ ["Done"].
Proof.
  apply (script_prints_done (Demo.load_or_empty Demo.two_segments)
           (Demo.world Demo.script_root) ∅
           (list_to_map [("s0001",
                          Demo.dir [("segmentations",
                                     Demo.dir [("heart.nii.gz", Demo.volume)])]);
                         ("s1406", Demo.dir [])])).
  - apply load_or_empty_total.
  - vm_compute. reflexivity.
  - intros c. vm_compute. discriminate.
  - intros es'. vm_compute. discriminate.
  - vm_compute. reflexivity.
Defined.
